(** * CDR flux post-processing ([scepter/setup/cflx_proc.py])

    A shallow embedding of the flux assemblers [co2_flx], [sld_flx],
    [carbAlk_adv], [sumCat_adv], [find_cations], [build_cation_df] and of
    the driver [cflx_calc], with the properties of the design document
    checked against them.

    Conventions of the embedding.
    - Numbers.  Python floats are idealised as rationals ([Q]); equalities
      between computed values are stated with [==].  Where pandas can
      produce a missing or non-finite value (an outer merge, a misaligned
      addition, a division by zero) the cell type is [option Q] and [None]
      stands for that value.  The one place where the binary64 value itself
      is the subject (the unit constant) is also evaluated on Rocq's
      primitive floats.
    - Tables.  A pandas DataFrame is a list of named columns, in column
      order.  Columns that pandas broadcasts from one string ([units],
      [flx_type], [runname], [var], [cation]) are kept beside the numeric
      columns as labels.  Input files are rectangular and their headers
      have no repeated name.
    - Effects.  The run directory is a read-only map from paths to
      tokenised files; the pickles written by the driver form an
      association list threaded through [cflx_calc].  Python exceptions are
      the [Raise] branch of [result]. *)

From Stdlib Require Import List String Ascii Bool Arith ZArith QArith Qabs Qfield Lia.
From Stdlib Require Import PrimFloat.
Import ListNotations.

Set Implicit Arguments.
Set Warnings "-inexact-float".
Open Scope string_scope.
Open Scope Q_scope.

(* ------------------------------------------------------------------ *)
(** ** Exceptions and the [result] monad *)

Inductive exn : Type :=
| FileNotFoundError (path : list string)
| KeyError (key : string)
| ValueError (msg : string)
| UnboundLocalError (name : string).

Inductive result (A : Type) : Type :=
| Ok (a : A)
| Raise (e : exn).

Arguments Ok {A} a.
Arguments Raise {A} e.

Definition bind {A B} (c : result A) (k : A -> result B) : result B :=
  match c with
  | Ok a => k a
  | Raise e => Raise e
  end.

Notation "x <- c ;; k" := (bind c (fun x => k))
  (at level 61, c at next level, right associativity).
Notation "' pat <- c ;; k" := (bind c (fun x => match x with pat => k end))
  (at level 61, pat pattern, c at next level, right associativity).

Fixpoint mapM {A B} (f : A -> result B) (l : list A) : result (list B) :=
  match l with
  | [] => Ok []
  | a :: l' => b <- f a ;; bs <- mapM f l' ;; Ok (b :: bs)
  end.

Definition is_ok {A} (r : result A) : bool :=
  match r with Ok _ => true | Raise _ => false end.

(* ------------------------------------------------------------------ *)
(** ** Names, series and frames *)

Definition mem (s : string) (l : list string) : bool :=
  existsb (String.eqb s) l.

(** [list(set(a) & set(b))].  Python leaves the iteration order of a set
    unspecified; the order of [a] is taken here.  Only the order of the
    copied species columns and the order of a row sum depend on it. *)
Definition set_inter (a b : list string) : list string :=
  nodup string_dec (filter (fun s => mem s b) a).

Definition Frame (A : Type) : Type := list (string * list A).

Section Frames.
Variable A : Type.

Definition columns (df : Frame A) : list string := map fst df.

Fixpoint lookup (name : string) (df : Frame A) : option (list A) :=
  match df with
  | [] => None
  | (n, c) :: df' => if String.eqb n name then Some c else lookup name df'
  end.

(** [df[name]] *)
Definition getcol (df : Frame A) (name : string) : result (list A) :=
  match lookup name df with
  | Some c => Ok c
  | None => Raise (KeyError name)
  end.

(** [df[name] = c] : overwrite in place, or append a new column. *)
Fixpoint setcol (df : Frame A) (name : string) (c : list A) : Frame A :=
  match df with
  | [] => [(name, c)]
  | (n, c0) :: df' =>
      if String.eqb n name then (n, c) :: df' else (n, c0) :: setcol df' name c
  end.

(** [df.loc[:, names]] *)
Definition loc (df : Frame A) (names : list string) : result (Frame A) :=
  mapM (fun n => c <- getcol df n ;; Ok (n, c)) names.

Fixpoint assoc_default (k : string) (m : list (string * string)) : string :=
  match m with
  | [] => k
  | (a, b) :: m' => if String.eqb a k then b else assoc_default k m'
  end.

(** [df.rename(columns=m)] *)
Definition rename (m : list (string * string)) (df : Frame A) : Frame A :=
  map (fun nc => (assoc_default (fst nc) m, snd nc)) df.

(** [df.drop(columns=names)] : a name that is no column is a [KeyError]. *)
Definition drop (df : Frame A) (names : list string) : result (Frame A) :=
  match find (fun n => negb (mem n (columns df))) names with
  | Some n => Raise (KeyError n)
  | None => Ok (filter (fun nc => negb (mem (fst nc) names)) df)
  end.

(** [len(df)] *)
Definition nrows (df : Frame A) : nat :=
  match df with
  | [] => 0%nat
  | (_, c) :: _ => List.length c
  end.

(** [df.apply(f)] with [f] receiving the column and its name. *)
Definition apply (f : string -> list A -> list A) (df : Frame A) : Frame A :=
  map (fun nc => (fst nc, f (fst nc) (snd nc))) df.

(** Row [i] of a frame, column by column. *)
Definition cell_at (df : Frame A) (name : string) (i : nat) : option A :=
  match lookup name df with
  | Some c => nth_error c i
  | None => None
  end.
End Frames.

Fixpoint map2 {A B C} (f : A -> B -> C) (l : list A) (m : list B) : list C :=
  match l, m with
  | a :: l', b :: m' => f a b :: map2 f l' m'
  | _, _ => []
  end.

Definition Qltb (x y : Q) : bool :=
  match x ?= y with Lt => true | _ => false end.

(** Arithmetic on numeric series (index-aligned, equal lengths). *)
Definition sadd (x y : list Q) : list Q := map2 Qplus x y.
Definition smul (x y : list Q) : list Q := map2 Qmult x y.
Definition scale (x : list Q) (k : Q) : list Q := map (fun v => v * k) x.

(** [df[names].sum(axis=1)] : the row-wise sum of the named columns. *)
Fixpoint sum_axis1 (df : Frame Q) (names : list string) (acc : list Q)
  : result (list Q) :=
  match names with
  | [] => Ok acc
  | n :: names' => c <- getcol df n ;; sum_axis1 df names' (sadd acc c)
  end.

Definition sum_columns (df : Frame Q) (names : list string) : result (list Q) :=
  sum_axis1 df names (repeat 0 (nrows df)).

(** A frame together with its broadcast string columns. *)
Record DataFrame (A : Type) : Type := mkDF {
  data : Frame A;
  labels : list (string * string)
}.

Fixpoint set_label (l : list (string * string)) (k v : string)
  : list (string * string) :=
  match l with
  | [] => [(k, v)]
  | (a, b) :: l' => if String.eqb a k then (a, v) :: l' else (a, b) :: set_label l' k v
  end.

(* ------------------------------------------------------------------ *)
(** ** The run directory and the text-table loader *)

(** A whitespace-separated token of a data line: a numeral with its value,
    or any other word. *)
Inductive token : Type :=
| Num (q : Q)
| Word (s : string).

Definition File : Type := Frame token.

(** Paths are kept as their components [outdir; runname; subdir; fn]. *)
Definition FileSystem : Type := list string -> option File.

Definition path_eqb (p q : list string) : bool :=
  if list_eq_dec string_dec p q then true else false.

Definition exists_path (fs : FileSystem) (p : list string) : bool :=
  match fs p with Some _ => true | None => false end.

(** [pd.to_numeric] on one cell. *)
Definition to_numeric (t : token) : result Q :=
  match t with
  | Num q => Ok q
  | Word s => Raise (ValueError s)
  end.

(** [df.map(pd.to_numeric)] *)
Definition map_to_numeric (df : Frame token) : result (Frame Q) :=
  mapM (fun nc => c <- mapM to_numeric (snd nc) ;; Ok (fst nc, c)) df.

Definition loaded (map_numeric : bool) : Type :=
  if map_numeric then Frame Q else Frame token.

Definition preprocess_txt (fs : FileSystem) (outdir runname fn run_subdir : string)
    (map_numeric : bool) : result (loaded map_numeric) :=
  let file_path := [outdir; runname; run_subdir; fn] in
  match fs file_path with
  | None => Raise (FileNotFoundError file_path)
  | Some df =>
      match map_numeric return result (loaded map_numeric) with
      | true => map_to_numeric df
      | false => Ok df
      end
  end.

(** [get_data] with [get_int=True], the only way the assemblers call it. *)
Definition get_data (fs : FileSystem) (outdir runname var_fn cdvar : string)
  : result (Frame Q * Frame Q) :=
  let fn := var_fn ++ "-" ++ cdvar ++ ".txt" in
  df <- preprocess_txt fs outdir runname fn "flx" true ;;
  let fn_int := "int_" ++ fn in
  dfint <- preprocess_txt fs outdir runname fn_int "flx" true ;;
  Ok (df, dfint).

(* ------------------------------------------------------------------ *)
(** ** Unit constants

    Every assembler opens with the same three assignments. *)

Definition ton_g : Q := 1 / 1e6.
Definition m2_ha : Q := 10e3.
Definition conv_factor : Q := ton_g * m2_ha.

(** The same three assignments on binary64. *)
Definition ton_g_f64 : float := (1 / 1e6)%float.
Definition m2_ha_f64 : float := 10e3%float.
Definition conv_factor_f64 : float := (ton_g_f64 * m2_ha_f64)%float.

(** Molar masses of the solid species (g/mol). *)
Definition molar_mass_dict : list (string * Q) :=
  [ ("amsi", 60.085); ("qtz", 60.085); ("gb", 78.004); ("gt", 88.854);
    ("hm", 159.692); ("gps", 172.168); ("arg", 100.089); ("cc", 100.089);
    ("dlm", 184.403); ("ab", 262.225); ("kfs", 278.33); ("an", 278.311);
    ("fo", 140.694); ("fa", 203.778); ("en", 100.389); ("fer", 131.931);
    ("dp", 216.553); ("hb", 248.09); ("tm", 812.374); ("antp", 780.976);
    ("mscv", 398.311); ("plgp", 417.262); ("ct", 277.113); ("ka", 258.162);
    ("anl", 220.155); ("nph", 142.055); ("nabd", 367.609); ("kbd", 372.978);
    ("cabd", 366.625); ("mgbd", 363.996); ("ill", 383.90); ("g1", 30);
    ("g2", 30); ("g3", 30); ("amnt", 80.043); ("gbas", 120.496) ].

(** [d[key]] on a dict. *)
Fixpoint dict_get {V} (d : list (string * V)) (key : string) : result V :=
  match d with
  | [] => Raise (KeyError key)
  | (k, v) :: d' => if String.eqb k key then Ok v else dict_get d' key
  end.

(* ------------------------------------------------------------------ *)
(** ** CO2 flux ([co2_flx]) *)

Definition co2_rename : list (string * string) :=
  [ ("time", "time"); ("dif", "co2flx_dif"); ("tflx", "co2flx_tflx");
    ("adv", "co2flx_adv") ].

(** [for sp in sps: tdf[sp] = df[sp]] *)
Fixpoint copy_species (df tdf : Frame Q) (sps : list string) : result (Frame Q) :=
  match sps with
  | [] => Ok tdf
  | sp :: sps' => c <- getcol df sp ;; copy_species df (setcol tdf sp c) sps'
  end.

(** The respiration block, for one of the two tables. *)
Definition add_resp (df tdf : Frame Q) (org_sp : list string) : result (Frame Q) :=
  if (0 <? List.length org_sp)%nat then
    tdf <- copy_species df tdf org_sp ;;
    s <- sum_columns df org_sp ;;
    Ok (setcol tdf "co2flx_resp" s)
  else Ok tdf.

(** The carbonate block, for one of the two tables. *)
Definition add_inorg (df tdf : Frame Q) (inorg_sp : list string) : result (Frame Q) :=
  if (0 <? List.length inorg_sp)%nat then
    tdf <- copy_species df tdf inorg_sp ;;
    s <- sum_columns df inorg_sp ;;
    let tdf := setcol tdf "co2flx_inorg" s in
    adv <- getcol tdf "co2flx_adv" ;;
    inorg <- getcol tdf "co2flx_inorg" ;;
    Ok (setcol tdf "co2flx_adv_noinorg" (sadd adv inorg))
  else Ok tdf.

Definition not_time_units (name : string) : bool :=
  negb (mem name ["time"; "units"]).

(** [lambda x: x * co2_g_mol * conv_factor if x.name not in [...] else x],
    and its [g m-2] variant. *)
Definition convert_column (convert_units : bool) (co2_g_mol : Q)
    (name : string) (x : list Q) : list Q :=
  if not_time_units name then
    if convert_units then scale (scale x co2_g_mol) conv_factor
    else scale x co2_g_mol
  else x.

Definition times_time (excluded : list string) (df : Frame Q) : result (Frame Q) :=
  match find (fun n => negb (mem n excluded)) (columns df) with
  | None => Ok df
  | Some _ =>
      t <- getcol df "time" ;;
      Ok (apply (fun name x => if mem name excluded then x else smul x t) df)
  end.

Definition co2_flx (fs : FileSystem) (outdir runname var_fn cdvar : string)
    (organic_sp_list inorganic_sp_list : list string)
    (convert_units : bool) (co2_g_mol : Q)
  : result (list (DataFrame Q)) :=
  '(df, dfint) <- get_data fs outdir runname var_fn cdvar ;;
  let org_sp := set_inter organic_sp_list (columns df) in
  let org_sp_int := set_inter organic_sp_list (columns dfint) in
  let inorg_sp := set_inter inorganic_sp_list (columns df) in
  let inorg_sp_int := set_inter inorganic_sp_list (columns dfint) in
  tdf <- loc df ["time"; "dif"; "tflx"; "adv"] ;;
  let tdf := rename co2_rename tdf in
  tdfint <- loc dfint ["time"; "dif"; "tflx"; "adv"] ;;
  let tdfint := rename co2_rename tdfint in
  tdf <- add_resp df tdf org_sp ;;
  tdfint <- add_resp dfint tdfint org_sp_int ;;
  tdf <- add_inorg df tdf inorg_sp ;;
  tdfint <- add_inorg dfint tdfint inorg_sp_int ;;
  let tdfint := apply (convert_column convert_units co2_g_mol) tdfint in
  let tdf := apply (convert_column convert_units co2_g_mol) tdf in
  let units_int := if convert_units then "ton ha-1" else "g m-2" in
  let units := if convert_units then "ton ha-1 yr-1" else "g m-2 yr-1" in
  tdfint <- times_time ["time"; "units"] tdfint ;;
  let lab (u ft : string) :=
    set_label (set_label (set_label (set_label [] "units" u) "flx_type" ft)
                 "runname" runname) "var" cdvar in
  Ok [ mkDF tdf (lab units "flx"); mkDF tdfint (lab units_int "int_flx") ].

(* ------------------------------------------------------------------ *)
(** ** Carbonate alkalinity flux ([carbAlk_adv]) *)

Definition calk_rename : list (string * string) :=
  [ ("time", "time"); ("tflx", "calkflx_tflx"); ("adv", "calkflx_adv") ].

(** [tdf[new] = tdf[src] * k1 * k2 ...] *)
Definition derive (tdf : Frame Q) (new src : string) (ks : list Q)
  : result (Frame Q) :=
  c <- getcol tdf src ;;
  Ok (setcol tdf new (fold_left scale ks c)).

Definition calk_total (tdf : Frame Q) : result (Frame Q) :=
  adv <- getcol tdf "calkflx_adv" ;;
  tflx <- getcol tdf "calkflx_tflx" ;;
  Ok (setcol tdf "calkflx_tot" (sadd adv tflx)).

Definition carbAlk_adv (fs : FileSystem) (outdir runname var_fn cdvar : string)
    (convert_units : bool) (co2potential_g_mol_sil co2potential_g_mol_cc : Q)
  : result (list (DataFrame Q)) :=
  '(df, dfint) <- get_data fs outdir runname var_fn cdvar ;;
  tdf <- loc df ["time"; "tflx"; "adv"] ;;
  let tdf := rename calk_rename tdf in
  tdfint <- loc dfint ["time"; "tflx"; "adv"] ;;
  let tdfint := rename calk_rename tdfint in
  tdf <- calk_total tdf ;;
  tdfint <- calk_total tdfint ;;
  '(tdf, tdfint) <-
    (if convert_units then
       tdf <- derive tdf "co2pot_adv_tonHaYr_sil" "calkflx_adv"
                [co2potential_g_mol_sil; conv_factor] ;;
       tdf <- derive tdf "co2pot_adv_tonHaYr_cc" "calkflx_adv"
                [co2potential_g_mol_cc; conv_factor] ;;
       tdfint <- derive tdfint "co2pot_adv_tonHa_sil" "calkflx_adv"
                [co2potential_g_mol_sil; conv_factor] ;;
       tdfint <- derive tdfint "co2pot_adv_tonHa_cc" "calkflx_adv"
                [co2potential_g_mol_cc; conv_factor] ;;
       tdf <- derive tdf "co2pot_tot_tonHaYr_sil" "calkflx_tot"
                [co2potential_g_mol_sil; conv_factor] ;;
       tdf <- derive tdf "co2pot_tot_tonHaYr_cc" "calkflx_tot"
                [co2potential_g_mol_cc; conv_factor] ;;
       tdfint <- derive tdfint "co2pot_tot_tonHa_sil" "calkflx_tot"
                [co2potential_g_mol_sil; conv_factor] ;;
       tdfint <- derive tdfint "co2pot_tot_tonHa_cc" "calkflx_tot"
                [co2potential_g_mol_cc; conv_factor] ;;
       Ok (tdf, tdfint)
     else
       tdf <- derive tdf "co2pot_adv_gm2Yr_sil" "calkflx_adv" [co2potential_g_mol_sil] ;;
       tdf <- derive tdf "co2pot_adv_gm2Yr_cc" "calkflx_adv" [co2potential_g_mol_cc] ;;
       tdfint <- derive tdfint "co2pot_adv_gm2_sil" "calkflx_adv" [co2potential_g_mol_sil] ;;
       tdfint <- derive tdfint "co2pot_adv_gm2_cc" "calkflx_adv" [co2potential_g_mol_cc] ;;
       tdf <- derive tdf "co2pot_tot_gm2Yr_sil" "calkflx_tot" [co2potential_g_mol_sil] ;;
       tdf <- derive tdf "co2pot_tot_gm2Yr_cc" "calkflx_tot" [co2potential_g_mol_cc] ;;
       tdfint <- derive tdfint "co2pot_tot_gm2_sil" "calkflx_tot" [co2potential_g_mol_sil] ;;
       tdfint <- derive tdfint "co2pot_tot_gm2_cc" "calkflx_tot" [co2potential_g_mol_cc] ;;
       Ok (tdf, tdfint)) ;;
  tdfint <- times_time ["time"] tdfint ;;
  let lab (u ft : string) :=
    set_label (set_label (set_label (set_label [] "units" u) "flx_type" ft)
                 "runname" runname) "var" cdvar in
  Ok [ mkDF tdf (lab "mol m-2 yr" "flx"); mkDF tdfint (lab "mol m-2" "int_flx") ].

(* ------------------------------------------------------------------ *)
(** ** Per-cation table ([build_cation_df]) *)

Definition columns_to_keep : list string := ["time"; "adv"; "tflx"; "res"].

(** [df.loc[:, (np.abs(df) > 1e-7).any(axis=0) | df.columns.isin(keep)]] *)
Definition trim_negligible (df : Frame Q) : Frame Q :=
  filter (fun nc => existsb (fun v => Qltb 1e-7 (Qabs v)) (snd nc)
                    || mem (fst nc) columns_to_keep) df.

(** [Index.difference(other, sort=False)] *)
Definition difference (cols other : list string) : list string :=
  nodup string_dec (filter (fun n => negb (mem n other)) cols).

Definition source_sum (df : Frame Q) (names : list string) : result (list Q) :=
  if (0 <? List.length names)%nat then sum_columns df names
  else Ok (repeat 0 (nrows df)).

Definition sneg (x : list Q) : list Q := map Qopp x.
Definition ssub (x y : list Q) : list Q := map2 Qminus x y.
Definition shalf (x : list Q) : list Q := map (fun v => v / 2) x.

(** [-t["tflx"] - t["noncarbsld_source"] - t["carbsld_source"] / 2] *)
Definition adv_cat_of (t : Frame Q) : result (list Q) :=
  tflx <- getcol t "tflx" ;;
  non <- getcol t "noncarbsld_source" ;;
  carb <- getcol t "carbsld_source" ;;
  Ok (ssub (ssub (sneg tflx) non) (shalf carb)).

(** [-t["noncarbsld_source"] - t["carbsld_source"] / 2] *)
Definition tot_cat_of (t : Frame Q) : result (list Q) :=
  non <- getcol t "noncarbsld_source" ;;
  carb <- getcol t "carbsld_source" ;;
  Ok (ssub (sneg non) (shalf carb)).

(** The columns that [build_cation_df] sets to a text; their values are
    the labels of the table. *)
Definition text_columns : list string := ["units"; "flx_type"; "runname"; "cation"].

(** [df[name] = text] for each of [names]: a numeric column of that name
    is overwritten, so it is no numeric column of the table any more. *)
Definition as_text (df : Frame Q) (names : list string) : Frame Q :=
  filter (fun nc => negb (mem (fst nc) names)) df.

Definition build_cation_df (runname cation : string) (ccharge : Q)
    (tmpdf tmpdfint : Frame Q) (inorganic_sp_list : list string)
    (negligible_val co2potential_g_mol : Q) (convert_units : bool)
  : result (list (DataFrame Q) * DataFrame Q * DataFrame Q) :=
  let tmpdf := trim_negligible tmpdf in
  let tmpdfint := trim_negligible tmpdfint in
  let inorg_sp := set_inter inorganic_sp_list (columns tmpdf) in
  let inorg_sp_int := set_inter inorganic_sp_list (columns tmpdfint) in
  let exclude_cols := (inorg_sp ++ ["time"; "tflx"; "adv"; "res"])%list in
  let exclude_cols_int := (inorg_sp_int ++ ["time"; "tflx"; "adv"; "res"])%list in
  let noninorg_sources := difference (columns tmpdf) exclude_cols in
  (* the source passes [exclude_cols] here, not [exclude_cols_int] *)
  let noninorg_sources_int := difference (columns tmpdfint) exclude_cols in
  s <- source_sum tmpdf noninorg_sources ;;
  let tmpdf := setcol tmpdf "noncarbsld_source" s in
  s <- source_sum tmpdfint noninorg_sources_int ;;
  let tmpdfint := setcol tmpdfint "noncarbsld_source" s in
  s <- source_sum tmpdf inorg_sp ;;
  let tmpdf := setcol tmpdf "carbsld_source" s in
  s <- source_sum tmpdfint inorg_sp_int ;;
  let tmpdfint := setcol tmpdfint "carbsld_source" s in
  adv_cat <- adv_cat_of tmpdf ;;
  adv_cat_int <- adv_cat_of tmpdfint ;;
  tot_cat <- tot_cat_of tmpdf ;;
  tot_cat_int <- tot_cat_of tmpdfint ;;
  let ks := if convert_units then [ccharge; co2potential_g_mol; conv_factor]
            else [ccharge; co2potential_g_mol] in
  let n_adv := if convert_units then "co2pot_adv_tonHaYr" else "co2pot_adv_gm2Yr" in
  let n_adv_int := if convert_units then "co2pot_adv_tonHa" else "co2pot_adv_gm2" in
  let n_tot := if convert_units then "co2pot_tot_tonHaYr" else "co2pot_tot_gm2Yr" in
  let n_tot_int := if convert_units then "co2pot_tot_tonHa" else "co2pot_tot_gm2" in
  let tmpdf := setcol tmpdf n_adv (fold_left scale ks adv_cat) in
  let tmpdfint := setcol tmpdfint n_adv_int (fold_left scale ks adv_cat_int) in
  let tmpdf := setcol tmpdf n_tot (fold_left scale ks tot_cat) in
  let tmpdfint := setcol tmpdfint n_tot_int (fold_left scale ks tot_cat_int) in
  let lab (u ft : string) :=
    set_label (set_label (set_label (set_label [] "units" u) "flx_type" ft)
                 "runname" runname) "cation" cation in
  let tmpdfint := setcol (as_text tmpdfint text_columns) "charge"
                    (repeat ccharge (nrows tmpdfint)) in
  let tmpdf := setcol (as_text tmpdf text_columns) "charge"
                 (repeat ccharge (nrows tmpdf)) in
  let nonint := mkDF tmpdf (lab "mol m-2 yr" "flx") in
  let int := mkDF tmpdfint (lab "mol m-2" "int_flx") in
  Ok ([nonint; int], nonint, int).

(* ------------------------------------------------------------------ *)
(** ** Values that may be missing or non-finite *)

Definition fnum : Type := option Q.

Definition flift2 (f : Q -> Q -> Q) (x y : fnum) : fnum :=
  match x, y with
  | Some a, Some b => Some (f a b)
  | _, _ => None
  end.

Definition fadd : fnum -> fnum -> fnum := flift2 Qplus.
Definition fsub : fnum -> fnum -> fnum := flift2 Qminus.
Definition fmul : fnum -> fnum -> fnum := flift2 Qmult.

(** A zero divisor gives an infinity or a NaN. *)
Definition fdiv (x y : fnum) : fnum :=
  match x, y with
  | Some a, Some b => if Qeq_bool b 0 then None else Some (a / b)
  | _, _ => None
  end.

Definition lift_frame (df : Frame Q) : Frame fnum :=
  map (fun nc => (fst nc, map (@Some Q) (snd nc))) df.

(** Index-aligned binary operation on two series of possibly different
    lengths: the result has the longer index and is missing beyond the
    shorter one. *)
Fixpoint align2 (f : fnum -> fnum -> fnum) (x y : list fnum) : list fnum :=
  match x, y with
  | a :: x', b :: y' => f a b :: align2 f x' y'
  | _ :: x', [] => None :: align2 f x' []
  | [], y' => map (fun _ => None) y'
  end.

(** A series re-indexed to [n] rows. *)
Fixpoint reindex (n : nat) (x : list fnum) : list fnum :=
  match n with
  | O => []
  | S n' =>
      match x with
      | a :: x' => a :: reindex n' x'
      | [] => None :: reindex n' []
      end
  end.

(** [a + b] on frames: columns are matched by name, rows by index. *)
Definition frame_add (a b : Frame fnum) : Frame fnum :=
  let n := Nat.max (nrows a) (nrows b) in
  (map (fun nc => (fst nc,
          match lookup (fst nc) b with
          | Some c => align2 fadd (snd nc) c
          | None => repeat None n
          end)) a
   ++ map (fun nc => (fst nc, repeat None n))
        (filter (fun nc => negb (mem (fst nc) (columns a))) b))%list.

(** [df.insert(0, name, series)] *)
Definition insert0 (df : Frame fnum) (name : string) (c : list fnum)
  : result (Frame fnum) :=
  if mem name (columns df) then Raise (ValueError name)
  else Ok ((name, reindex (nrows df) c) :: df).

Definition ftimes_time (excluded : list string) (df : Frame fnum)
  : result (Frame fnum) :=
  match find (fun n => negb (mem n excluded)) (columns df) with
  | None => Ok df
  | Some _ =>
      t <- getcol df "time" ;;
      Ok (apply (fun name x => if mem name excluded then x else map2 fmul x t) df)
  end.

(* ------------------------------------------------------------------ *)
(** ** Sum of cation fluxes ([find_cations], [sumCat_adv]) *)

(** The default cation registry, in the insertion order of the dict. *)
Definition default_catvars_charge : list (string * Q) :=
  [ ("ca", 2); ("mg", 2); ("k", 1); ("na", 1) ].

Definition find_cations (fs : FileSystem) (outdir runname var_fn : string)
    (catvars_charge : list (string * Q)) : list string :=
  fold_left
    (fun outlist kv =>
       let fn := var_fn ++ "-" ++ fst kv ++ ".txt" in
       let file_path := [outdir; runname; "flx"; fn] in
       if exists_path fs file_path then (outlist ++ [fst kv])%list else outlist)
    catvars_charge [].

Definition charge_rename : list (string * string) :=
  [ ("time", "time"); ("tflx", "tflx_charge"); ("adv", "adv_charge");
    ("carbsld_source", "carbsld_source_charge");
    ("noncarbsld_source", "noncarbsld_source_charge") ].

(** [out_dict[key] = v] *)
Fixpoint dict_set {V} (d : list (string * V)) (key : string) (v : V)
  : list (string * V) :=
  match d with
  | [] => [(key, v)]
  | (k, v0) :: d' =>
      if String.eqb k key then (k, v) :: d' else (k, v0) :: dict_set d' key v
  end.

(** [t[new] = src[name]] *)
Definition take_column (t src : Frame Q) (name : string) : result (Frame Q) :=
  c <- getcol src name ;; Ok (setcol t name c).

(** The columns of one table that enter the sum, renamed. *)
Definition charge_table (src : Frame Q) : result (Frame Q) :=
  t <- loc src ["time"; "tflx"; "adv"; "carbsld_source"; "noncarbsld_source"] ;;
  Ok (rename charge_rename t).

Definition times_charge (ccharge : Q) (t : Frame Q) : Frame Q :=
  apply (fun name x => if mem name ["time"] then x else scale x ccharge) t.

(** Variables of [sumCat_adv] that the loop may leave unbound. *)
Record sumCat_state : Type := mkSumCat {
  out_dict : list (string * list (DataFrame Q));
  outdf : option (Frame fnum);
  outdfint : option (Frame fnum)
}.

Definition unbound {A} (name : string) (v : option A) : result A :=
  match v with
  | Some a => Ok a
  | None => Raise (UnboundLocalError name)
  end.

(** [acc.drop(columns="time") + t.drop(columns="time")], then the time of
    [t] put back in front. *)
Definition accumulate (acc t : Frame fnum) : result (Frame fnum) :=
  a <- drop acc ["time"] ;;
  b <- drop t ["time"] ;;
  let s := frame_add a b in
  time <- getcol t "time" ;;
  insert0 s "time" time.

(** One iteration of the loop over the discovered cations.
    [build_cation_df] is called without [convert_units], that is with its
    default [True], whatever [sumCat_adv] received. *)
Definition sumCat_step (fs : FileSystem) (outdir runname var_fn : string)
    (catvars_charge : list (string * Q)) (convert_units : bool)
    (catvars_exist : list string) (st : sumCat_state) (cat : string)
  : result sumCat_state :=
  ccharge <- dict_get catvars_charge cat ;;
  '(tmpdf, tmpdfint) <- get_data fs outdir runname var_fn cat ;;
  '(outdf_cat, nonintdf, intdf) <-
    build_cation_df runname cat ccharge tmpdf tmpdfint
      ["cc"; "dlm"; "arg"] 1e-7 44.01 true ;;
  let out_dict' := dict_set (out_dict st) cat outdf_cat in
  tdf <- charge_table (data nonintdf) ;;
  tdfint <- charge_table (data intdf) ;;
  let tdf := times_charge ccharge tdf in
  let tdfint := times_charge ccharge tdfint in
  '(tdf, tdfint) <-
    (if convert_units then
       tdf <- take_column tdf (data nonintdf) "co2pot_adv_tonHaYr" ;;
       tdfint <- take_column tdfint (data intdf) "co2pot_adv_tonHa" ;;
       tdf <- take_column tdf (data nonintdf) "co2pot_tot_tonHaYr" ;;
       tdfint <- take_column tdfint (data intdf) "co2pot_tot_tonHa" ;;
       Ok (tdf, tdfint)
     else
       tdf <- take_column tdf (data nonintdf) "co2pot_adv_gm2Yr" ;;
       tdfint <- take_column tdfint (data intdf) "co2pot_adv_gm2" ;;
       tdf <- take_column tdf (data nonintdf) "co2pot_tot_gm2Yr" ;;
       tdfint <- take_column tdfint (data intdf) "co2pot_tot_gm2" ;;
       Ok (tdf, tdfint)) ;;
  let tdf := lift_frame tdf in
  let tdfint := lift_frame tdfint in
  if String.eqb cat (hd "" catvars_exist) then
    Ok (mkSumCat out_dict' (Some tdf) (Some tdfint))
  else
    o <- unbound "outdf" (outdf st) ;;
    o <- accumulate o tdf ;;
    oi <- unbound "outdfint" (outdfint st) ;;
    oi <- accumulate oi tdfint ;;
    Ok (mkSumCat out_dict' (Some o) (Some oi)).

Fixpoint foldM {S X} (f : S -> X -> result S) (l : list X) (s : S) : result S :=
  match l with
  | [] => Ok s
  | x :: l' => s' <- f s x ;; foldM f l' s'
  end.

(** ["+".join(l)] *)
Fixpoint join_plus (l : list string) : string :=
  match l with
  | [] => ""
  | [a] => a
  | a :: l' => a ++ "+" ++ join_plus l'
  end.

Definition sumCat_adv (fs : FileSystem) (outdir runname var_fn : string)
    (catvars_charge : list (string * Q)) (convert_units : bool)
  : result (list (DataFrame fnum) * list (string * list (DataFrame Q))) :=
  let catvars_exist := find_cations fs outdir runname var_fn catvars_charge in
  st <- foldM (sumCat_step fs outdir runname var_fn catvars_charge convert_units
                 catvars_exist)
          catvars_exist (mkSumCat [] None None) ;;
  oi <- unbound "outdfint" (outdfint st) ;;
  oi <- ftimes_time ["time"] oi ;;
  o <- unbound "outdf" (outdf st) ;;
  let lab (u ft : string) :=
    set_label (set_label (set_label (set_label [] "units" u) "flx_type" ft)
                 "runname" runname) "var" (join_plus catvars_exist) in
  Ok ([ mkDF o (lab "mol m-2 yr x charge" "flx");
        mkDF oi (lab "mol m-2 x charge" "int_flx") ],
      out_dict st).

(* ------------------------------------------------------------------ *)
(** ** Time integration and the dust series *)

(** [scipy.integrate.cumulative_trapezoid(y, x, initial=0)] *)
Fixpoint cumtrapz_from (acc x0 y0 : Q) (xs ys : list Q) : list Q :=
  match xs, ys with
  | x1 :: xs', y1 :: ys' =>
      let acc' := acc + (x1 - x0) * (y1 + y0) / 2 in
      acc' :: cumtrapz_from acc' x1 y1 xs' ys'
  | _, _ => []
  end.

Definition cumulative_trapezoid (y x : list Q) : result (list Q) :=
  match x, y with
  | x0 :: xs, y0 :: ys => Ok (0 :: cumtrapz_from 0 x0 y0 xs ys)
  | _, _ => Raise (ValueError "At least one point is required")
  end.

Definition time_in (t : Q) (times : list Q) : bool :=
  existsb (Qeq_bool t) times.

(** [drop_duplicates(subset="time", keep="first")] on rows [(time, value)]. *)
Fixpoint drop_duplicates_from (seen : list Q) (rows : list (Q * Q))
  : list (Q * Q) :=
  match rows with
  | [] => []
  | r :: rows' =>
      if time_in (fst r) seen then drop_duplicates_from seen rows'
      else r :: drop_duplicates_from (fst r :: seen) rows'
  end.

Definition drop_duplicates (rows : list (Q * Q)) : list (Q * Q) :=
  drop_duplicates_from [] rows.

Definition value_at (t : Q) (rows : list (Q * Q)) : fnum :=
  option_map snd (find (fun r => Qeq_bool (fst r) t) rows).

(** Stable insertion sort of rows on their time. *)
Fixpoint insert_row (r : Q * fnum) (l : list (Q * fnum)) : list (Q * fnum) :=
  match l with
  | [] => [r]
  | r' :: l' =>
      if Qle_bool (fst r') (fst r) then r' :: insert_row r l' else r :: l
  end.

Definition sort_rows (l : list (Q * fnum)) : list (Q * fnum) :=
  fold_left (fun acc r => insert_row r acc) l [].

(** [pd.merge(df, right, on="time", how="outer")], reduced to the columns
    [time] and [int_dust_g_m2_yr].  [right] has no repeated time; the keys
    of the result are sorted; [own] is a column of that name in [df]
    itself, which then keeps the unsuffixed name. *)
Definition merge_outer (left : list Q) (own : option (list Q))
    (right : list (Q * Q)) : list (Q * fnum) :=
  let left_rows :=
    match own with
    | Some c => map2 (fun t v => (t, Some v)) left c
    | None => map (fun t => (t, value_at t right)) left
    end in
  let right_only := filter (fun r => negb (time_in (fst r) left)) right in
  let right_rows :=
    map (fun r => (fst r, match own with Some _ => None | None => Some (snd r) end))
      right_only in
  sort_rows (left_rows ++ right_rows).

(** [Series.interpolate()] : linear in the row position between valid
    neighbours; leading gaps stay missing, trailing gaps repeat the last
    valid value. *)
Definition fill_gap (a b : Q) (k : nat) : list fnum :=
  map (fun m => Some (a + (b - a) * (inject_Z (Z.of_nat m) / inject_Z (Z.of_nat (S k)))))
    (seq 1 k).

Fixpoint interpolate_after (a : Q) (pending : nat) (xs : list fnum) : list fnum :=
  match xs with
  | [] => repeat (Some a) pending
  | None :: xs' => interpolate_after a (S pending) xs'
  | Some b :: xs' => (fill_gap a b pending ++ Some b :: interpolate_after b 0 xs')%list
  end.

Fixpoint interpolate (xs : list fnum) : list fnum :=
  match xs with
  | [] => []
  | None :: xs' => None :: interpolate xs'
  | Some a :: xs' => Some a :: interpolate_after a 0 xs'
  end.

Definition token_is (feedstock : string) (t : token) : bool :=
  match t with
  | Word s => String.eqb s feedstock
  | Num _ => false
  end.

(** [[col for col in dfdust.columns if (dfdust[col] == feedstock).any()]] *)
Definition columns_with_fs (dfdust : Frame token) (feedstock : string)
  : list string :=
  map fst (filter (fun nc => existsb (token_is feedstock) (snd nc)) dfdust).

Definition dust_index (dfdust : Frame token) (feedstock : string) : string :=
  let cols := columns_with_fs dfdust feedstock in
  let fscol := if (0 <? List.length cols)%nat then hd "" cols else "not found" in
  if String.eqb fscol "dustsp1" then "1"
  else if String.eqb fscol "dustsp2" then "2"
  else "1".

(** [dust.txt] as [sld_flx] rebuilds it: the numeric columns, then the two
    species columns. *)
Definition load_dust (fs : FileSystem) (outdir runname : string)
  : result (Frame Q * Frame token) :=
  dfdust0 <- preprocess_txt fs outdir runname "dust.txt" "flx" false ;;
  dropped <- drop dfdust0 ["dustsp1"; "dustsp2"] ;;
  dfnum <- map_to_numeric dropped ;;
  let dfdust := map (fun nc => (fst nc, map Num (snd nc))) dfnum in
  sp1 <- getcol dfdust0 "dustsp1" ;;
  let dfdust := setcol dfdust "dustsp1" sp1 in
  sp2 <- getcol dfdust0 "dustsp2" ;;
  let dfdust := setcol dfdust "dustsp2" sp2 in
  Ok (dfnum, dfdust).

(** The mismatched branch: the integrated rows without repeated times are
    merged with the rows of [df], interpolated, and cut back to the times
    of [df]; then g/m2 becomes ton/ha. *)
Definition resample (left : list Q) (own : option (list Q))
    (dfdust_nodup : list (Q * Q)) : list fnum :=
  let df_merged := merge_outer left own dfdust_nodup in
  let filled := combine (map fst df_merged) (interpolate (map snd df_merged)) in
  let kept := filter (fun r => time_in (fst r) left) filled in
  map (fun r => fdiv (snd r) (Some 100)) kept.

(** The integrated dust in ton/ha on the rows of [df], from dust column
    [dust_dx] of the numeric part of [dust.txt]. *)
Definition dust_series_of_column (dfnum : Frame Q) (dust_dx : string)
    (df : Frame Q) : result (list fnum) :=
  rate <- getcol dfnum ("dust" ++ dust_dx ++ "_g_m2_yr") ;;
  time <- getcol dfnum "time" ;;
  int_dust <- cumulative_trapezoid rate time ;;
  if negb (Nat.eqb (nrows dfnum) (nrows df)) then
    let dfdust_nodup := drop_duplicates (combine time int_dust) in
    left <- getcol df "time" ;;
    Ok (resample left (lookup "int_dust_g_m2_yr" df) dfdust_nodup)
  else
    Ok (map (fun v => fdiv (Some v) (Some 100)) int_dust).

Definition dust_from_file_series (fs : FileSystem) (outdir runname feedstock : string)
    (df : Frame Q) : result (list fnum) :=
  '(dfnum, dfdust) <- load_dust fs outdir runname ;;
  let dust_dx := dust_index dfdust feedstock in
  dust_series_of_column dfnum dust_dx df.

(* ------------------------------------------------------------------ *)
(** ** Feedstock dissolution ([sld_flx]) *)

(** [t[new] = t[a] op t[b]] *)
Definition column_op (op : fnum -> fnum -> fnum) (t : Frame fnum)
    (new a b : string) : result (Frame fnum) :=
  x <- getcol t a ;;
  y <- getcol t b ;;
  Ok (setcol t new (map2 op x y)).

Definition sld_flx (fs : FileSystem) (outdir runname feedstock var_fn : string)
    (dust_from_file : bool) (molar_mass_dict : list (string * Q))
  : result (Frame fnum) :=
  '(df, dfint) <- get_data fs outdir runname var_fn feedstock ;;
  dfint <- times_time ["time"] dfint ;;
  intdust <-
    (if dust_from_file then
       intdust <- dust_from_file_series fs outdir runname feedstock df ;;
       if Nat.eqb (List.length intdust) (nrows dfint) then Ok intdust
       else Raise (ValueError "Length of values does not match length of index")
     else
       rain <- getcol dfint "rain" ;;
       m <- dict_get molar_mass_dict feedstock ;;
       Ok (map (fun v => Some (-1 * v * m * conv_factor)) rain)) ;;
  let dfint := setcol (lift_frame dfint) "int_dust_ton_ha_yr" intdust in
  let to_ton_ha (m : Q) (x : list fnum) :=
    map (fun v => fmul (fmul v (Some m)) (Some conv_factor)) x in
  adv <- getcol dfint "adv" ;;
  m <- dict_get molar_mass_dict feedstock ;;
  let dfint := setcol dfint "adv" (to_ton_ha m adv) in
  f <- getcol dfint feedstock ;;
  m <- dict_get molar_mass_dict feedstock ;;
  let dfint := setcol dfint feedstock (to_ton_ha m f) in
  tdfint <- loc dfint ["time"; "int_dust_ton_ha_yr"; "adv"; feedstock] ;;
  tdfint <- column_op fsub tdfint "dust_minus_adv" "int_dust_ton_ha_yr" "adv" ;;
  f <- getcol tdfint feedstock ;;
  let tdfint := setcol tdfint "total_dissolution" f in
  tdfint <- column_op fdiv tdfint "fraction_sld_advected" "adv" "int_dust_ton_ha_yr" ;;
  dust <- getcol tdfint "int_dust_ton_ha_yr" ;;
  adv <- getcol tdfint "adv" ;;
  f <- getcol tdfint feedstock ;;
  dust' <- getcol tdfint "int_dust_ton_ha_yr" ;;
  let tdfint := setcol tdfint "fraction_sld_remaining"
                  (map2 fdiv (map2 fsub (map2 fsub dust adv) f) dust') in
  tdfint <- column_op fdiv tdfint "fraction_remaining_dissolved"
              "total_dissolution" "dust_minus_adv" ;;
  tdfint <- column_op fdiv tdfint "fraction_total_dissolved"
              "total_dissolution" "int_dust_ton_ha_yr" ;;
  Ok tdfint.

(* ------------------------------------------------------------------ *)
(** ** The driver ([cflx_calc]) *)

(** What [to_pickle] writes. *)
Inductive pickle : Type :=
| PickleQ (df : list (DataFrame Q))
| PickleF (df : list (DataFrame fnum)).

(** The files written so far, by path. *)
Definition Store : Type := list (list string * pickle).

Fixpoint to_pickle (st : Store) (path : list string) (p : pickle) : Store :=
  match st with
  | [] => [(path, p)]
  | (q, p0) :: st' =>
      if path_eqb q path then (q, p) :: st' else (q, p0) :: to_pickle st' path p
  end.

(** A computation that writes files and may raise: the store is returned
    in either case, as it is when the exception leaves the driver. *)
Definition Job (A : Type) : Type := Store -> Store * result A.

Definition done : Job unit := fun st => (st, Ok tt).

Definition compute {A} (r : result A) : Job A := fun st => (st, r).

Definition save (path : list string) (p : pickle) : Job unit :=
  fun st => (to_pickle st path p, Ok tt).

Definition bindJ {A B} (c : Job A) (k : A -> Job B) : Job B :=
  fun st =>
    match c st with
    | (st', Ok a) => k a st'
    | (st', Raise e) => (st', Raise e)
    end.

Notation "x <~ c ;; k" := (bindJ c (fun x => k))
  (at level 61, c at next level, right associativity).
Notation "c ;;; k" := (bindJ c (fun _ => k))
  (at level 61, right associativity).

Fixpoint for_each {X} (l : list X) (body : X -> Job unit) : Job unit :=
  match l with
  | [] => done
  | x :: l' => body x ;;; for_each l' body
  end.

(** The [feedstock] argument: one name, or a list of names. *)
Inductive feedstock_arg : Type :=
| One (name : string)
| Many (names : list string).

Section Driver.
Variable fs : FileSystem.
Variables outdir runname : string.
Variable save_dir : string.

Definition savehere (savename : string) : list string :=
  [outdir; runname; save_dir; savename].

Definition stage_co2 (convert_units : bool) : Job unit :=
  co2df <~ compute (co2_flx fs outdir runname "flx_gas" "pco2"
                      ["g1"; "g2"; "g3"] ["arg"; "cc"; "dlm"]
                      convert_units 44.01) ;;
  save (savehere "co2_flxs.pkl") (PickleQ co2df).

Definition stage_carbAlk (convert_units : bool) : Job unit :=
  cAlkdf <~ compute (carbAlk_adv fs outdir runname "flx_co2sp" "ALK"
                       convert_units 88.02 44.01) ;;
  save (savehere "carbAlk_flxs.pkl") (PickleQ cAlkdf).

Definition stage_sumCat : Job unit :=
  r <~ compute (sumCat_adv fs outdir runname "flx_aq"
                  [("ca", 2); ("mg", 2); ("k", 1); ("na", 1)] true) ;;
  save (savehere "cationflx_sum.pkl") (PickleF (fst r)) ;;;
  for_each (snd r)
    (fun item => save (savehere ("cationflx_" ++ fst item ++ ".pkl"))
                   (PickleQ (snd item))).

Definition stage_sld (feedstock : feedstock_arg) : Job unit :=
  let feedstock := match feedstock with One s => [s] | Many l => l end in
  for_each feedstock
    (fun f =>
       rockdf <~ compute (sld_flx fs outdir runname f "flx_sld" true
                            molar_mass_dict) ;;
       save (savehere ("rockflx_" ++ f ++ ".pkl")) (PickleF [mkDF rockdf []])).

Definition when (b : bool) (j : Job unit) : Job unit :=
  if b then j else done.

Definition cflx_calc (feedstock : feedstock_arg)
    (dust_from_file convert_units : bool) (calc_list : list string)
  : Job unit :=
  when (mem "co2_flx" calc_list) (stage_co2 convert_units) ;;;
  when (mem "carbAlk_adv" calc_list) (stage_carbAlk convert_units) ;;;
  when (mem "sumCat_adv" calc_list) stage_sumCat ;;;
  when (mem "sld_flx" calc_list) (stage_sld feedstock).
End Driver.

(* ------------------------------------------------------------------ *)
(** ** Concrete run directories *)

(** A run directory given by the list of its files. *)
Fixpoint mkfs (files : list (list string * File)) : FileSystem :=
  fun p =>
    match files with
    | [] => None
    | (q, f) :: files' => if path_eqb q p then Some f else mkfs files' p
    end.

Definition nums (l : list Q) : list token := map Num l.

Definition flx (fn : string) : list string := ["out"; "run"; "flx"; fn].

(** The end-to-end example of the design document: [flx_gas-pco2.txt] and
    an [int_] counterpart with the same columns. *)
Definition gas_example : File :=
  [ ("time", nums [1; 2; 3]);
    ("dif", nums [-1; -1; -1]);
    ("tflx", nums [0.5; 0.4; 0.3]);
    ("adv", nums [0.4; 0.5; 0.6]);
    ("cc", nums [0.1; 0.1; 0.1]) ].

Definition gas_run : FileSystem :=
  mkfs [ (flx "flx_gas-pco2.txt", gas_example);
         (flx "int_flx_gas-pco2.txt", gas_example) ].

Definition run_co2_example (convert_units : bool) : result (list (DataFrame Q)) :=
  co2_flx gas_run "out" "run" "flx_gas" "pco2" ["g1"; "g2"; "g3"]
    ["arg"; "cc"; "dlm"] convert_units 44.01.

(** A column of the output on the example ([block] 0: the instantaneous
    rows, 1: the integrated rows). *)
Definition example_out (convert_units : bool) (block : nat) (name : string)
  : list Q :=
  match run_co2_example convert_units with
  | Ok out =>
      match nth_error out block with
      | Some t => match lookup name (data t) with Some c => c | None => [] end
      | None => []
      end
  | Raise _ => []
  end.

(** A run with alkalinity files only. *)
Definition alk_example : File :=
  [ ("time", nums [1; 2]); ("tflx", nums [0.1; 0.2]); ("adv", nums [0.3; 0.4]) ].

Definition alk_run : FileSystem :=
  mkfs [ (flx "flx_co2sp-ALK.txt", alk_example);
         (flx "int_flx_co2sp-ALK.txt", alk_example) ].

(** Cation files: calcium with a carbonate and a silicate source,
    magnesium with a carbonate source. *)
Definition ca_example : File :=
  [ ("time", nums [1; 2]); ("tflx", nums [0.1; 0.2]); ("adv", nums [0.3; 0.4]);
    ("res", nums [0; 0]); ("cc", nums [1; 1]); ("ka", nums [2; 2]) ].

Definition mg_example : File :=
  [ ("time", nums [1; 2]); ("tflx", nums [0.1; 0.2]); ("adv", nums [0.3; 0.4]);
    ("res", nums [0; 0]); ("dlm", nums [1; 1]) ].

Definition ca_mg_run : FileSystem :=
  mkfs [ (flx "flx_aq-ca.txt", ca_example); (flx "int_flx_aq-ca.txt", ca_example);
         (flx "flx_aq-mg.txt", mg_example); (flx "int_flx_aq-mg.txt", mg_example) ].

(** A run directory without any cation file. *)
Definition no_cation_run : FileSystem := mkfs [].

(** A cation whose calcite source is negligible in the instantaneous table
    and not in the integrated one. *)
Definition cat_inst : Frame Q :=
  [ ("time", [1]); ("tflx", [0]); ("adv", [0]); ("res", [0]);
    ("cc", [0]); ("ka", [1]) ].

Definition cat_int : Frame Q :=
  [ ("time", [1]); ("tflx", [0]); ("adv", [0]); ("res", [0]);
    ("cc", [1]); ("ka", [1]) ].

(** A column of the instantaneous ([block] 0) or integrated ([block] 1)
    table that [build_cation_df] returns for this cation. *)
Definition cat_column (block : nat) (name : string) : list Q :=
  match build_cation_df "run" "ca" 2 cat_inst cat_int ["cc"; "dlm"; "arg"]
          1e-7 44.01 true with
  | Ok (out, _, _) =>
      match nth_error out block with
      | Some t => match lookup name (data t) with Some c => c | None => [] end
      | None => []
      end
  | Raise _ => []
  end.

(** The summary and the per-cation tables of the calcium-magnesium run. *)
Definition ca_mg_sum (block : nat) (name : string) : list fnum :=
  match sumCat_adv ca_mg_run "out" "run" "flx_aq" default_catvars_charge true with
  | Ok (out, _) =>
      match nth_error out block with
      | Some t => match lookup name (data t) with Some c => c | None => [] end
      | None => []
      end
  | Raise _ => []
  end.

Definition ca_mg_detail (cat : string) (block : nat) (name : string) : list Q :=
  match sumCat_adv ca_mg_run "out" "run" "flx_aq" default_catvars_charge true with
  | Ok (_, d) =>
      match dict_get d cat with
      | Ok out =>
          match nth_error out block with
          | Some t => match lookup name (data t) with Some c => c | None => [] end
          | None => []
          end
      | Raise _ => []
      end
  | Raise _ => []
  end.

Definition label_of {A} (t : DataFrame A) (k : string) : string :=
  assoc_default k (labels t).

(** A feedstock run whose [dust.txt] repeats the time 1, on a grid other
    than that of the flux file; [gbas] and [amnt] are the listed species. *)
Definition sld_example : File :=
  [ ("time", nums [1; 2; 3]); ("adv", nums [0.1; 0.1; 0.1]);
    ("cc", nums [0.2; 0.2; 0.2]); ("rain", nums [-1; -1; -1]) ].

Definition words (l : list string) : list token := map Word l.

Definition dust_example : File :=
  [ ("time", nums [0; 1; 1; 2; 3]);
    ("dust1_g_m2_yr", nums [0; 2; 10; 2; 2]);
    ("dust2_g_m2_yr", nums [0; 0; 0; 0; 0]);
    ("dustsp1", words ["gbas"; "gbas"; "gbas"; "gbas"; "gbas"]);
    ("dustsp2", words ["amnt"; "amnt"; "amnt"; "amnt"; "amnt"]) ].

Definition sld_run : FileSystem :=
  mkfs [ (flx "flx_sld-cc.txt", sld_example);
         (flx "int_flx_sld-cc.txt", sld_example);
         (flx "dust.txt", dust_example) ].

(** The numeric table that [get_data] loads for the feedstock example,
    and a column of the result of [sld_flx] on it. *)
Definition sld_df : Frame Q :=
  [ ("time", [1; 2; 3]); ("adv", [0.1; 0.1; 0.1]);
    ("cc", [0.2; 0.2; 0.2]); ("rain", [-1; -1; -1]) ].

Definition sld_table : Frame fnum :=
  match sld_flx sld_run "out" "run" "cc" "flx_sld" true molar_mass_dict with
  | Ok t => t
  | Raise _ => []
  end.

Definition sld_column (name : string) : list fnum :=
  match lookup name sld_table with Some c => c | None => [] end.

(** The cell of row [i], and its value when it is finite. *)
Definition fcell (c : list fnum) (i : nat) : fnum := nth i c None.

Definition fval (c : list fnum) (i : nat) : Q :=
  match fcell c i with Some q => q | None => 0 end.

(** The column names that [sld_flx] itself reads or writes. *)
Definition sld_reserved : list string :=
  [ "time"; "int_dust_ton_ha_yr"; "adv"; "dust_minus_adv"; "total_dissolution";
    "fraction_sld_advected"; "fraction_sld_remaining";
    "fraction_remaining_dissolved"; "fraction_total_dissolved" ].

(** The columns [co2_flx] uses when every organic and every carbonate
    source is present. *)
Definition co2_columns : list string :=
  ["time"; "dif"; "tflx"; "adv"; "g1"; "g2"; "g3"; "arg"; "cc"; "dlm"].

Definition has_columns (df : Frame Q) (names : list string) : Prop :=
  forall n, In n names -> mem n (columns df) = true.

(** The row sum of three source columns, as [sum_columns] forms it. *)
Definition resp_of (df : Frame Q) (g1 g2 g3 : list Q) : list Q :=
  sadd (sadd (sadd (repeat 0 (nrows df)) g1) g2) g3.

(** The table of [co2_flx] before the unit conversion, from the columns
    of one input table. *)
Definition co2_table (df : Frame Q) (ct cd ctf ca g1 g2 g3 ar cc dl : list Q)
  : Frame Q :=
  [ ("time", ct); ("co2flx_dif", cd); ("co2flx_tflx", ctf); ("co2flx_adv", ca);
    ("g1", g1); ("g2", g2); ("g3", g3); ("co2flx_resp", resp_of df g1 g2 g3);
    ("arg", ar); ("cc", cc); ("dlm", dl); ("co2flx_inorg", resp_of df ar cc dl);
    ("co2flx_adv_noinorg", sadd ca (resp_of df ar cc dl)) ].

Definition balance_names : list string :=
  ["co2flx_adv"; "co2flx_dif"; "co2flx_resp"; "co2flx_inorg"; "co2flx_tflx"].

(** A gas file with the three organic and the three carbonate sources,
    balanced on both rows. *)
Definition gas_full : Frame Q :=
  [ ("time", [1; 2]); ("dif", [-1; -1]); ("tflx", [0.3; 0.2]);
    ("adv", [0.35; 0.25]); ("g1", [0.1; 0.1]); ("g2", [0.1; 0.2]);
    ("g3", [0; 0.1]); ("arg", [0; 0]); ("cc", [0.1; 0.1]); ("dlm", [0.05; 0.05]) ].

Definition gas_full_run : FileSystem :=
  let file := map (fun nc => (fst nc, nums (snd nc))) gas_full in
  mkfs [ (flx "flx_gas-pco2.txt", file); (flx "int_flx_gas-pco2.txt", file) ].

(** What the design document describes for repeated times: the first row
    of each time is kept, and the integral is taken over the kept rows. *)
Definition integrate_keep_first (rate time : list Q) : result (list (Q * Q)) :=
  let kept := drop_duplicates (combine time rate) in
  int_dust <- cumulative_trapezoid (map snd kept) (map fst kept) ;;
  Ok (combine (map fst kept) int_dust).

(** Series compared cell by cell. *)
Definition series_eq (x y : list Q) : Prop := Forall2 Qeq x y.

Definition fnum_eq (x y : fnum) : Prop :=
  match x, y with
  | Some a, Some b => a == b
  | None, None => True
  | _, _ => False
  end.

Definition fseries_eq (x y : list fnum) : Prop := Forall2 fnum_eq x y.

(** The balance [adv = -dif - resp - inorg - tflx] on every row of an
    output table of [co2_flx]. *)
Definition balanced (t : Frame Q) : Prop :=
  forall i A D R I T,
    cell_at t "co2flx_adv" i = Some A ->
    cell_at t "co2flx_dif" i = Some D ->
    cell_at t "co2flx_resp" i = Some R ->
    cell_at t "co2flx_inorg" i = Some I ->
    cell_at t "co2flx_tflx" i = Some T ->
    A == - D - R - I - T.

(** The balance on every row of an input table that has the three organic
    and the three carbonate sources. *)
Definition input_balanced (df : Frame Q) : Prop :=
  forall i a d g1 g2 g3 ar cc dl t,
    cell_at df "adv" i = Some a ->
    cell_at df "dif" i = Some d ->
    cell_at df "g1" i = Some g1 ->
    cell_at df "g2" i = Some g2 ->
    cell_at df "g3" i = Some g3 ->
    cell_at df "arg" i = Some ar ->
    cell_at df "cc" i = Some cc ->
    cell_at df "dlm" i = Some dl ->
    cell_at df "tflx" i = Some t ->
    a == - d - (g1 + g2 + g3) - (ar + cc + dl) - t.

(* ------------------------------------------------------------------ *)
(** ** Definitions for the further properties *)

(** A numeric table as the file that holds its numbers. *)
Definition as_file (df : Frame Q) : File := map (fun nc => (fst nc, nums (snd nc))) df.




(** The two potential columns that [build_cation_df] adds to a table. *)
Definition adv_name (convert_units integrated : bool) : string :=
  if convert_units then (if integrated then "co2pot_adv_tonHa" else "co2pot_adv_tonHaYr")
  else (if integrated then "co2pot_adv_gm2" else "co2pot_adv_gm2Yr").

Definition tot_name (convert_units integrated : bool) : string :=
  if convert_units then (if integrated then "co2pot_tot_tonHa" else "co2pot_tot_tonHaYr")
  else (if integrated then "co2pot_tot_gm2" else "co2pot_tot_gm2Yr").


(** The unit change of [sld_flx] on one column: mol/m2 times the molar
    mass, times [conv_factor]. *)
Definition to_ton_ha (m : Q) (x : list Q) : list fnum :=
  map (fun v => fmul (fmul v (Some m)) (Some conv_factor)) (map (@Some Q) x).

(** [pd.read_pickle(path)] on the files written so far. *)
Fixpoint stored (st : Store) (path : list string) : option pickle :=
  match st with
  | [] => None
  | (q, p) :: st' => if path_eqb q path then Some p else stored st' path
  end.

(** The four stage names that [cflx_calc] looks for in [calc_list]. *)
Definition stage_names : list string :=
  ["co2_flx"; "carbAlk_adv"; "sumCat_adv"; "sld_flx"].

(** A job that leaves the file at [other] as it was, whether it returns
    or raises. *)
Definition preserves {A} (other : list string) (j : Job A) : Prop :=
  forall st, stored (fst (j st)) other = stored st other.

From Stdlib Require DecimalString DecimalN DecimalPos.

(* ------------------------------------------------------------------ *)
(** ** Profile helpers ([get_bsd_prof_units], [get_data_prof]) *)

Definition newline : ascii := "010"%char.

(** The lazy group of the pattern, read from the character after an
    opening bracket: the text up to the first closing bracket; there is no
    match when a newline, which the dot of the pattern does not match, or
    the end of the string comes first. *)
Fixpoint until_bracket (s : string) : option string :=
  match s with
  | EmptyString => None
  | String c s' =>
      if Ascii.eqb c "]" then Some EmptyString
      else if Ascii.eqb c newline then None
      else option_map (String c) (until_bracket s')
  end.

(** [re.search] with the pattern of [get_bsd_prof_units] (an opening
    bracket, a lazy group of any characters, a closing bracket): the
    leftmost start that matches; the result is [group(1)]. *)
Fixpoint search_brackets (s : string) : option string :=
  match s with
  | EmptyString => None
  | String c s' =>
      if Ascii.eqb c "[" then
        match until_bracket s' with
        | Some u => Some u
        | None => search_brackets s'
        end
      else search_brackets s'
  end.

Definition get_bsd_prof_units (var_name : string) : string :=
  match search_brackets var_name with
  | Some u => u
  | None => "NA"
  end.

(** [c in s] for a single character. *)
Fixpoint occurs (c : ascii) (s : string) : bool :=
  match s with
  | EmptyString => false
  | String c' s' => Ascii.eqb c' c || occurs c s'
  end.

Fixpoint zeros (k : nat) : string :=
  match k with
  | O => EmptyString
  | S k' => String "0" (zeros k')
  end.

(** The digits of [n], padded with zeros on the left to [width]. *)
Definition zfill (width : nat) (n : N) : string :=
  let digits := DecimalString.NilEmpty.string_of_uint (N.to_uint n) in
  zeros (width - String.length digits) ++ digits.

(** The format [03d] of the file name: the sign counts in the width. *)
Definition format_03d (time_index : Z) : string :=
  if (time_index <? 0)%Z then "-" ++ zfill 2 (Z.abs_N time_index)
  else zfill 3 (Z.abs_N time_index).

(** The name of the profile file of one time step. *)
Definition prof_fn (var_prefix : string) (time_index : Z) : string :=
  var_prefix ++ "-" ++ format_03d time_index ++ ".txt".

Definition get_data_prof (fs : FileSystem) (outdir runname var_prefix : string)
    (time_index : Z) (run_subdir : string) : result (Frame Q) :=
  let fn := prof_fn var_prefix time_index in
  returnme <- preprocess_txt fs outdir runname fn run_subdir true ;;
  Ok (rename [("z", "depth")] returnme).

(** Reading a formatted index back. *)
Definition parse_index (s : string) : option Z :=
  match s with
  | String "-" s' =>
      option_map (fun d => (- Z.of_N (N.of_uint d))%Z)
        (DecimalString.NilEmpty.uint_of_string s')
  | _ =>
      option_map (fun d => Z.of_N (N.of_uint d))
        (DecimalString.NilEmpty.uint_of_string s)
  end.

(* ------------------------------------------------------------------ *)
(** ** Further run directories *)

(** The value of a computation that returned, [d] otherwise. *)
Definition value_of {A} (d : A) (r : result A) : A :=
  match r with
  | Ok a => a
  | Raise _ => d
  end.

(** The numbers of [gas_example] and of [alk_example]. *)
Definition gas_table : Frame Q :=
  [ ("time", [1; 2; 3]); ("dif", [-1; -1; -1]); ("tflx", [0.5; 0.4; 0.3]);
    ("adv", [0.4; 0.5; 0.6]); ("cc", [0.1; 0.1; 0.1]) ].

Definition alk_table : Frame Q :=
  [ ("time", [1; 2]); ("tflx", [0.1; 0.2]); ("adv", [0.3; 0.4]) ].

(** A run whose integrated gas file is missing. *)
Definition gas_only_run : FileSystem :=
  mkfs [ (flx "flx_gas-pco2.txt", gas_example) ].

(** A gas file without any carbonate column. *)
Definition plain_gas_table : Frame Q :=
  [ ("time", [1; 2]); ("dif", [-1; -1]); ("tflx", [0.5; 0.4]); ("adv", [0.4; 0.5]) ].

Definition plain_gas_run : FileSystem :=
  mkfs [ (flx "flx_gas-pco2.txt", as_file plain_gas_table);
         (flx "int_flx_gas-pco2.txt", as_file plain_gas_table) ].

(** A flux file without the storage column [tflx]. *)
Definition no_tflx_table : Frame Q :=
  [ ("time", [1; 2]); ("dif", [-1; -1]); ("adv", [0.4; 0.5]) ].

Definition no_tflx_run : FileSystem :=
  mkfs [ (flx "flx_gas-pco2.txt", as_file no_tflx_table);
         (flx "int_flx_gas-pco2.txt", as_file no_tflx_table) ].

(** A run with the gas and the alkalinity files. *)
Definition gas_alk_run : FileSystem :=
  mkfs [ (flx "flx_gas-pco2.txt", gas_example);
         (flx "int_flx_gas-pco2.txt", gas_example);
         (flx "flx_co2sp-ALK.txt", alk_example);
         (flx "int_flx_co2sp-ALK.txt", alk_example) ].

(** A feedstock run without [dust.txt], and one on which nothing is
    applied. *)
Definition sld_nodust_run : FileSystem :=
  mkfs [ (flx "flx_sld-cc.txt", sld_example);
         (flx "int_flx_sld-cc.txt", sld_example) ].



(** A profile file of the first time step. *)
Definition prof_table : Frame Q :=
  [ ("z", [0.05; 0.15]); ("ca", [1; 2]) ].

Definition prof_run : FileSystem :=
  mkfs [ (["out"; "run"; "prof"; "prof_aq-001.txt"], as_file prof_table) ].

(** A run with the instantaneous calcium file only. *)
Definition ca_table : Frame Q :=
  [ ("time", [1; 2]); ("tflx", [0.1; 0.2]); ("adv", [0.3; 0.4]);
    ("res", [0; 0]); ("cc", [1; 1]); ("ka", [2; 2]) ].

Definition ca_only_run : FileSystem :=
  mkfs [ (flx "flx_aq-ca.txt", ca_example) ].

(* ------------------------------------------------------------------ *)
(** ** The balance on the rows of a table *)

(** Every named column of the table has one cell for each of its rows. *)
Definition full_columns (df : Frame Q) (names : list string) : Prop :=
  forall n c, In n names -> lookup n df = Some c -> List.length c = nrows df.

(** Row [i] has its five cells, and they are in balance. *)
Definition balanced_row (t : Frame Q) (i : nat) : Prop :=
  exists A D R I T,
    cell_at t "co2flx_adv" i = Some A
    /\ cell_at t "co2flx_dif" i = Some D
    /\ cell_at t "co2flx_resp" i = Some R
    /\ cell_at t "co2flx_inorg" i = Some I
    /\ cell_at t "co2flx_tflx" i = Some T
    /\ A == - D - R - I - T.

(** The first [n] rows are there and in balance. *)
Definition balanced_on (t : Frame Q) (n : nat) : Prop :=
  forall i, (i < n)%nat -> balanced_row t i.

(** Each named column is a column of the table, with [n] cells. *)
Definition columns_of_length (t : Frame Q) (names : list string) (n : nat) : Prop :=
  forall name, In name names ->
    exists c, lookup name t = Some c /\ List.length c = n.

(* ------------------------------------------------------------------ *)
(** ** Unit conversion on binary64 *)


(* ------------------------------------------------------------------ *)
(** ** The selected metrics and what they persist *)

(** What a metric gives [cflx_calc] to persist: paths and contents, in
    the order of the [to_pickle] calls. *)
Definition artifacts : Type := list (list string * pickle).

Definition write_all (st : Store) (l : artifacts) : Store :=
  fold_left (fun s a => to_pickle s (fst a) (snd a)) l st.

(** The last content written to [path], if any. *)
Definition last_written (l : artifacts) (path : list string) : option pickle :=
  option_map snd (find (fun a => path_eqb (fst a) path) (rev l)).

Definition map_result {A B} (f : A -> B) (r : result A) : result B :=
  match r with
  | Ok a => Ok (f a)
  | Raise e => Raise e
  end.

Section Metrics.
Variable fs : FileSystem.
Variables outdir runname save_dir : string.

Definition co2_artifacts (co2df : list (DataFrame Q)) : artifacts :=
  [ (savehere outdir runname save_dir "co2_flxs.pkl", PickleQ co2df) ].

Definition carbAlk_artifacts (cAlkdf : list (DataFrame Q)) : artifacts :=
  [ (savehere outdir runname save_dir "carbAlk_flxs.pkl", PickleQ cAlkdf) ].

Definition sumCat_artifacts
    (r : list (DataFrame fnum) * list (string * list (DataFrame Q))) : artifacts :=
  (savehere outdir runname save_dir "cationflx_sum.pkl", PickleF (fst r))
  :: map (fun item => (savehere outdir runname save_dir
                         ("cationflx_" ++ fst item ++ ".pkl"),
                       PickleQ (snd item))) (snd r).

Definition sld_artifacts (f : string) (rockdf : Frame fnum) : artifacts :=
  [ (savehere outdir runname save_dir ("rockflx_" ++ f ++ ".pkl"),
     PickleF [mkDF rockdf []]) ].

(** The metrics that [calc_list] selects, in the order in which
    [cflx_calc] runs them, [sld_flx] once for each feedstock: each with
    what it gives to persist, or with its exception. *)
Definition selected_metrics (feedstock : feedstock_arg) (convert_units : bool)
    (calc_list : list string) : list (result artifacts) :=
  ((if mem "co2_flx" calc_list then
      [ map_result co2_artifacts
          (co2_flx fs outdir runname "flx_gas" "pco2" ["g1"; "g2"; "g3"]
             ["arg"; "cc"; "dlm"] convert_units 44.01) ]
    else [])
   ++ (if mem "carbAlk_adv" calc_list then
         [ map_result carbAlk_artifacts
             (carbAlk_adv fs outdir runname "flx_co2sp" "ALK" convert_units
                88.02 44.01) ]
       else [])
   ++ (if mem "sumCat_adv" calc_list then
         [ map_result sumCat_artifacts
             (sumCat_adv fs outdir runname "flx_aq"
                [("ca", 2); ("mg", 2); ("k", 1); ("na", 1)] true) ]
       else [])
   ++ (if mem "sld_flx" calc_list then
         map (fun f => map_result (sld_artifacts f)
                         (sld_flx fs outdir runname f "flx_sld" true molar_mass_dict))
           (match feedstock with One s => [s] | Many l => l end)
       else []))%list.
End Metrics.

(** Metrics run one after the other; the first exception ends the run. *)
Fixpoint run_metrics (l : list (result artifacts)) : Job unit :=
  match l with
  | [] => done
  | Ok a :: l' => fun st => run_metrics l' (write_all st a)
  | Raise e :: _ => fun st => (st, Raise e)
  end.

(** A run with the gas files and the alkalinity fluxes, without the
    integrated alkalinity file. *)
Definition alk_no_int_run : FileSystem :=
  mkfs [ (flx "flx_gas-pco2.txt", gas_example);
         (flx "int_flx_gas-pco2.txt", gas_example);
         (flx "flx_co2sp-ALK.txt", alk_example) ].

(* ================================================================== *)
(** * Properties *)

Ltac series := repeat constructor; vm_compute; reflexivity.

Lemma option_map_some {X Y} (f : X -> Y) o y :
  option_map f o = Some y -> exists x, o = Some x /\ y = f x.
Proof. destruct o; simpl; [intros [= <-]; eauto | discriminate]. Qed.

(** ** Frames *)

Section FrameFacts.
Variable A : Type.
Implicit Types (df : Frame A) (n m : string) (c : list A).

Lemma lookup_setcol_same df n c : lookup n (setcol df n c) = Some c.
Proof.
  induction df as [|[k c0] df IH]; simpl.
  - now rewrite String.eqb_refl.
  - destruct (String.eqb k n) eqn:E; simpl; rewrite E; auto.
Qed.

Lemma lookup_setcol_other df n m c :
  String.eqb n m = false -> lookup m (setcol df n c) = lookup m df.
Proof.
  intros Hnm. induction df as [|[k c0] df IH]; simpl.
  - now rewrite Hnm.
  - destruct (String.eqb k n) eqn:E; simpl.
    + apply String.eqb_eq in E. subst k. now rewrite Hnm.
    + destruct (String.eqb k m); auto.
Qed.

Lemma lookup_apply (f : string -> list A -> list A) df n :
  lookup n (apply f df) = option_map (f n) (lookup n df).
Proof.
  induction df as [|[k c0] df IH]; simpl; auto.
  destruct (String.eqb k n) eqn:E; auto.
  apply String.eqb_eq in E. now subst k.
Qed.

Lemma getcol_ok df n c : getcol df n = Ok c -> lookup n df = Some c.
Proof. unfold getcol. destruct (lookup n df); now inversion 1. Qed.

Lemma lookup_getcol df n c : lookup n df = Some c -> getcol df n = Ok c.
Proof. unfold getcol. now intros ->. Qed.

Lemma lookup_mem df n c : lookup n df = Some c -> mem n (columns df) = true.
Proof.
  induction df as [|[k c0] df IH]; simpl; [discriminate|].
  rewrite (String.eqb_sym n k).
  destruct (String.eqb k n); simpl; auto.
Qed.

Lemma mem_lookup df n : mem n (columns df) = true -> exists c, lookup n df = Some c.
Proof.
  induction df as [|[k c0] df IH]; simpl; [discriminate|].
  rewrite (String.eqb_sym n k).
  destruct (String.eqb k n); simpl; eauto.
Qed.
Lemma lookup_cons_eq n (c : list A) df : lookup n ((n, c) :: df) = Some c.
Proof. simpl. now rewrite String.eqb_refl. Qed.
Lemma lookup_cons_ne k n (c : list A) df :
  String.eqb k n = false -> lookup n ((k, c) :: df) = lookup n df.
Proof. simpl. now intros ->. Qed.
Lemma setcol_cons_eq n (c c' : list A) df : setcol ((n, c) :: df) n c' = (n, c') :: df.
Proof. simpl. now rewrite String.eqb_refl. Qed.
Lemma setcol_cons_ne k n (c c' : list A) df :
  String.eqb k n = false -> setcol ((k, c) :: df) n c' = (k, c) :: setcol df n c'.
Proof. simpl. now intros ->. Qed.
Lemma setcol_nil n (c : list A) : setcol [] n c = [(n, c)].
Proof. reflexivity. Qed.
End FrameFacts.

(** Lookups and updates in a frame whose first columns are known. *)
Ltac side := first [reflexivity | assumption].
Ltac frames_in H :=
  repeat first
    [ rewrite lookup_cons_eq in H
    | rewrite lookup_cons_ne in H by side
    | rewrite setcol_cons_eq in H
    | rewrite setcol_cons_ne in H by side
    | rewrite setcol_nil in H
    | rewrite lookup_setcol_same in H
    | rewrite lookup_setcol_other in H by side ].

Lemma bind_ok {A B} (c : result A) (k : A -> result B) (b : B) :
  bind c k = Ok b -> exists a, c = Ok a /\ k a = Ok b.
Proof. destruct c; simpl; [eauto | discriminate]. Qed.

Lemma nth_error_map2 {A B C} (f : A -> B -> C) (x : list A) (y : list B) i v :
  nth_error (map2 f x y) i = Some v ->
  exists a b, nth_error x i = Some a /\ nth_error y i = Some b /\ v = f a b.
Proof.
  revert y i. induction x as [|a x IH]; intros [|b y] [|i]; simpl; try discriminate.
  - intros [= <-]. eauto.
  - apply IH.
Qed.

Lemma nth_error_map_inv {A B} (f : A -> B) (x : list A) i v :
  nth_error (map f x) i = Some v -> exists a, nth_error x i = Some a /\ v = f a.
Proof.
  rewrite nth_error_map. destruct (nth_error x i); simpl; [|discriminate].
  intros [= <-]. eauto.
Qed.

Lemma nth_error_repeat_inv {A} (a : A) n i v :
  nth_error (repeat a n) i = Some v -> v = a.
Proof.
  intros H. apply nth_error_In in H. now apply repeat_spec in H.
Qed.

(* ------------------------------------------------------------------ *)
(** ** The unit constant *)

Lemma nth_error_scale x k i :
  nth_error (scale x k) i = option_map (fun v => v * k) (nth_error x i).
Proof. unfold scale. apply nth_error_map. Qed.

(** The factor is the product [(1/1e6) * 10e3]; it equals 0.01, as a
    rational and as a binary64 value, and the conversions of a column that
    go through it multiply by (molar mass x 0.01). *)
Lemma conv_factor_columns :
  conv_factor = (1 / 1e6) * 10e3
  /\ conv_factor == 0.01
  /\ conv_factor_f64 = 0.01%float
  /\ (forall (co2_g_mol : Q) (name : string) (x : list Q),
        Forall2 (fun v w => w == if not_time_units name
                                 then v * (co2_g_mol * 0.01) else v)
          x (convert_column true co2_g_mol name x))
  /\ (forall (molar_mass : Q) (x : list Q),
        Forall2 (fun v w => w == v * (molar_mass * 0.01))
          x (fold_left scale [molar_mass; conv_factor] x))
  /\ (forall (ccharge molar_mass : Q) (x : list Q),
        Forall2 (fun v w => w == v * ccharge * (molar_mass * 0.01))
          x (fold_left scale [ccharge; molar_mass; conv_factor] x)).
Proof.
  assert (Hc : conv_factor == 0.01) by reflexivity.
  split; [reflexivity|]. split; [exact Hc|]. split; [reflexivity|].
  split; [|split].
  - intros m name x. unfold convert_column.
    destruct (not_time_units name).
    + induction x as [|v x IH]; simpl; constructor; auto.
      rewrite Hc. ring.
    + induction x as [|v x IH]; constructor; auto. reflexivity.
  - intros m x. simpl.
    induction x as [|v x IH]; simpl; constructor; auto.
    rewrite Hc. ring.
  - intros ch m x. simpl.
    induction x as [|v x IH]; simpl; constructor; auto.
    rewrite Hc. ring.
Qed.

(* ------------------------------------------------------------------ *)
(** ** The end-to-end example of [co2_flx] *)

(** The column [co2flx_adv_noinorg] of the instantaneous rows is not
    0.5, 0.6, 0.7, whichever unit is asked for: it is converted with the
    other columns. *)
Lemma example_adv_noinorg_is_converted :
  ~ series_eq (example_out true 0 "co2flx_adv_noinorg") [0.5; 0.6; 0.7]
  /\ ~ series_eq (example_out false 0 "co2flx_adv_noinorg") [0.5; 0.6; 0.7].
Proof.
  split; intros H; vm_compute in H; inversion H as [|? ? ? ? H0 _];
    vm_compute in H0; discriminate.
Qed.

(** C5 (amended).  On the example, with the default [convert_units=True],
    [co2flx_adv_noinorg] is 0.5, 0.6, 0.7 times 44.01 x 0.01, that is
    0.22005, 0.26406, 0.30807; it is [co2flx_adv + co2flx_inorg] row by
    row; and every column of the integrated rows is the input column times
    [time] and times 44.01 x 0.01. *)
Theorem example_co2_flx :
  series_eq (example_out true 0 "co2flx_adv_noinorg")
    (map (fun v => v * (44.01 * 0.01)) [0.5; 0.6; 0.7])
  /\ series_eq (example_out true 0 "co2flx_adv_noinorg") [0.22005; 0.26406; 0.30807]
  /\ series_eq (example_out true 0 "co2flx_adv_noinorg")
       (sadd (example_out true 0 "co2flx_adv") (example_out true 0 "co2flx_inorg"))
  /\ series_eq (example_out true 1 "co2flx_adv_noinorg")
       (sadd (example_out true 1 "co2flx_adv") (example_out true 1 "co2flx_inorg"))
  /\ (let scaled (x : list Q) :=
        map2 (fun v t => v * t * (44.01 * 0.01)) x [1; 2; 3] in
      series_eq (example_out true 1 "time") [1; 2; 3]
      /\ series_eq (example_out true 1 "co2flx_dif") (scaled [-1; -1; -1])
      /\ series_eq (example_out true 1 "co2flx_tflx") (scaled [0.5; 0.4; 0.3])
      /\ series_eq (example_out true 1 "co2flx_adv") (scaled [0.4; 0.5; 0.6])
      /\ series_eq (example_out true 1 "cc") (scaled [0.1; 0.1; 0.1])
      /\ series_eq (example_out true 1 "co2flx_inorg") (scaled [0.1; 0.1; 0.1])
      /\ series_eq (example_out true 1 "co2flx_adv_noinorg") (scaled [0.5; 0.6; 0.7])).
Proof.
  repeat split; vm_compute; series.
Qed.

(* ------------------------------------------------------------------ *)
(** ** The driver *)

Lemma preprocess_txt_missing fs outdir runname fn sub b :
  fs [outdir; runname; sub; fn] = None ->
  preprocess_txt fs outdir runname fn sub b
  = Raise (FileNotFoundError [outdir; runname; sub; fn]).
Proof. unfold preprocess_txt. now intros ->. Qed.

Lemma get_data_missing fs outdir runname var_fn cdvar :
  fs [outdir; runname; "flx"; var_fn ++ "-" ++ cdvar ++ ".txt"] = None ->
  get_data fs outdir runname var_fn cdvar
  = Raise (FileNotFoundError [outdir; runname; "flx"; var_fn ++ "-" ++ cdvar ++ ".txt"]).
Proof.
  intros H. unfold get_data. now rewrite (preprocess_txt_missing _ _ _ _ _ _ H).
Qed.

Lemma bindJ_raise {A B} (c : Job A) (k : A -> Job B) st st' e :
  c st = (st', Raise e) -> bindJ c k st = (st', Raise e).
Proof. unfold bindJ. now intros ->. Qed.

Lemma bindJ_ok {A B} (c : Job A) (k : A -> Job B) st st' a :
  c st = (st', Ok a) -> bindJ c k st = k a st'.
Proof. unfold bindJ. now intros ->. Qed.

(** On a run that has the alkalinity files and no [flx_gas-pco2.txt]:
    [carbAlk_adv] alone completes and writes its pickle; selected together
    with [co2_flx] it is never reached and nothing is written. *)
Lemma missing_gas_file_stops_carbAlk :
  alk_run (flx "flx_gas-pco2.txt") = None
  /\ cflx_calc alk_run "out" "run" "postproc_flxs" (One "cc") true true
       ["carbAlk_adv"] []
     = ([ (["out"; "run"; "postproc_flxs"; "carbAlk_flxs.pkl"],
           match carbAlk_adv alk_run "out" "run" "flx_co2sp" "ALK" true 88.02 44.01 with
           | Ok t => PickleQ t
           | Raise _ => PickleQ []
           end) ], Ok tt)
  /\ is_ok (carbAlk_adv alk_run "out" "run" "flx_co2sp" "ALK" true 88.02 44.01) = true
  /\ cflx_calc alk_run "out" "run" "postproc_flxs" (One "cc") true true
       ["co2_flx"; "carbAlk_adv"] []
     = ([], Raise (FileNotFoundError (flx "flx_gas-pco2.txt"))).
Proof. repeat split; vm_compute; reflexivity. Qed.



(** [convert_units] does reach [co2_flx]. *)
Lemma convert_units_reaches_co2_flx :
  example_out true 0 "co2flx_adv" = map (fun v => v * 44.01 * conv_factor) [0.4; 0.5; 0.6]
  /\ example_out false 0 "co2flx_adv" = map (fun v => v * 44.01) [0.4; 0.5; 0.6].
Proof. split; reflexivity. Qed.

(* ------------------------------------------------------------------ *)
(** ** Cations *)

Lemma find_cations_from fs outdir runname var_fn (catvars_charge : list (string * Q)) acc :
  fold_left
    (fun outlist kv =>
       if exists_path fs [outdir; runname; "flx"; var_fn ++ "-" ++ fst kv ++ ".txt"]
       then (outlist ++ [fst kv])%list else outlist)
    catvars_charge acc
  = (acc ++ map fst
       (filter (fun kv => exists_path fs
                            [outdir; runname; "flx";
                             (var_fn ++ "-" ++ fst kv ++ ".txt")%string])
          catvars_charge))%list.
Proof.
  revert acc. induction catvars_charge as [|kv l IH]; intros acc; simpl.
  - now rewrite app_nil_r.
  - rewrite IH. destruct (exists_path fs _); simpl; auto.
    now rewrite <- app_assoc.
Qed.

(** The discovered cations are the registry entries whose flux file
    exists, in the order of the registry. *)
Lemma find_cations_filter fs outdir runname var_fn catvars_charge :
  find_cations fs outdir runname var_fn catvars_charge
  = map fst
      (filter (fun kv => exists_path fs
                           [outdir; runname; "flx"; var_fn ++ "-" ++ fst kv ++ ".txt"])
         catvars_charge).
Proof. unfold find_cations. now rewrite find_cations_from. Qed.

(** Every table of the summary is labelled with the joined list of the
    discovered cations. *)
Lemma sumCat_adv_var_label fs outdir runname var_fn catvars_charge convert_units out d :
  sumCat_adv fs outdir runname var_fn catvars_charge convert_units = Ok (out, d) ->
  Forall (fun t => label_of t "var"
                   = join_plus (find_cations fs outdir runname var_fn catvars_charge))
    out.
Proof.
  unfold sumCat_adv. intros H.
  apply bind_ok in H as (st & _ & H).
  apply bind_ok in H as (oi & _ & H).
  apply bind_ok in H as (oi' & _ & H).
  apply bind_ok in H as (o & _ & H).
  injection H as <- _. repeat constructor.
Qed.

(** With calcium and magnesium present and potassium and sodium absent,
    the call completes, the label is [ca+mg], one detail table is kept per
    discovered cation, and each summed column is the charge-weighted sum of
    the two cations (2 x Ca + 2 x Mg), the integrated one times [time]. *)
Lemma sumCat_adv_ca_mg :
  find_cations ca_mg_run "out" "run" "flx_aq" default_catvars_charge = ["ca"; "mg"]
  /\ (exists out d,
        sumCat_adv ca_mg_run "out" "run" "flx_aq" default_catvars_charge true
        = Ok (out, d)
        /\ map (fun t => label_of t "var") out = ["ca+mg"; "ca+mg"]
        /\ map fst d = ["ca"; "mg"])
  /\ fseries_eq (ca_mg_sum 0 "tflx_charge")
       (map (@Some Q) (sadd (scale (ca_mg_detail "ca" 0 "tflx") 2)
                            (scale (ca_mg_detail "mg" 0 "tflx") 2)))
  /\ fseries_eq (ca_mg_sum 0 "carbsld_source_charge")
       (map (@Some Q) (sadd (scale (ca_mg_detail "ca" 0 "carbsld_source") 2)
                            (scale (ca_mg_detail "mg" 0 "carbsld_source") 2)))
  /\ fseries_eq (ca_mg_sum 0 "co2pot_tot_tonHaYr")
       (map (@Some Q) (sadd (ca_mg_detail "ca" 0 "co2pot_tot_tonHaYr")
                            (ca_mg_detail "mg" 0 "co2pot_tot_tonHaYr")))
  /\ fseries_eq (ca_mg_sum 1 "co2pot_adv_tonHa")
       (map (@Some Q) (smul (sadd (ca_mg_detail "ca" 1 "co2pot_adv_tonHa")
                                  (ca_mg_detail "mg" 1 "co2pot_adv_tonHa"))
                            [1; 2])).
Proof.
  split; [reflexivity|]. split.
  - destruct (sumCat_adv ca_mg_run "out" "run" "flx_aq" default_catvars_charge true)
      as [[out d]|e] eqn:E; [|vm_compute in E; discriminate].
    exists out, d. split; [reflexivity|].
    vm_compute in E. injection E as <- <-. split; reflexivity.
  - repeat split; vm_compute; series.
Qed.

(** C4.  With no cation file in the run directory the loop of
    [sumCat_adv] never binds [outdfint], and the statement after the loop
    raises [UnboundLocalError]: the empty subset does not complete. *)
Theorem sumCat_adv_without_cations
    (fs : FileSystem) (outdir runname var_fn : string)
    (catvars_charge : list (string * Q)) (convert_units : bool) :
  find_cations fs outdir runname var_fn catvars_charge = [] ->
  sumCat_adv fs outdir runname var_fn catvars_charge convert_units
  = Raise (UnboundLocalError "outdfint").
Proof. intros H. unfold sumCat_adv. rewrite H. reflexivity. Qed.

(** The theorem on a run directory without cation files. *)
Lemma sumCat_adv_without_cations_witness :
  sumCat_adv no_cation_run "out" "run" "flx_aq" default_catvars_charge true
  = Raise (UnboundLocalError "outdfint").
Proof.
  apply (sumCat_adv_without_cations no_cation_run "out" "run" "flx_aq"
           default_catvars_charge true).
  reflexivity.
Defined.

(** In the instantaneous table the two source groups are disjoint by
    construction: the species of the carbonate group are excluded from the
    other group. *)
Lemma instantaneous_sources_disjoint (tmpdf : Frame Q) (inorganic_sp_list : list string) n :
  let inorg_sp := set_inter inorganic_sp_list (columns tmpdf) in
  In n inorg_sp ->
  ~ In n (difference (columns tmpdf) (inorg_sp ++ ["time"; "tflx"; "adv"; "res"])).
Proof.
  intros inorg_sp Hin Hd. unfold difference in Hd.
  apply nodup_In, filter_In in Hd as [_ Hd].
  apply negb_true_iff in Hd.
  assert (mem n (inorg_sp ++ ["time"; "tflx"; "adv"; "res"]) = true) as Hm.
  { unfold mem. apply existsb_exists. exists n. split.
    - apply in_or_app. now left.
    - apply String.eqb_refl. }
  congruence.
Qed.

(** In the integrated table a carbonate species that survives trimming
    there, and not in the instantaneous table, is in both groups: the
    exclusion list is that of the instantaneous table. *)
Lemma integrated_sources_overlap (tmpdf tmpdfint : Frame Q)
    (inorganic_sp_list : list string) n :
  In n inorganic_sp_list ->
  mem n (columns tmpdfint) = true ->
  mem n (columns tmpdf) = false ->
  mem n ["time"; "tflx"; "adv"; "res"] = false ->
  In n (set_inter inorganic_sp_list (columns tmpdfint))
  /\ In n (difference (columns tmpdfint)
             (set_inter inorganic_sp_list (columns tmpdf)
              ++ ["time"; "tflx"; "adv"; "res"])).
Proof.
  intros Hl Hint Hinst Hprot. split.
  - unfold set_inter. apply nodup_In, filter_In. auto.
  - unfold difference. apply nodup_In, filter_In. split.
    + unfold mem in Hint. apply existsb_exists in Hint as (k & Hk & Hnk).
      apply String.eqb_eq in Hnk. now subst k.
    + apply negb_true_iff. unfold mem. rewrite existsb_app.
      fold (mem n ["time"; "tflx"; "adv"; "res"]). rewrite Hprot, orb_false_r.
      destruct (existsb (String.eqb n) (set_inter _ _)) eqn:E; auto.
      apply existsb_exists in E as (k & Hk & Hnk).
      apply String.eqb_eq in Hnk. subst k.
      unfold set_inter in Hk. apply nodup_In, filter_In in Hk as [_ Hk].
      congruence.
Qed.

(** C7.  A cation whose calcite column is negligible in the instantaneous
    file and not in the integrated one (one row; cc = 0 and 1, ka = 1):
    in the integrated table [carbsld_source] is cc = 1, as claimed, but
    [noncarbsld_source] is cc + ka = 2 and not ka = 1; calcite is counted
    in both groups.  The instantaneous table is as claimed. *)
Theorem integrated_noncarb_counts_calcite :
  series_eq (cat_column 0 "carbsld_source") [0]
  /\ series_eq (cat_column 0 "noncarbsld_source") [1]
  /\ series_eq (cat_column 1 "cc") [1]
  /\ series_eq (cat_column 1 "ka") [1]
  /\ series_eq (cat_column 1 "carbsld_source") (cat_column 1 "cc")
  /\ series_eq (cat_column 1 "noncarbsld_source")
       (sadd (cat_column 1 "cc") (cat_column 1 "ka"))
  /\ series_eq (cat_column 1 "noncarbsld_source") [2].
Proof. repeat split; vm_compute; series. Qed.

(* ------------------------------------------------------------------ *)
(** ** The dust series of [sld_flx] *)

Lemma existsb_token_is_nums feedstock (c : list Q) :
  existsb (token_is feedstock) (map Num c) = false.
Proof. induction c; simpl; auto. Qed.

Lemma columns_with_fs_numeric (dfnum : Frame Q) feedstock :
  columns_with_fs (map (fun nc => (fst nc, map Num (snd nc))) dfnum) feedstock = [].
Proof.
  unfold columns_with_fs. induction dfnum as [|[n c] df IH]; simpl; auto.
  now rewrite existsb_token_is_nums.
Qed.




(* ------------------------------------------------------------------ *)
(** ** Integration and repeated times *)

Lemma cumtrapz_from_length acc x0 y0 xs ys :
  List.length (cumtrapz_from acc x0 y0 xs ys)
  = Nat.min (List.length xs) (List.length ys).
Proof.
  revert acc x0 y0 ys. induction xs as [|x xs IH]; intros acc x0 y0 [|y ys];
    simpl; auto.
Qed.

Lemma cumulative_trapezoid_length rate time int_dust :
  cumulative_trapezoid rate time = Ok int_dust ->
  List.length int_dust = Nat.min (List.length time) (List.length rate).
Proof.
  unfold cumulative_trapezoid. destruct time as [|x0 xs]; [discriminate|].
  destruct rate as [|y0 ys]; [discriminate|].
  intros [= <-]. simpl. now rewrite cumtrapz_from_length.
Qed.

(** One step of the trapezoidal rule, between rows [i] and [i+1]. *)
Lemma cumtrapz_from_step acc x0 y0 xs ys i v0 v1 t0 t1 r0 r1 :
  nth_error (acc :: cumtrapz_from acc x0 y0 xs ys) i = Some v0 ->
  nth_error (acc :: cumtrapz_from acc x0 y0 xs ys) (S i) = Some v1 ->
  nth_error (x0 :: xs) i = Some t0 -> nth_error (x0 :: xs) (S i) = Some t1 ->
  nth_error (y0 :: ys) i = Some r0 -> nth_error (y0 :: ys) (S i) = Some r1 ->
  v1 = v0 + (t1 - t0) * (r1 + r0) / 2.
Proof.
  revert acc x0 y0 ys i.
  induction xs as [|x xs IH]; intros acc x0 y0 ys i Hv0 Hv1 Ht0 Ht1 Hr0 Hr1.
  - destruct i; simpl in Ht1; [discriminate|]. destruct i; discriminate.
  - destruct ys as [|y ys].
    + destruct i; simpl in Hr1; [discriminate|]. destruct i; discriminate.
    + destruct i as [|i].
      * simpl in *. congruence.
      * simpl in Hv0, Hv1, Ht0, Ht1, Hr0, Hr1.
        eapply (IH _ x y ys i); simpl; eauto.
Qed.

Lemma time_in_true t seen :
  time_in t seen = true <-> exists s, In s seen /\ t == s.
Proof.
  unfold time_in. rewrite existsb_exists.
  split; intros (s & Hs & E); exists s; split; auto; now apply Qeq_bool_iff.
Qed.

Lemma drop_duplicates_from_not_seen seen rows r :
  In r (drop_duplicates_from seen rows) -> time_in (fst r) seen = false.
Proof.
  revert seen. induction rows as [|r0 rows IH]; intros seen; simpl; [tauto|].
  destruct (time_in (fst r0) seen) eqn:E.
  - apply IH.
  - intros [<- | Hin]; auto.
    apply IH in Hin. simpl in Hin. now apply orb_false_elim in Hin.
Qed.

(** No time is repeated after [drop_duplicates]. *)
Lemma drop_duplicates_from_distinct seen rows :
  ForallOrdPairs (fun r r' => Qeq_bool (fst r') (fst r) = false)
    (drop_duplicates_from seen rows).
Proof.
  revert seen. induction rows as [|r0 rows IH]; intros seen; simpl.
  - constructor.
  - destruct (time_in (fst r0) seen); auto.
    constructor; auto.
    apply Forall_forall. intros r Hin.
    apply drop_duplicates_from_not_seen in Hin. simpl in Hin.
    now apply orb_false_elim in Hin.
Qed.

(** The row kept for a time is the first row of that time. *)
Lemma drop_duplicates_from_first seen rows t :
  time_in t seen = false ->
  value_at t (drop_duplicates_from seen rows) = value_at t rows.
Proof.
  unfold value_at. revert seen.
  induction rows as [|r0 rows IH]; intros seen Ht; simpl; auto.
  destruct (time_in (fst r0) seen) eqn:E.
  - destruct (Qeq_bool (fst r0) t) eqn:E0.
    + apply time_in_true in E as (s & Hs & Es).
      apply Qeq_bool_iff in E0.
      assert (time_in t seen = true) as Hc.
      { apply time_in_true. exists s. split; auto. now rewrite <- E0. }
      congruence.
    + now apply IH.
  - simpl. destruct (Qeq_bool (fst r0) t) eqn:E0; auto.
    apply IH. simpl. rewrite Ht, orb_false_r.
    destruct (Qeq_bool t (fst r0)) eqn:E1; auto.
    apply Qeq_bool_iff in E1. symmetry in E1. apply Qeq_bool_iff in E1. congruence.
Qed.

(** On the feedstock example ([dust.txt] has the time 1 twice, with rates
    2 and 10) the integrated dust of [sld_flx] is 0.01, 0.07, 0.09 ton/ha
    at the times 1, 2, 3: the step from 1 to 2 starts from the rate of the
    second row of time 1.  Keeping the first row of each time before
    integrating gives 0.01, 0.03, 0.05. *)
Lemma integral_uses_repeated_rows :
  fseries_eq (sld_column "int_dust_ton_ha_yr") [Some 0.01; Some 0.07; Some 0.09]
  /\ (exists rows,
        integrate_keep_first [0; 2; 10; 2; 2] [0; 1; 1; 2; 3] = Ok rows
        /\ series_eq (map fst rows) [0; 1; 2; 3]
        /\ series_eq (map snd rows) [0; 1; 3; 5])
  /\ ~ fseries_eq (sld_column "int_dust_ton_ha_yr") [Some 0.01; Some 0.03; Some 0.05].
Proof.
  split; [vm_compute; series|]. split.
  - eexists. split; [reflexivity|]. split; vm_compute; series.
  - intros H. vm_compute in H.
    inversion H as [|a0 b0 l0 m0 _ Htail].
    inversion Htail as [|a1 b1 l1 m1 Hrow _].
    vm_compute in Hrow. discriminate.
Qed.

(** C3 (amended).  With [dust_from_file=True] the cumulative trapezoidal
    integral is taken over all rows of the raw dust series, repeated times
    included (a repeated time is a step of zero width).  When [dust.txt]
    has as many rows as the flux table, the integral of every row is used
    and no row is dropped.  Otherwise, after the integration, the rows of a
    repeated time are dropped but the first, each time keeping the
    integral of its first raw row, and the result is resampled on the
    times of the flux table. *)
Theorem dust_integral_then_keep_first
    (dfnum df : Frame Q) (dust_dx : string) (rate time int_dust : list Q) :
  getcol dfnum ("dust" ++ dust_dx ++ "_g_m2_yr") = Ok rate ->
  getcol dfnum "time" = Ok time ->
  cumulative_trapezoid rate time = Ok int_dust ->
  List.length int_dust = Nat.min (List.length time) (List.length rate)
  /\ (forall i t0 t1 r0 r1 v0 v1,
        nth_error time i = Some t0 -> nth_error time (S i) = Some t1 ->
        nth_error rate i = Some r0 -> nth_error rate (S i) = Some r1 ->
        nth_error int_dust i = Some v0 -> nth_error int_dust (S i) = Some v1 ->
        v1 = v0 + (t1 - t0) * (r1 + r0) / 2 /\ (t0 == t1 -> v1 == v0))
  /\ (nrows dfnum = nrows df ->
      dust_series_of_column dfnum dust_dx df
      = Ok (map (fun v => Some (v / 100)) int_dust))
  /\ (nrows dfnum <> nrows df ->
      forall left, getcol df "time" = Ok left ->
      dust_series_of_column dfnum dust_dx df
      = Ok (resample left (lookup "int_dust_g_m2_yr" df)
              (drop_duplicates (combine time int_dust))))
  /\ (forall t, value_at t (drop_duplicates (combine time int_dust))
                = value_at t (combine time int_dust))
  /\ ForallOrdPairs (fun r r' => Qeq_bool (fst r') (fst r) = false)
       (drop_duplicates (combine time int_dust)).
Proof.
  intros Hrate Htime Hint.
  split; [now apply cumulative_trapezoid_length|].
  split.
  { intros i t0 t1 r0 r1 v0 v1 Ht0 Ht1 Hr0 Hr1 Hv0 Hv1.
    assert (v1 = v0 + (t1 - t0) * (r1 + r0) / 2) as E.
    { unfold cumulative_trapezoid in Hint.
      destruct time as [|x0 xs]; [discriminate|].
      destruct rate as [|y0 ys]; [discriminate|].
      injection Hint as <-.
      eapply cumtrapz_from_step; eauto. }
    split; auto. intros Heq. rewrite E, Heq. field. }
  split.
  { intros Hn. unfold dust_series_of_column.
    rewrite Hrate, Htime. simpl. rewrite Hint. simpl.
    rewrite Hn, Nat.eqb_refl. reflexivity. }
  split.
  { intros Hn left Hleft. unfold dust_series_of_column.
    rewrite Hrate, Htime. simpl. rewrite Hint. simpl.
    apply Nat.eqb_neq in Hn. rewrite Hn. simpl. now rewrite Hleft. }
  split.
  - intros t. now apply drop_duplicates_from_first.
  - apply drop_duplicates_from_distinct.
Qed.

(** The theorem on the dust series of the feedstock example: the two rows
    of time 1 carry the same integral, 1 g/m2, and the row kept for time 1
    is the first one. *)
Lemma dust_integral_then_keep_first_witness :
  dust_series_of_column
    [ ("time", [0; 1; 1; 2; 3]); ("dust1_g_m2_yr", [0; 2; 10; 2; 2]) ] "1" sld_df
  = Ok (resample [1; 2; 3] None
          (drop_duplicates
             (combine [0; 1; 1; 2; 3]
                [0; 0 + (1 - 0) * (2 + 0) / 2;
                 0 + (1 - 0) * (2 + 0) / 2 + (1 - 1) * (10 + 2) / 2;
                 0 + (1 - 0) * (2 + 0) / 2 + (1 - 1) * (10 + 2) / 2
                 + (2 - 1) * (2 + 10) / 2;
                 0 + (1 - 0) * (2 + 0) / 2 + (1 - 1) * (10 + 2) / 2
                 + (2 - 1) * (2 + 10) / 2 + (3 - 2) * (2 + 2) / 2]))).
Proof.
  refine (proj1 (proj2 (proj2 (proj2
            (dust_integral_then_keep_first
               [ ("time", [0; 1; 1; 2; 3]); ("dust1_g_m2_yr", [0; 2; 10; 2; 2]) ]
               sld_df "1" (rate := [0; 2; 10; 2; 2]) (time := [0; 1; 1; 2; 3])
               _ _ _)))) _ [1; 2; 3] _);
    try reflexivity.
  simpl. discriminate.
Defined.

(* ------------------------------------------------------------------ *)
(** ** The dissolution fractions *)

Lemma lookup_lift_frame (df : Frame Q) n :
  lookup n (lift_frame df) = option_map (map (@Some Q)) (lookup n df).
Proof.
  unfold lift_frame. induction df as [|[k c] df IH]; simpl; auto.
  destruct (String.eqb k n); auto.
Qed.

(** No species of the molar-mass table is named like a column of
    [sld_flx]. *)
Lemma molar_mass_key_not_reserved f m :
  dict_get molar_mass_dict f = Ok m -> mem f sld_reserved = false.
Proof.
  unfold molar_mass_dict. cbn [dict_get].
  repeat (destruct (String.eqb _ f) eqn:E;
          [apply String.eqb_eq in E; subst f; intros _; reflexivity | clear E]).
  discriminate.
Qed.

Lemma not_mem_eqb f l n :
  mem f l = false -> In n l -> String.eqb n f = false /\ String.eqb f n = false.
Proof.
  unfold mem. intros H Hin.
  assert (String.eqb f n = false) as E.
  { destruct (String.eqb f n) eqn:E; auto.
    assert (existsb (String.eqb f) l = true) by (apply existsb_exists; eauto).
    congruence. }
  split; auto. now rewrite String.eqb_sym.
Qed.

(** The two comparisons of a feedstock that is no column name of [sld_flx]
    with one such name. *)
Ltac reserved_fact Hres n :=
  let F := fresh "F" in
  pose proof (not_mem_eqb _ _ n Hres ltac:(simpl; tauto)) as F;
  destruct F.

Lemma mapM_cons {A B} (f : A -> result B) a l t :
  mapM f (a :: l) = Ok t ->
  exists b bs, f a = Ok b /\ mapM f l = Ok bs /\ t = b :: bs.
Proof.
  simpl. intros H.
  apply bind_ok in H as (b & Hb & H). apply bind_ok in H as (bs & Hbs & H).
  injection H as <-. eauto.
Qed.

Lemma loc_cons {A} (df t : Frame A) a l :
  loc df (a :: l) = Ok t ->
  exists ca t', lookup a df = Some ca /\ loc df l = Ok t' /\ t = (a, ca) :: t'.
Proof.
  unfold loc. intros H.
  apply mapM_cons in H as (b & bs & Hb & Hbs & ->).
  apply bind_ok in Hb as (ca & Ha & E). injection E as <-.
  apply getcol_ok in Ha. eauto.
Qed.

Lemma loc4 {A} (df t : Frame A) a b c d :
  loc df [a; b; c; d] = Ok t ->
  exists ca cb cc cd,
    lookup a df = Some ca /\ lookup b df = Some cb /\
    lookup c df = Some cc /\ lookup d df = Some cd /\
    t = [(a, ca); (b, cb); (c, cc); (d, cd)].
Proof.
  intros H.
  apply loc_cons in H as (ca & t1 & Ha & H & ->).
  apply loc_cons in H as (cb & t2 & Hb & H & ->).
  apply loc_cons in H as (cc & t3 & Hc & H & ->).
  apply loc_cons in H as (cd & t4 & Hd & H & ->).
  injection H as <-. exists ca, cb, cc, cd. auto.
Qed.

Lemma fdiv_pos a d : 0 < d -> fdiv (Some a) (Some d) = Some (a / d).
Proof.
  intros Hd. unfold fdiv.
  destruct (Qeq_bool d 0) eqn:E; auto.
  apply Qeq_bool_iff in E. rewrite E in Hd. now apply Qlt_irrefl in Hd.
Qed.

(** C6.  On every row of the table of [sld_flx] whose cumulative dust is
    positive, the advected fraction, the remaining fraction and the
    dissolved mass over the dust are finite and add up to 1. *)
Theorem dissolution_fractions_sum_to_one
    (fs : FileSystem) (outdir runname feedstock var_fn : string)
    (dust_from_file : bool) (out : Frame fnum) (i : nat) (d : Q) (a r t : fnum) :
  sld_flx fs outdir runname feedstock var_fn dust_from_file molar_mass_dict = Ok out ->
  cell_at out "int_dust_ton_ha_yr" i = Some (Some d) ->
  0 < d ->
  cell_at out "fraction_sld_advected" i = Some a ->
  cell_at out "fraction_sld_remaining" i = Some r ->
  cell_at out "total_dissolution" i = Some t ->
  exists qa qr qt,
    a = Some qa /\ r = Some qr /\ t = Some qt /\ qa + qr + qt / d == 1.
Proof.
  intros H Hd Hpos Ha Hr Ht.
  unfold sld_flx in H.
  apply bind_ok in H as ([df dfint0] & _ & H).
  apply bind_ok in H as (dfint & _ & H).
  apply bind_ok in H as (intdust & _ & H).
  cbv zeta in H.
  apply bind_ok in H as (adv0 & Hadv0 & H).
  apply bind_ok in H as (m & Hm & H).
  apply bind_ok in H as (f0 & Hf0 & H).
  apply bind_ok in H as (m' & Hm' & H).
  apply bind_ok in H as (tdfint & Hloc & H).
  pose proof (molar_mass_key_not_reserved _ Hm) as Hres.
  reserved_fact Hres "time". reserved_fact Hres "int_dust_ton_ha_yr".
  reserved_fact Hres "adv". reserved_fact Hres "dust_minus_adv".
  reserved_fact Hres "total_dissolution". reserved_fact Hres "fraction_sld_advected".
  reserved_fact Hres "fraction_sld_remaining".
  reserved_fact Hres "fraction_remaining_dissolved".
  reserved_fact Hres "fraction_total_dissolved".
  apply getcol_ok in Hadv0, Hf0.
  frames_in Hadv0. frames_in Hf0.
  rewrite lookup_lift_frame in Hadv0, Hf0.
  apply option_map_some in Hadv0 as (advq & _ & ->).
  apply option_map_some in Hf0 as (fq & _ & ->).
  apply loc4 in Hloc as (c1 & c2 & c3 & c4 & L1 & L2 & L3 & L4 & ->).
  frames_in L2. frames_in L3. frames_in L4.
  injection L2 as <-. injection L3 as <-. injection L4 as <-.
  unfold column_op, getcol in H.
  repeat (progress (frames_in H; cbn [bind] in H)).
  injection H as <-.
  unfold cell_at in Hd, Ha, Hr, Ht.
  frames_in Hd. frames_in Ha. frames_in Hr. frames_in Ht.
  assert (m' = m) by congruence. subst m'.
  apply nth_error_map_inv in Ht as (t0 & Ht & ->).
  apply nth_error_map_inv in Ht as (qf & Hqf & ->).
  apply nth_error_map2 in Ha as (xa & ya & Hxa & Hya & ->).
  apply nth_error_map_inv in Hxa as (xa0 & Hxa & ->).
  apply nth_error_map_inv in Hxa as (qadv & Hqadv & ->).
  apply nth_error_map2 in Hr as (xr & yr & Hxr & Hyr & ->).
  apply nth_error_map2 in Hxr as (xr1 & yr1 & Hxr1 & Hyr1 & ->).
  apply nth_error_map2 in Hxr1 as (xr2 & yr2 & Hxr2 & Hyr2 & ->).
  apply nth_error_map_inv in Hyr1 as (yr10 & Hyr1 & ->).
  apply nth_error_map_inv in Hyr1 as (qf' & Hqf' & ->).
  apply nth_error_map_inv in Hyr2 as (yr20 & Hyr2 & ->).
  apply nth_error_map_inv in Hyr2 as (qadv' & Hqadv' & ->).
  rewrite Hd in Hya, Hyr, Hxr2.
  injection Hya as <-. injection Hyr as <-. injection Hxr2 as <-.
  rewrite Hqf in Hqf'. injection Hqf' as <-.
  rewrite Hqadv in Hqadv'. injection Hqadv' as <-.
  unfold fmul, fsub. cbn [flift2]. rewrite !fdiv_pos by assumption.
  do 3 eexists. repeat split.
  field. intros E. rewrite E in Hpos. now apply Qlt_irrefl in Hpos.
Qed.

(** The theorem on the second row of the feedstock example, where the
    cumulative dust is 0.07 ton/ha. *)
Lemma dissolution_fractions_sum_to_one_witness :
  exists qa qr qt,
    fcell (sld_column "fraction_sld_advected") 1 = Some qa
    /\ fcell (sld_column "fraction_sld_remaining") 1 = Some qr
    /\ fcell (sld_column "total_dissolution") 1 = Some qt
    /\ qa + qr + qt / fval (sld_column "int_dust_ton_ha_yr") 1 == 1.
Proof.
  apply (@dissolution_fractions_sum_to_one sld_run "out" "run" "cc" "flx_sld"
           true sld_table 1%nat
           (fval (sld_column "int_dust_ton_ha_yr") 1)
           (fcell (sld_column "fraction_sld_advected") 1)
           (fcell (sld_column "fraction_sld_remaining") 1)
           (fcell (sld_column "total_dissolution") 1));
    vm_compute; reflexivity.
Defined.

(* ------------------------------------------------------------------ *)
(** ** The mass balance of [co2_flx] *)

Lemma set_inter_organic cols :
  mem "g1" cols = true -> mem "g2" cols = true -> mem "g3" cols = true ->
  set_inter ["g1"; "g2"; "g3"] cols = ["g1"; "g2"; "g3"].
Proof. intros H1 H2 H3. unfold set_inter. cbn [filter]. now rewrite H1, H2, H3. Qed.

Lemma set_inter_inorganic cols :
  mem "arg" cols = true -> mem "cc" cols = true -> mem "dlm" cols = true ->
  set_inter ["arg"; "cc"; "dlm"] cols = ["arg"; "cc"; "dlm"].
Proof. intros H1 H2 H3. unfold set_inter. cbn [filter]. now rewrite H1, H2, H3. Qed.

Lemma co2_table_built (df : Frame Q) :
  has_columns df co2_columns ->
  exists ct cd ctf ca g1 g2 g3 ar cc dl tdf0 tdf1,
    lookup "time" df = Some ct /\ lookup "dif" df = Some cd /\
    lookup "tflx" df = Some ctf /\ lookup "adv" df = Some ca /\
    lookup "g1" df = Some g1 /\ lookup "g2" df = Some g2 /\ lookup "g3" df = Some g3 /\
    lookup "arg" df = Some ar /\ lookup "cc" df = Some cc /\ lookup "dlm" df = Some dl /\
    loc df ["time"; "dif"; "tflx"; "adv"] = Ok tdf0 /\
    add_resp df (rename co2_rename tdf0) ["g1"; "g2"; "g3"] = Ok tdf1 /\
    add_inorg df tdf1 ["arg"; "cc"; "dlm"]
    = Ok (co2_table df ct cd ctf ca g1 g2 g3 ar cc dl).
Proof.
  intros Hc.
  destruct (mem_lookup df "time" (Hc "time" ltac:(simpl; tauto))) as (ct & Hct).
  destruct (mem_lookup df "dif" (Hc "dif" ltac:(simpl; tauto))) as (cd & Hcd).
  destruct (mem_lookup df "tflx" (Hc "tflx" ltac:(simpl; tauto))) as (ctf & Hctf).
  destruct (mem_lookup df "adv" (Hc "adv" ltac:(simpl; tauto))) as (ca & Hca).
  destruct (mem_lookup df "g1" (Hc "g1" ltac:(simpl; tauto))) as (g1 & Hg1).
  destruct (mem_lookup df "g2" (Hc "g2" ltac:(simpl; tauto))) as (g2 & Hg2).
  destruct (mem_lookup df "g3" (Hc "g3" ltac:(simpl; tauto))) as (g3 & Hg3).
  destruct (mem_lookup df "arg" (Hc "arg" ltac:(simpl; tauto))) as (ar & Har).
  destruct (mem_lookup df "cc" (Hc "cc" ltac:(simpl; tauto))) as (cc & Hcc).
  destruct (mem_lookup df "dlm" (Hc "dlm" ltac:(simpl; tauto))) as (dl & Hdl).
  exists ct, cd, ctf, ca, g1, g2, g3, ar, cc, dl.
  eexists. eexists.
  repeat match goal with |- _ /\ _ => split end; try eassumption.
  - unfold loc, getcol. cbn [mapM]. rewrite Hct, Hcd, Hctf, Hca. reflexivity.
  - unfold add_resp, sum_columns. cbn.
    rewrite (lookup_getcol _ _ Hg1), (lookup_getcol _ _ Hg2), (lookup_getcol _ _ Hg3).
    cbn. reflexivity.
  - unfold add_inorg, sum_columns. cbn.
    rewrite (lookup_getcol _ _ Har), (lookup_getcol _ _ Hcc), (lookup_getcol _ _ Hdl).
    cbn. reflexivity.
Qed.

(** A column-wise map that multiplies the cells of row [i] of each of the
    five columns by one factor [kf i] keeps the balance. *)
Lemma balanced_apply (f : string -> list Q -> list Q) (kf : nat -> option Q) t :
  (forall n c i v, In n balance_names -> nth_error (f n c) i = Some v ->
     exists a k, nth_error c i = Some a /\ kf i = Some k /\ v == a * k) ->
  balanced t -> balanced (apply f t).
Proof.
  intros Hf Hb i A D R I T HA HD HR HI HT.
  unfold cell_at in *. rewrite lookup_apply in HA, HD, HR, HI, HT.
  destruct (lookup "co2flx_adv" t) as [cA|] eqn:EA; [|discriminate].
  destruct (lookup "co2flx_dif" t) as [cD|] eqn:ED; [|discriminate].
  destruct (lookup "co2flx_resp" t) as [cR|] eqn:ER; [|discriminate].
  destruct (lookup "co2flx_inorg" t) as [cI|] eqn:EI; [|discriminate].
  destruct (lookup "co2flx_tflx" t) as [cT|] eqn:ET; [|discriminate].
  simpl in HA, HD, HR, HI, HT.
  apply Hf in HA as (a & k & Ha & Hk & ->); [|simpl; tauto].
  apply Hf in HD as (d & k1 & Hd & Hk1 & ->); [|simpl; tauto].
  apply Hf in HR as (r & k2 & Hr & Hk2 & ->); [|simpl; tauto].
  apply Hf in HI as (i0 & k3 & Hi & Hk3 & ->); [|simpl; tauto].
  apply Hf in HT as (t1 & k4 & Ht & Hk4 & ->); [|simpl; tauto].
  rewrite Hk in Hk1, Hk2, Hk3, Hk4.
  injection Hk1 as <-. injection Hk2 as <-. injection Hk3 as <-. injection Hk4 as <-.
  assert (a == - d - r - i0 - t1) as E.
  { apply (Hb i); unfold cell_at.
    - now rewrite EA. - now rewrite ED. - now rewrite ER.
    - now rewrite EI. - now rewrite ET. }
  rewrite E. ring.
Qed.

Lemma balanced_convert cu m t :
  balanced t -> balanced (apply (convert_column cu m) t).
Proof.
  apply (balanced_apply _ (fun _ => Some (if cu then m * conv_factor else m))).
  intros n c i v Hn Hv.
  assert (not_time_units n = true) as E.
  { simpl in Hn. repeat destruct Hn as [<- | Hn]; try reflexivity. destruct Hn. }
  unfold convert_column in Hv. rewrite E in Hv. destruct cu.
  - rewrite !nth_error_scale in Hv.
    destruct (nth_error c i) as [a|]; [|discriminate].
    simpl in Hv. injection Hv as <-. exists a. eexists.
    split; [reflexivity|]. split; [reflexivity|]. ring.
  - rewrite nth_error_scale in Hv.
    destruct (nth_error c i) as [a|]; [|discriminate].
    simpl in Hv. injection Hv as <-. exists a. eexists.
    split; [reflexivity|]. split; [reflexivity|]. ring.
Qed.

Lemma balanced_times tc t :
  balanced t ->
  balanced (apply (fun name x => if mem name ["time"; "units"] then x else smul x tc) t).
Proof.
  apply (balanced_apply _ (nth_error tc)).
  intros n c i v Hn Hv.
  assert (mem n ["time"; "units"] = false) as E.
  { simpl in Hn. repeat destruct Hn as [<- | Hn]; try reflexivity. destruct Hn. }
  rewrite E in Hv. apply nth_error_map2 in Hv as (a & k & Ha & Hk & ->).
  exists a, k. split; [assumption|]. split; [assumption|]. reflexivity.
Qed.

(** The table built from a balanced input is balanced, before any
    conversion: [resp] and [inorg] are the row sums of the sources. *)
Lemma balanced_co2_table df ct cd ctf ca g1 g2 g3 ar cc dl :
  lookup "dif" df = Some cd -> lookup "tflx" df = Some ctf ->
  lookup "adv" df = Some ca ->
  lookup "g1" df = Some g1 -> lookup "g2" df = Some g2 -> lookup "g3" df = Some g3 ->
  lookup "arg" df = Some ar -> lookup "cc" df = Some cc -> lookup "dlm" df = Some dl ->
  input_balanced df ->
  balanced (co2_table df ct cd ctf ca g1 g2 g3 ar cc dl).
Proof.
  intros Ld Ltf La L1 L2 L3 Lar Lcc Ldl Hb i A D R I T HA HD HR HI HT.
  unfold cell_at, co2_table in *. cbn in HA, HD, HR, HI, HT.
  unfold resp_of, sadd in HR, HI.
  apply nth_error_map2 in HR as (r2 & x3 & HR & H3 & ->).
  apply nth_error_map2 in HR as (r1 & x2 & HR & H2 & ->).
  apply nth_error_map2 in HR as (z & x1 & HR & H1 & ->).
  apply nth_error_repeat_inv in HR. subst z.
  apply nth_error_map2 in HI as (j2 & y3 & HI & J3 & ->).
  apply nth_error_map2 in HI as (j1 & y2 & HI & J2 & ->).
  apply nth_error_map2 in HI as (z & y1 & HI & J1 & ->).
  apply nth_error_repeat_inv in HI. subst z.
  assert (A == - D - (x1 + x2 + x3) - (y1 + y2 + y3) - T) as E.
  { apply (Hb i); unfold cell_at.
    - now rewrite La. - now rewrite Ld. - now rewrite L1. - now rewrite L2.
    - now rewrite L3. - now rewrite Lar. - now rewrite Lcc. - now rewrite Ldl.
    - now rewrite Ltf. }
  rewrite E. ring.
Qed.

Lemma length_map2 {A B C} (f : A -> B -> C) (x : list A) (y : list B) :
  List.length (map2 f x y) = Nat.min (List.length x) (List.length y).
Proof.
  revert y. induction x as [|a x IH]; intros [|b y]; simpl; auto.
Qed.

Lemma balanced_present t n :
  balanced t -> columns_of_length t balance_names n -> balanced_on t n.
Proof.
  intros Hb Hc i Hi.
  assert (cell : forall name, In name balance_names ->
            exists v, cell_at t name i = Some v).
  { intros name Hn. destruct (Hc name Hn) as (c & Hl & Hlen).
    unfold cell_at. rewrite Hl.
    destruct (nth_error c i) as [v|] eqn:E; eauto.
    apply nth_error_None in E. lia. }
  destruct (cell "co2flx_adv") as (A & HA); [simpl; tauto|].
  destruct (cell "co2flx_dif") as (D & HD); [simpl; tauto|].
  destruct (cell "co2flx_resp") as (R & HR); [simpl; tauto|].
  destruct (cell "co2flx_inorg") as (I & HI); [simpl; tauto|].
  destruct (cell "co2flx_tflx") as (T & HT); [simpl; tauto|].
  exists A, D, R, I, T. repeat (split; [assumption|]).
  now apply (Hb i).
Qed.

Lemma columns_of_length_apply (f : string -> list Q -> list Q) t names n :
  (forall name c, In name names -> List.length c = n -> List.length (f name c) = n) ->
  columns_of_length t names n -> columns_of_length (apply f t) names n.
Proof.
  intros Hf Hc name Hn. destruct (Hc name Hn) as (c & Hl & Hlen).
  exists (f name c). rewrite lookup_apply, Hl. split; [reflexivity|]. now apply Hf.
Qed.

Lemma length_convert_column cu m name c :
  List.length (convert_column cu m name c) = List.length c.
Proof.
  unfold convert_column, scale.
  destruct (not_time_units name); [destruct cu|]; now rewrite ?length_map.
Qed.

Lemma columns_of_length_co2_table df ct cd ctf ca g1 g2 g3 ar cc dl :
  lookup "dif" df = Some cd -> lookup "tflx" df = Some ctf ->
  lookup "adv" df = Some ca ->
  lookup "g1" df = Some g1 -> lookup "g2" df = Some g2 -> lookup "g3" df = Some g3 ->
  lookup "arg" df = Some ar -> lookup "cc" df = Some cc -> lookup "dlm" df = Some dl ->
  full_columns df co2_columns ->
  columns_of_length (co2_table df ct cd ctf ca g1 g2 g3 ar cc dl) balance_names (nrows df).
Proof.
  intros Ld Ltf La L1 L2 L3 Lar Lcc Ldl Hf.
  assert (len : forall n c, In n co2_columns -> lookup n df = Some c ->
            List.length c = nrows df) by exact Hf.
  pose proof (len "dif" cd ltac:(simpl; tauto) Ld).
  pose proof (len "tflx" ctf ltac:(simpl; tauto) Ltf).
  pose proof (len "adv" ca ltac:(simpl; tauto) La).
  pose proof (len "g1" g1 ltac:(simpl; tauto) L1).
  pose proof (len "g2" g2 ltac:(simpl; tauto) L2).
  pose proof (len "g3" g3 ltac:(simpl; tauto) L3).
  pose proof (len "arg" ar ltac:(simpl; tauto) Lar).
  pose proof (len "cc" cc ltac:(simpl; tauto) Lcc).
  pose proof (len "dlm" dl ltac:(simpl; tauto) Ldl).
  intros name Hn. simpl in Hn.
  destruct Hn as [<- | [<- | [<- | [<- | [<- | []]]]]];
    eexists; (split; [reflexivity|]); auto;
    unfold resp_of, sadd; rewrite !length_map2, repeat_length; lia.
Qed.

(** C2.  When both input tables have the three organic and the three
    carbonate source columns, each with one cell for each row, and every
    row of both satisfies
    [adv = -dif - (g1+g2+g3) - (arg+cc+dlm) - tflx], [co2_flx] returns its
    two tables, each row of the input has its five cells in the output,
    and they satisfy
    [co2flx_adv = -co2flx_dif - co2flx_resp - co2flx_inorg - co2flx_tflx]:
    the unit conversion and the multiplication by time keep the balance. *)
Theorem co2_flx_mass_balance
    (fs : FileSystem) (outdir runname var_fn cdvar : string)
    (convert_units : bool) (co2_g_mol : Q) (df dfint : Frame Q) :
  get_data fs outdir runname var_fn cdvar = Ok (df, dfint) ->
  has_columns df co2_columns -> has_columns dfint co2_columns ->
  full_columns df co2_columns -> full_columns dfint co2_columns ->
  input_balanced df -> input_balanced dfint ->
  exists tdf tdfint,
    co2_flx fs outdir runname var_fn cdvar ["g1"; "g2"; "g3"] ["arg"; "cc"; "dlm"]
      convert_units co2_g_mol = Ok [tdf; tdfint]
    /\ balanced_on (data tdf) (nrows df)
    /\ balanced_on (data tdfint) (nrows dfint)
    /\ balanced (data tdf) /\ balanced (data tdfint).
Proof.
  intros Hget Hc Hci Hf Hfi Hb Hbi.
  unfold co2_flx. rewrite Hget. cbn [bind].
  rewrite !set_inter_organic, !set_inter_inorganic
    by (first [apply Hc | apply Hci]; simpl; tauto).
  destruct (co2_table_built Hc)
    as (ct & cd & ctf & ca & g1 & g2 & g3 & ar & cc & dl & t0 & t1 & Lt & Ld & Ltf
        & La & L1 & L2 & L3 & Lar & Lcc & Ldl & E0 & E1 & E2).
  destruct (co2_table_built Hci)
    as (ict & icd & ictf & ica & ig1 & ig2 & ig3 & iar & icc & idl & it0 & it1
        & ILt & ILd & ILtf & ILa & IL1 & IL2 & IL3 & ILar & ILcc & ILdl
        & IE0 & IE1 & IE2).
  rewrite E0. cbn [bind]. rewrite IE0. cbn [bind]. rewrite E1. cbn [bind].
  rewrite IE1. cbn [bind]. rewrite E2. cbn [bind]. rewrite IE2. cbn [bind].
  assert (times_time ["time"; "units"]
            (apply (convert_column convert_units co2_g_mol)
               (co2_table dfint ict icd ictf ica ig1 ig2 ig3 iar icc idl))
          = Ok (apply (fun name x => if mem name ["time"; "units"] then x else smul x ict)
                  (apply (convert_column convert_units co2_g_mol)
                     (co2_table dfint ict icd ictf ica ig1 ig2 ig3 iar icc idl))))
    as Et by reflexivity.
  rewrite Et. cbn [bind].
  assert (B : balanced (apply (convert_column convert_units co2_g_mol)
                          (co2_table df ct cd ctf ca g1 g2 g3 ar cc dl)))
    by (apply balanced_convert; now apply balanced_co2_table).
  assert (BI : balanced
                 (apply (fun name x => if mem name ["time"; "units"] then x
                                       else smul x ict)
                    (apply (convert_column convert_units co2_g_mol)
                       (co2_table dfint ict icd ictf ica ig1 ig2 ig3 iar icc idl))))
    by (apply balanced_times, balanced_convert; now apply balanced_co2_table).
  eexists. eexists. split; [reflexivity|]. cbn [data].
  split; [|split; [|split; assumption]].
  - apply balanced_present; [exact B|].
    apply columns_of_length_apply.
    + intros name c _ Hl. now rewrite length_convert_column.
    + now apply columns_of_length_co2_table.
  - apply balanced_present; [exact BI|].
    assert (Lict : List.length ict = nrows dfint)
      by (apply (Hfi "time"); [simpl; tauto | assumption]).
    apply columns_of_length_apply.
    + intros name c Hn Hl.
      assert (mem name ["time"; "units"] = false) as ->.
      { simpl in Hn. repeat destruct Hn as [<- | Hn]; try reflexivity. destruct Hn. }
      unfold smul. rewrite length_map2. lia.
    + apply columns_of_length_apply.
      * intros name c _ Hl. now rewrite length_convert_column.
      * now apply columns_of_length_co2_table.
Qed.

(** The theorem on a two-row gas file with all six sources. *)
Lemma co2_flx_mass_balance_witness :
  exists tdf tdfint,
    co2_flx gas_full_run "out" "run" "flx_gas" "pco2" ["g1"; "g2"; "g3"]
      ["arg"; "cc"; "dlm"] true 44.01 = Ok [tdf; tdfint]
    /\ balanced_on (data tdf) 2
    /\ balanced_on (data tdfint) 2
    /\ balanced (data tdf) /\ balanced (data tdfint).
Proof.
  assert (Hc : has_columns gas_full co2_columns).
  { intros n Hn. simpl in Hn. repeat destruct Hn as [<- | Hn]; try reflexivity.
    destruct Hn. }
  assert (Hf : full_columns gas_full co2_columns).
  { intros n c Hn. simpl in Hn.
    repeat destruct Hn as [<- | Hn]; try destruct Hn;
      intros [= <-]; reflexivity. }
  assert (Hb : input_balanced gas_full).
  { intros i a d g1 g2 g3 ar cc dl t Ha Hd H1 H2 H3 Har Hcc Hdl Ht.
    destruct i as [|[|i]]; cbn in Ha, Hd, H1, H2, H3, Har, Hcc, Hdl, Ht.
    - injection Ha as <-. injection Hd as <-. injection H1 as <-.
      injection H2 as <-. injection H3 as <-. injection Har as <-.
      injection Hcc as <-. injection Hdl as <-. injection Ht as <-. reflexivity.
    - injection Ha as <-. injection Hd as <-. injection H1 as <-.
      injection H2 as <-. injection H3 as <-. injection Har as <-.
      injection Hcc as <-. injection Hdl as <-. injection Ht as <-. reflexivity.
    - destruct i; discriminate. }
  apply (@co2_flx_mass_balance gas_full_run "out" "run" "flx_gas" "pco2" true 44.01
           gas_full gas_full); auto.
Defined.

(* ================================================================== *)
(** * Further properties *)

Unset Implicit Arguments.

(* ------------------------------------------------------------------ *)
(** ** Loading the files *)

Lemma mapM_to_numeric_nums (c : list Q) : mapM to_numeric (nums c) = Ok c.
Proof. unfold nums. induction c as [|q c IH]; simpl; auto. now rewrite IH. Qed.

Lemma map_to_numeric_as_file (df : Frame Q) : map_to_numeric (as_file df) = Ok df.
Proof.
  unfold map_to_numeric, as_file.
  induction df as [|[n c] df IH]; simpl; auto.
  rewrite mapM_to_numeric_nums. simpl. now rewrite IH.
Qed.

Lemma to_numeric_raise (c : list token) e :
  mapM to_numeric c = Raise e -> exists w, e = ValueError w /\ In (Word w) c.
Proof.
  revert e. induction c as [|t c IH]; simpl; [discriminate|].
  destruct t as [q|w0]; simpl.
  - destruct (mapM to_numeric c) as [c'|e0]; simpl; [discriminate|].
    intros e [= <-]. destruct (IH e0 eq_refl) as (w & -> & Hin). eauto.
  - intros e [= <-]. eauto.
Qed.

Lemma to_numeric_ok (c : list token) c' :
  mapM to_numeric c = Ok c' -> c = nums c'.
Proof.
  revert c'. induction c as [|t c IH]; simpl.
  - now intros c' [= <-].
  - destruct t as [q|w0]; simpl; [|discriminate].
    destruct (mapM to_numeric c) as [c0|e0]; simpl; [|discriminate].
    intros c' [= <-]. simpl. now rewrite (IH c0 eq_refl).
Qed.

Lemma map_to_numeric_raise (file : File) e :
  map_to_numeric file = Raise e ->
  exists n c w, In (n, c) file /\ In (Word w) c /\ e = ValueError w.
Proof.
  unfold map_to_numeric. revert e.
  induction file as [|[k c0] file IH]; simpl; [discriminate|].
  intros e. destruct (mapM to_numeric c0) as [c0'|e0] eqn:E0; simpl.
  - destruct (mapM _ file) as [f'|e1]; simpl; [discriminate|].
    intros [= <-]. destruct (IH e1 eq_refl) as (n & c & w & Hin & Hw & ->).
    exists n, c, w. auto.
  - intros [= <-]. apply to_numeric_raise in E0 as (w & -> & Hw).
    exists k, c0, w. auto.
Qed.

Lemma map_to_numeric_ok (file : File) df :
  map_to_numeric file = Ok df -> file = as_file df.
Proof.
  unfold map_to_numeric, as_file. revert df.
  induction file as [|[k c0] file IH]; simpl.
  - now intros df [= <-].
  - intros df. destruct (mapM to_numeric c0) as [c0'|e0] eqn:E0; simpl; [|discriminate].
    destruct (mapM _ file) as [f'|e1]; simpl; [|discriminate].
    intros [= <-]. simpl. apply to_numeric_ok in E0. now rewrite E0, (IH f' eq_refl).
Qed.

(** X1.  A file with a word in it: with [map_numeric=True] the loader raises
    the [ValueError] of [pd.to_numeric] on a word of the file; with
    [map_numeric=False] it returns the file as read. *)
Theorem preprocess_txt_word fs outdir runname fn run_subdir (file : File) n c w :
  fs [outdir; runname; run_subdir; fn] = Some file ->
  In (n, c) file -> In (Word w) c ->
  (exists n' c' w', In (n', c') file /\ In (Word w') c' /\
     preprocess_txt fs outdir runname fn run_subdir true = Raise (ValueError w'))
  /\ preprocess_txt fs outdir runname fn run_subdir false = Ok file.
Proof.
  unfold preprocess_txt. intros -> Hin Hw. split; [|reflexivity].
  destruct (map_to_numeric file) as [df|e] eqn:E.
  - apply map_to_numeric_ok in E. subst file. unfold as_file in Hin.
    apply in_map_iff in Hin as ([k c0] & [= <- <-] & _).
    unfold nums in Hw. apply in_map_iff in Hw as (q & Hq & _). discriminate.
  - apply map_to_numeric_raise in E as (n' & c' & w' & H1 & H2 & ->).
    exists n', c', w'. auto.
Qed.

Lemma preprocess_txt_word_witness :
  (exists n' c' w', In (n', c') dust_example /\ In (Word w') c' /\
     preprocess_txt sld_run "out" "run" "dust.txt" "flx" true = Raise (ValueError w'))
  /\ preprocess_txt sld_run "out" "run" "dust.txt" "flx" false = Ok dust_example.
Proof.
  apply (preprocess_txt_word sld_run "out" "run" "dust.txt" "flx" dust_example
           "dustsp1" (words ["gbas"; "gbas"; "gbas"; "gbas"; "gbas"]) "gbas").
  - reflexivity.
  - simpl. tauto.
  - simpl. tauto.
Defined.

(** X2.  When the flux file is readable and numeric and its [int_] counterpart
    is missing, [get_data] raises [FileNotFoundError] for the [int_] path. *)
Theorem get_data_int_missing fs outdir runname var_fn cdvar (df : Frame Q) :
  fs [outdir; runname; "flx"; var_fn ++ "-" ++ cdvar ++ ".txt"] = Some (as_file df) ->
  fs [outdir; runname; "flx"; "int_" ++ var_fn ++ "-" ++ cdvar ++ ".txt"] = None ->
  get_data fs outdir runname var_fn cdvar
  = Raise (FileNotFoundError
             [outdir; runname; "flx"; "int_" ++ var_fn ++ "-" ++ cdvar ++ ".txt"]).
Proof.
  intros H1 H2. unfold get_data, preprocess_txt.
  rewrite H1, map_to_numeric_as_file. cbn [bind]. now rewrite H2.
Qed.

Lemma get_data_int_missing_witness :
  get_data gas_only_run "out" "run" "flx_gas" "pco2"
  = Raise (FileNotFoundError ["out"; "run"; "flx"; "int_flx_gas-pco2.txt"]).
Proof.
  apply (get_data_int_missing gas_only_run "out" "run" "flx_gas" "pco2" gas_table);
    reflexivity.
Defined.

Lemma get_data_files fs outdir runname var_fn cdvar (df dfint : Frame Q) :
  get_data fs outdir runname var_fn cdvar = Ok (df, dfint) ->
  fs [outdir; runname; "flx"; var_fn ++ "-" ++ cdvar ++ ".txt"] = Some (as_file df)
  /\ fs [outdir; runname; "flx"; "int_" ++ var_fn ++ "-" ++ cdvar ++ ".txt"]
     = Some (as_file dfint).
Proof.
  unfold get_data, preprocess_txt.
  intros H. apply bind_ok in H as (d1 & H1 & H). apply bind_ok in H as (d2 & H2 & H).
  injection H as <- <-.
  destruct (fs [outdir; runname; "flx"; var_fn ++ "-" ++ cdvar ++ ".txt"])
    as [f1|]; [|discriminate].
  destruct (fs [outdir; runname; "flx"; "int_" ++ var_fn ++ "-" ++ cdvar ++ ".txt"])
    as [f2|]; [|discriminate].
  apply map_to_numeric_ok in H1, H2. now subst.
Qed.

(** X3.  [get_data] returns a pair of tables exactly when the flux file holds
    the numbers of the first and the [int_] file those of the second. *)
Theorem get_data_ok fs outdir runname var_fn cdvar (df dfint : Frame Q) :
  get_data fs outdir runname var_fn cdvar = Ok (df, dfint) <->
  fs [outdir; runname; "flx"; var_fn ++ "-" ++ cdvar ++ ".txt"] = Some (as_file df)
  /\ fs [outdir; runname; "flx"; "int_" ++ var_fn ++ "-" ++ cdvar ++ ".txt"]
     = Some (as_file dfint).
Proof.
  split; [apply get_data_files|].
  unfold get_data, preprocess_txt. intros [-> ->]. now rewrite !map_to_numeric_as_file.
Qed.

(* ------------------------------------------------------------------ *)
(** ** CO2 and alkalinity fluxes *)

Lemma set_inter_In a b n : In n (set_inter a b) -> In n a /\ mem n b = true.
Proof. unfold set_inter. intros H. apply nodup_In, filter_In in H. exact H. Qed.

Lemma set_inter_none a b :
  (forall n, In n a -> mem n b = false) -> set_inter a b = [].
Proof.
  intros H. unfold set_inter.
  replace (filter (fun s => mem s b) a) with (@nil string); auto.
  symmetry. induction a as [|x a IH]; simpl; auto.
  rewrite (H x) by (simpl; auto). apply IH. intros n Hn. apply H. simpl; auto.
Qed.

Lemma copy_species_lookup df t sps t' n :
  copy_species df t sps = Ok t' -> ~ In n sps -> lookup n t' = lookup n t.
Proof.
  revert t. induction sps as [|sp sps IH]; simpl; intros t H Hn.
  - now injection H as <-.
  - apply bind_ok in H as (c & _ & H). rewrite (IH _ H) by tauto.
    apply lookup_setcol_other.
    destruct (String.eqb sp n) eqn:E; auto. apply String.eqb_eq in E. tauto.
Qed.

Lemma eqb_neq_false a b : a <> b -> String.eqb a b = false.
Proof. intros H. destruct (String.eqb a b) eqn:E; auto. apply String.eqb_eq in E. tauto. Qed.

Lemma add_resp_lookup df t sps t' n :
  add_resp df t sps = Ok t' -> ~ In n sps -> n <> "co2flx_resp" ->
  lookup n t' = lookup n t.
Proof.
  unfold add_resp. intros H Hn Hr. destruct (0 <? List.length sps)%nat.
  - apply bind_ok in H as (t1 & H1 & H). apply bind_ok in H as (s & _ & H).
    injection H as <-. rewrite lookup_setcol_other by (apply eqb_neq_false; auto).
    eapply copy_species_lookup; eauto.
  - now injection H as <-.
Qed.

Lemma add_inorg_lookup df t sps t' n :
  add_inorg df t sps = Ok t' -> ~ In n sps ->
  n <> "co2flx_inorg" -> n <> "co2flx_adv_noinorg" ->
  lookup n t' = lookup n t.
Proof.
  unfold add_inorg. intros H Hn Hr Hr'. destruct (0 <? List.length sps)%nat.
  - apply bind_ok in H as (t1 & H1 & H). apply bind_ok in H as (s & _ & H).
    cbv zeta in H.
    apply bind_ok in H as (a & _ & H). apply bind_ok in H as (b & _ & H).
    injection H as <-.
    rewrite !lookup_setcol_other by (apply eqb_neq_false; auto).
    eapply copy_species_lookup; eauto.
  - now injection H as <-.
Qed.

Lemma times_time_lookup excl t t' n :
  times_time excl t = Ok t' -> mem n excl = true -> lookup n t' = lookup n t.
Proof.
  unfold times_time. intros H Hn.
  destruct (find _ (columns t)).
  - apply bind_ok in H as (tc & _ & H). injection H as <-.
    rewrite lookup_apply, Hn. now destruct (lookup n t).
  - now injection H as <-.
Qed.

Lemma times_time_columns excl t t' :
  times_time excl t = Ok t' -> columns t' = columns t.
Proof.
  unfold times_time. intros H. destruct (find _ (columns t)).
  - apply bind_ok in H as (tc & _ & H). injection H as <-.
    unfold apply, columns. rewrite map_map. reflexivity.
  - now injection H as <-.
Qed.

Lemma lookup_none_columns {A} (df : Frame A) n :
  lookup n df = None <-> mem n (columns df) = false.
Proof.
  split.
  - intros H. destruct (mem n (columns df)) eqn:E; auto.
    apply mem_lookup in E as (c & Hc). congruence.
  - intros H. destruct (lookup n df) eqn:E; auto.
    apply lookup_mem in E. congruence.
Qed.

Ltac not_in := simpl; intuition discriminate.

(** X4.  [co2_flx] returns two blocks, and the time column of each is the time
    column of its input file: the unit conversion and the multiplication
    by time leave it alone. *)
Theorem co2_flx_keeps_time fs outdir runname var_fn cdvar convert_units co2_g_mol
    df dfint out :
  get_data fs outdir runname var_fn cdvar = Ok (df, dfint) ->
  co2_flx fs outdir runname var_fn cdvar ["g1"; "g2"; "g3"] ["arg"; "cc"; "dlm"]
    convert_units co2_g_mol = Ok out ->
  exists tdf tdfint,
    out = [tdf; tdfint]
    /\ lookup "time" (data tdf) = lookup "time" df
    /\ lookup "time" (data tdfint) = lookup "time" dfint.
Proof.
  intros Hget H. unfold co2_flx in H. rewrite Hget in H. cbn [bind] in H.
  apply bind_ok in H as (t0 & E0 & H). apply bind_ok in H as (i0 & I0 & H).
  apply bind_ok in H as (t1 & E1 & H). apply bind_ok in H as (i1 & I1 & H).
  apply bind_ok in H as (t2 & E2 & H). apply bind_ok in H as (i2 & I2 & H).
  apply bind_ok in H as (i3 & I3 & H). injection H as <-.
  do 2 eexists. split; [reflexivity|]. cbn [data].
  apply loc4 in E0 as (ct & cd & ctf & ca & Lt & _ & _ & _ & ->).
  apply loc4 in I0 as (ict & icd & ictf & ica & ILt & _ & _ & _ & ->).
  split.
  - rewrite lookup_apply.
    rewrite (add_inorg_lookup _ _ _ _ "time" E2); try discriminate.
    + rewrite (add_resp_lookup _ _ _ _ "time" E1); try discriminate.
      * now rewrite Lt.
      * intros Hin. apply set_inter_In in Hin as [Hin _]. revert Hin. not_in.
    + intros Hin. apply set_inter_In in Hin as [Hin _]. revert Hin. not_in.
  - rewrite (times_time_lookup _ _ _ "time" I3) by reflexivity.
    rewrite lookup_apply.
    rewrite (add_inorg_lookup _ _ _ _ "time" I2); try discriminate.
    + rewrite (add_resp_lookup _ _ _ _ "time" I1); try discriminate.
      * now rewrite ILt.
      * intros Hin. apply set_inter_In in Hin as [Hin _]. revert Hin. not_in.
    + intros Hin. apply set_inter_In in Hin as [Hin _]. revert Hin. not_in.
Qed.

Lemma co2_flx_keeps_time_witness :
  exists tdf tdfint,
    value_of [] (run_co2_example true) = [tdf; tdfint]
    /\ lookup "time" (data tdf) = lookup "time" gas_table
    /\ lookup "time" (data tdfint) = lookup "time" gas_table.
Proof.
  apply (co2_flx_keeps_time gas_run "out" "run" "flx_gas" "pco2" true 44.01
           gas_table gas_table (value_of [] (run_co2_example true)));
    vm_compute; reflexivity.
Defined.

Lemma add_inorg_nil df t : add_inorg df t [] = Ok t.
Proof. reflexivity. Qed.

(** X5.  When an input file of [co2_flx] has none of the columns [arg], [cc],
    [dlm], its block has neither [co2flx_inorg] nor [co2flx_adv_noinorg]. *)
Theorem co2_flx_without_carbonates fs outdir runname var_fn cdvar convert_units
    co2_g_mol df dfint out :
  get_data fs outdir runname var_fn cdvar = Ok (df, dfint) ->
  co2_flx fs outdir runname var_fn cdvar ["g1"; "g2"; "g3"] ["arg"; "cc"; "dlm"]
    convert_units co2_g_mol = Ok out ->
  exists tdf tdfint,
    out = [tdf; tdfint]
    /\ ((forall n, In n ["arg"; "cc"; "dlm"] -> mem n (columns df) = false) ->
        lookup "co2flx_inorg" (data tdf) = None
        /\ lookup "co2flx_adv_noinorg" (data tdf) = None)
    /\ ((forall n, In n ["arg"; "cc"; "dlm"] -> mem n (columns dfint) = false) ->
        lookup "co2flx_inorg" (data tdfint) = None
        /\ lookup "co2flx_adv_noinorg" (data tdfint) = None).
Proof.
  intros Hget H. unfold co2_flx in H. rewrite Hget in H. cbn [bind] in H.
  apply bind_ok in H as (t0 & E0 & H). apply bind_ok in H as (i0 & I0 & H).
  apply bind_ok in H as (t1 & E1 & H). apply bind_ok in H as (i1 & I1 & H).
  apply bind_ok in H as (t2 & E2 & H). apply bind_ok in H as (i2 & I2 & H).
  apply bind_ok in H as (i3 & I3 & H). injection H as <-.
  do 2 eexists. split; [reflexivity|]. cbn [data].
  apply loc4 in E0 as (ct & cd & ctf & ca & _ & _ & _ & _ & ->).
  apply loc4 in I0 as (ict & icd & ictf & ica & _ & _ & _ & _ & ->).
  assert (Horg : forall cols n, In n ["co2flx_inorg"; "co2flx_adv_noinorg"] ->
                   ~ In n (set_inter ["g1"; "g2"; "g3"] cols)).
  { intros cols n Hn Hin. apply set_inter_In in Hin as [Hin _].
    simpl in Hn, Hin. intuition (subst; discriminate). }
  split; intros Hnone.
  - rewrite (set_inter_none _ _ Hnone), add_inorg_nil in E2. injection E2 as <-.
    rewrite !lookup_apply.
    rewrite (add_resp_lookup _ _ _ _ "co2flx_inorg" E1),
            (add_resp_lookup _ _ _ _ "co2flx_adv_noinorg" E1);
      try discriminate; try (apply Horg; simpl; tauto).
    split; reflexivity.
  - rewrite (set_inter_none _ _ Hnone), add_inorg_nil in I2. injection I2 as <-.
    rewrite (proj2 (lookup_none_columns i3 "co2flx_inorg")),
            (proj2 (lookup_none_columns i3 "co2flx_adv_noinorg")); auto;
      rewrite (times_time_columns _ _ _ I3); apply lookup_none_columns;
      rewrite lookup_apply.
    + rewrite (add_resp_lookup _ _ _ _ "co2flx_adv_noinorg" I1);
        try discriminate; try (apply Horg; simpl; tauto). reflexivity.
    + rewrite (add_resp_lookup _ _ _ _ "co2flx_inorg" I1);
        try discriminate; try (apply Horg; simpl; tauto). reflexivity.
Qed.

Lemma co2_flx_without_carbonates_witness :
  exists tdf tdfint,
    value_of [] (co2_flx plain_gas_run "out" "run" "flx_gas" "pco2"
                   ["g1"; "g2"; "g3"] ["arg"; "cc"; "dlm"] false 44.01)
    = [tdf; tdfint]
    /\ ((forall n, In n ["arg"; "cc"; "dlm"] -> mem n (columns plain_gas_table) = false) ->
        lookup "co2flx_inorg" (data tdf) = None
        /\ lookup "co2flx_adv_noinorg" (data tdf) = None)
    /\ ((forall n, In n ["arg"; "cc"; "dlm"] -> mem n (columns plain_gas_table) = false) ->
        lookup "co2flx_inorg" (data tdfint) = None
        /\ lookup "co2flx_adv_noinorg" (data tdfint) = None).
Proof.
  apply (co2_flx_without_carbonates plain_gas_run "out" "run" "flx_gas" "pco2" false
           44.01 plain_gas_table plain_gas_table);
    vm_compute; reflexivity.
Defined.

(** [loc] fails on the first requested name that is no column. *)
Lemma loc_missing {A} (df : Frame A) names n :
  In n names -> lookup n df = None ->
  exists m, loc df names = Raise (KeyError m) /\ In m names /\ lookup m df = None.
Proof.
  unfold loc. induction names as [|a names IH]; simpl; [tauto|].
  intros Hin Hn. unfold getcol at 1.
  destruct (lookup a df) as [c|] eqn:Ea; simpl.
  - destruct Hin as [-> | Hin]; [congruence|].
    destruct (IH Hin Hn) as (m & -> & Hm & Hl). simpl. eauto.
  - eauto.
Qed.

(** X6.  If the instantaneous file lacks one of [time], [dif], [tflx], [adv],
    [co2_flx] raises [KeyError] on a missing one of them; [carbAlk_adv]
    does so for [time], [tflx], [adv]. *)
Theorem flux_tables_need_their_columns fs outdir runname var_fn cdvar
    organic_sp_list inorganic_sp_list convert_units k1 k2 df dfint n :
  get_data fs outdir runname var_fn cdvar = Ok (df, dfint) ->
  lookup n df = None ->
  (In n ["time"; "dif"; "tflx"; "adv"] ->
   exists m, In m ["time"; "dif"; "tflx"; "adv"] /\ lookup m df = None /\
     co2_flx fs outdir runname var_fn cdvar organic_sp_list inorganic_sp_list
       convert_units k1 = Raise (KeyError m))
  /\ (In n ["time"; "tflx"; "adv"] ->
      exists m, In m ["time"; "tflx"; "adv"] /\ lookup m df = None /\
        carbAlk_adv fs outdir runname var_fn cdvar convert_units k1 k2
        = Raise (KeyError m)).
Proof.
  intros Hget Hn. split; intros Hin.
  - destruct (loc_missing df _ n Hin Hn) as (m & E & Hm & Hl).
    exists m. split; auto. split; auto.
    unfold co2_flx. rewrite Hget. cbn [bind]. now rewrite E.
  - destruct (loc_missing df _ n Hin Hn) as (m & E & Hm & Hl).
    exists m. split; auto. split; auto.
    unfold carbAlk_adv. rewrite Hget. cbn [bind]. now rewrite E.
Qed.

Lemma flux_tables_need_their_columns_witness :
  (exists m, In m ["time"; "dif"; "tflx"; "adv"] /\ lookup m no_tflx_table = None /\
     co2_flx no_tflx_run "out" "run" "flx_gas" "pco2" ["g1"; "g2"; "g3"]
       ["arg"; "cc"; "dlm"] true 44.01 = Raise (KeyError m))
  /\ (exists m, In m ["time"; "tflx"; "adv"] /\ lookup m no_tflx_table = None /\
        carbAlk_adv no_tflx_run "out" "run" "flx_gas" "pco2" true 44.01 88.02
        = Raise (KeyError m)).
Proof.
  destruct (flux_tables_need_their_columns no_tflx_run "out" "run" "flx_gas" "pco2"
              ["g1"; "g2"; "g3"] ["arg"; "cc"; "dlm"] true 44.01 88.02
              no_tflx_table no_tflx_table "tflx" eq_refl eq_refl) as [H1 H2].
  split; [apply H1 | apply H2]; simpl; tauto.
Defined.







(* ------------------------------------------------------------------ *)
(** ** Per-cation tables *)

Lemma lookup_filter_kept {A} (p : string * list A -> bool) (df : Frame A) n :
  (forall c, In (n, c) df -> p (n, c) = true) ->
  lookup n (filter p df) = lookup n df.
Proof.
  induction df as [|[k c] df IH]; simpl; auto.
  intros H. destruct (String.eqb k n) eqn:E.
  - apply String.eqb_eq in E. subst k. rewrite (H c) by auto. simpl.
    now rewrite String.eqb_refl.
  - destruct (p (k, c)); simpl; rewrite ?E; auto.
Qed.

Lemma lookup_filter_some {A} (p : string * list A -> bool) (df : Frame A) n c :
  lookup n (filter p df) = Some c -> In (n, c) df /\ p (n, c) = true.
Proof.
  induction df as [|[k c0] df IH]; simpl; [discriminate|].
  destruct (p (k, c0)) eqn:Ep; simpl.
  - destruct (String.eqb k n) eqn:E.
    + apply String.eqb_eq in E. subst k. intros [= <-]. auto.
    + intros H. destruct (IH H). auto.
  - intros H. destruct (IH H). auto.
Qed.

(** X9.  The trimming step of [build_cation_df] returns [time], [adv], [tflx]
    and [res] as they are, and any column it returns is a column of the
    input that is one of these four or has an entry above 1e-7 in
    absolute value. *)
Theorem trim_negligible_keeps_protected (df : Frame Q) :
  (forall n, In n ["time"; "adv"; "tflx"; "res"] ->
     lookup n (trim_negligible df) = lookup n df)
  /\ (forall n c, lookup n (trim_negligible df) = Some c ->
        In (n, c) df
        /\ (In n ["time"; "adv"; "tflx"; "res"]
            \/ exists v, In v c /\ 1e-7 < Qabs v)).
Proof.
  split.
  - intros n Hn. unfold trim_negligible. apply lookup_filter_kept.
    intros c _. cbn [fst snd].
    replace (mem n columns_to_keep) with true; [apply orb_true_r|].
    simpl in Hn. repeat destruct Hn as [<- | Hn]; try reflexivity. destruct Hn.
  - intros n c H. unfold trim_negligible in H.
    apply lookup_filter_some in H as [Hin Hp]. split; auto.
    cbn [fst snd] in Hp. apply orb_true_iff in Hp as [Hp | Hp].
    + right. apply existsb_exists in Hp as (v & Hv & Hlt). exists v. split; auto.
      unfold Qltb in Hlt. destruct (1e-7 ?= Qabs v) eqn:E; try discriminate.
      now apply Qlt_alt.
    + left. unfold mem, columns_to_keep in Hp.
      apply existsb_exists in Hp as (k & Hk & E). apply String.eqb_eq in E. now subst.
Qed.

Lemma lookup_as_text_cases (df : Frame Q) names n :
  lookup n (as_text df names) = if mem n names then None else lookup n df.
Proof.
  induction df as [|[k c] df IH]; simpl.
  - now destruct (mem n names).
  - destruct (mem k names) eqn:Ek; simpl; destruct (String.eqb k n) eqn:E;
      try (apply String.eqb_eq in E; subst k; rewrite Ek); auto.
    now rewrite IH, Ek.
Qed.

Lemma lookup_as_text (df : Frame Q) names n :
  mem n names = false -> lookup n (as_text df names) = lookup n df.
Proof. intros H. now rewrite lookup_as_text_cases, H. Qed.




Lemma build_cation_df_columns runname cation ccharge tmpdf tmpdfint
    inorganic_sp_list negligible_val m out nonint int n :
  build_cation_df runname cation ccharge tmpdf tmpdfint inorganic_sp_list
    negligible_val m true = Ok (out, nonint, int) ->
  mem n ["noncarbsld_source"; "carbsld_source"; "co2pot_adv_tonHaYr";
         "co2pot_tot_tonHaYr"; "charge"] = false ->
  mem n (columns tmpdf) = false ->
  lookup n (data nonint) = None.
Proof.
  intros H Hn Hc. unfold build_cation_df in H. cbv zeta in H.
  apply bind_ok in H as (s1 & _ & H). apply bind_ok in H as (s2 & _ & H).
  apply bind_ok in H as (s3 & _ & H). apply bind_ok in H as (s4 & _ & H).
  apply bind_ok in H as (a & Ha & H). apply bind_ok in H as (ai & Hai & H).
  apply bind_ok in H as (t & Ht & H). apply bind_ok in H as (ti & Hti & H).
  injection H as _ <- _. cbn [data].
  simpl in Hn. repeat (apply orb_false_elim in Hn as [? Hn]).
  rewrite lookup_setcol_other by (rewrite String.eqb_sym; assumption).
  rewrite lookup_as_text_cases. destruct (mem n text_columns); auto.
  rewrite !lookup_setcol_other by (rewrite String.eqb_sym; assumption).
  destruct (lookup n (trim_negligible tmpdf)) as [c|] eqn:E; auto.
  unfold trim_negligible in E. apply lookup_filter_some in E as [Hin _].
  assert (mem n (columns tmpdf) = true); [|congruence].
  unfold mem. apply existsb_exists. exists n. split; [|apply String.eqb_refl].
  unfold columns. apply in_map_iff. exists (n, c). auto.
Qed.

(* ------------------------------------------------------------------ *)
(** ** The cation summary *)

Lemma as_file_columns (df : Frame Q) : columns (as_file df) = columns df.
Proof. unfold as_file, columns. rewrite map_map. reflexivity. Qed.

Lemma sumCat_step_g_m2_raises fs outdir runname var_fn catvars_charge l st cat :
  (forall file, fs [outdir; runname; "flx"; var_fn ++ "-" ++ cat ++ ".txt"] = Some file ->
     mem "co2pot_adv_gm2Yr" (columns file) = false) ->
  exists e, sumCat_step fs outdir runname var_fn catvars_charge false l st cat = Raise e.
Proof.
  intros Hfile. unfold sumCat_step.
  destruct (dict_get catvars_charge cat) as [ch|e]; [|simpl; eauto]. cbn [bind].
  destruct (get_data fs outdir runname var_fn cat) as [[tmpdf tmpdfint]|e] eqn:Hget;
    [|simpl; eauto]. cbn [bind].
  apply get_data_files in Hget as [H1 _]. apply Hfile in H1. rewrite as_file_columns in H1.
  destruct (build_cation_df _ _ _ _ _ _ _ _ _) as [[[o nonint] int]|e] eqn:Hb;
    [|simpl; eauto]. cbn [bind].
  destruct (charge_table (data nonint)) as [t|e]; [|simpl; eauto]. cbn [bind].
  destruct (charge_table (data int)) as [ti|e]; [|simpl; eauto]. cbn [bind].
  unfold take_column at 1, getcol.
  rewrite (build_cation_df_columns _ _ _ _ _ _ _ _ _ _ _ "co2pot_adv_gm2Yr" Hb eq_refl H1).
  simpl. eauto.
Qed.

(** X11.  [sumCat_adv] with [convert_units=False] never returns, unless a cation
    file itself has a column [co2pot_adv_gm2Yr]: [build_cation_df] is
    called with its default units, so the g/m2 columns read afterwards
    are not there. *)
Theorem sumCat_adv_g_m2_never_returns fs outdir runname var_fn catvars_charge :
  (forall cat file,
     fs [outdir; runname; "flx"; var_fn ++ "-" ++ cat ++ ".txt"] = Some file ->
     mem "co2pot_adv_gm2Yr" (columns file) = false) ->
  exists e, sumCat_adv fs outdir runname var_fn catvars_charge false = Raise e.
Proof.
  intros Hfile. unfold sumCat_adv.
  destruct (find_cations fs outdir runname var_fn catvars_charge) as [|cat l] eqn:E.
  - simpl. eauto.
  - cbn [foldM].
    destruct (sumCat_step_g_m2_raises fs outdir runname var_fn catvars_charge
                (cat :: l) (mkSumCat [] None None) cat (Hfile cat)) as (e & ->).
    simpl. eauto.
Qed.

Lemma sumCat_adv_g_m2_never_returns_witness :
  exists e, sumCat_adv ca_mg_run "out" "run" "flx_aq" default_catvars_charge false
            = Raise e.
Proof.
  apply (sumCat_adv_g_m2_never_returns ca_mg_run "out" "run" "flx_aq"
           default_catvars_charge).
  intros cat file. unfold ca_mg_run, mkfs.
  repeat (destruct (path_eqb _ _); [intros [= <-]; reflexivity|]).
  discriminate.
Defined.

(* ------------------------------------------------------------------ *)
(** ** Integration, interpolation and resampling *)

Lemma cumtrapz_from_constant c t0 acc x0 xs :
  acc == c * (x0 - t0) ->
  Forall2 (fun v t => v == c * (t - t0))
    (cumtrapz_from acc x0 c xs (repeat c (List.length xs))) xs.
Proof.
  revert acc x0. induction xs as [|x xs IH]; intros acc x0 Hacc; simpl; constructor.
  - rewrite Hacc. field.
  - apply IH. rewrite Hacc. field.
Qed.

(** X12.  For a constant application rate [c], the cumulative trapezoid
    integral at time [t] is [c * (t - t0)], from 0 at the first time. *)
Theorem cumulative_trapezoid_constant_rate (c t0 : Q) (times : list Q) :
  exists int_dust,
    cumulative_trapezoid (repeat c (List.length (t0 :: times))) (t0 :: times)
    = Ok int_dust
    /\ Forall2 (fun v t => v == c * (t - t0)) int_dust (t0 :: times).
Proof.
  eexists. split; [reflexivity|]. constructor; [ring|].
  apply cumtrapz_from_constant. ring.
Qed.

Lemma fill_gap_length a b k : List.length (fill_gap a b k) = k.
Proof. unfold fill_gap. now rewrite length_map, length_seq. Qed.

Lemma interpolate_after_length a p xs :
  List.length (interpolate_after a p xs) = (p + List.length xs)%nat.
Proof.
  revert a p. induction xs as [|[b|] xs IH]; intros a p; simpl.
  - rewrite repeat_length. lia.
  - rewrite length_app, fill_gap_length. simpl. rewrite IH. lia.
  - rewrite IH. lia.
Qed.

Lemma interpolate_length xs : List.length (interpolate xs) = List.length xs.
Proof.
  induction xs as [|[a|] xs IH]; simpl; auto.
  now rewrite interpolate_after_length.
Qed.

Lemma interpolate_after_filled a p xs :
  Forall (fun x => x <> None) (interpolate_after a p xs).
Proof.
  revert a p. induction xs as [|[b|] xs IH]; intros a p; simpl.
  - apply Forall_forall. intros x Hx. apply repeat_spec in Hx. now subst.
  - apply Forall_app. split.
    + unfold fill_gap. apply Forall_forall. intros x Hx.
      apply in_map_iff in Hx as (m & <- & _). discriminate.
    + constructor; [discriminate|apply IH].
  - apply IH.
Qed.

Lemma interpolate_after_valid a p xs i v :
  nth_error xs i = Some (Some v) ->
  nth_error (interpolate_after a p xs) (p + i) = Some (Some v).
Proof.
  revert a p i. induction xs as [|[b|] xs IH]; intros a p i H.
  - destruct i; discriminate.
  - simpl. rewrite nth_error_app2; rewrite fill_gap_length; [|lia].
    replace (p + i - p)%nat with i by lia.
    destruct i as [|i]; simpl in *; [assumption|].
    apply (IH b 0%nat i H).
  - destruct i as [|i]; simpl in H; [discriminate|].
    simpl. replace (p + S i)%nat with (S p + i)%nat by lia. now apply IH.
Qed.

(** X13.  [interpolate] keeps the length and every value that is present, fills
    every row after the first present value, and leaves the rows before
    it missing. *)
Theorem interpolate_fills_after_first_valid (xs : list fnum) :
  List.length (interpolate xs) = List.length xs
  /\ (forall i v, nth_error xs i = Some (Some v) ->
        nth_error (interpolate xs) i = Some (Some v))
  /\ (forall i j v, (i < j)%nat -> (j < List.length xs)%nat ->
        nth_error xs i = Some (Some v) ->
        exists w, nth_error (interpolate xs) j = Some (Some w))
  /\ (forall j, (forall i, (i <= j)%nat -> nth_error xs i = Some None) ->
        nth_error (interpolate xs) j = Some None).
Proof.
  split; [apply interpolate_length|]. split; [|split].
  - induction xs as [|[a|] xs IH]; intros i v H.
    + destruct i; discriminate.
    + destruct i as [|i]; simpl in *; [assumption|].
      apply (interpolate_after_valid a 0%nat xs i v H).
    + destruct i as [|i]; simpl in *; [discriminate|]. now apply IH.
  - induction xs as [|[a|] xs IH]; intros i j v Hij Hj H.
    + simpl in Hj. lia.
    + destruct j as [|j]; [lia|]. simpl in *.
      assert (j < List.length (interpolate_after a 0 xs))%nat as Hlen
          by (rewrite interpolate_after_length; lia).
      apply nth_error_Some in Hlen.
      destruct (nth_error (interpolate_after a 0 xs) j) as [[w|]|] eqn:E.
      * eauto.
      * apply nth_error_In in E.
        pose proof (interpolate_after_filled a 0%nat xs) as F.
        rewrite Forall_forall in F. now apply F in E.
      * tauto.
    + destruct i as [|i]; simpl in H; [discriminate|].
      destruct j as [|j]; [lia|]. simpl in *.
      apply (IH i j v); auto; lia.
  - induction xs as [|[a|] xs IH]; intros j H.
    + specialize (H 0%nat ltac:(lia)). discriminate.
    + specialize (H 0%nat ltac:(lia)). discriminate.
    + destruct j as [|j]; simpl; auto.
      apply IH. intros i Hi. apply (H (S i)). lia.
Qed.

Lemma interpolate_after_reset a0 p pre a tail :
  exists X, interpolate_after a0 p (pre ++ Some a :: tail)
            = (X ++ Some a :: interpolate_after a 0 tail)%list
            /\ List.length X = (p + List.length pre)%nat.
Proof.
  revert a0 p. induction pre as [|[b|] pre IH]; intros a0 p; simpl.
  - exists (fill_gap a0 a p). split; auto. rewrite fill_gap_length. lia.
  - destruct (IH b 0%nat) as (X & -> & HX).
    exists (fill_gap a0 b p ++ Some b :: X)%list. split.
    + now rewrite <- app_assoc.
    + rewrite length_app, fill_gap_length. simpl. unfold fnum in *. lia.
  - destruct (IH a0 (S p)) as (X & -> & HX). exists X. split; auto.
    unfold fnum in *. simpl. lia.
Qed.

Lemma interpolate_reset pre a tail :
  exists X, interpolate (pre ++ Some a :: tail)
            = (X ++ Some a :: interpolate_after a 0 tail)%list
            /\ List.length X = List.length pre.
Proof.
  induction pre as [|[b|] pre IH]; simpl.
  - exists []. auto.
  - destruct (interpolate_after_reset b 0%nat pre a tail) as (X & -> & HX).
    exists (Some b :: X). split; auto. unfold fnum in *. simpl. lia.
  - destruct IH as (X & -> & HX). exists (None :: X). split; auto.
    unfold fnum in *. simpl. lia.
Qed.

Lemma interpolate_after_gap a p g :
  forall tail b,
  interpolate_after a p (repeat None g ++ Some b :: tail)
  = (fill_gap a b (p + g) ++ Some b :: interpolate_after b 0 tail)%list.
Proof.
  revert p. induction g as [|g IH]; intros p tail b; simpl.
  - now rewrite Nat.add_0_r.
  - rewrite IH. now replace (S p + g)%nat with (p + S g)%nat by lia.
Qed.

Lemma interpolate_after_trailing a p g :
  interpolate_after a p (repeat None g) = repeat (Some a) (p + g).
Proof.
  revert p. induction g as [|g IH]; intros p; simpl.
  - now rewrite Nat.add_0_r.
  - rewrite IH. now replace (S p + g)%nat with (p + S g)%nat by lia.
Qed.

(** X14.  A gap of [g] missing rows between the values [a] and [b] is filled, at
    its row [m], with [a + (b - a) * (m + 1) / (g + 1)]: linear in the row
    position, whatever the times are.  A gap at the end repeats the last
    value. *)
Theorem interpolate_is_linear_in_position (pre tail : list fnum) (a b : Q) (g m : nat) :
  (m < g)%nat ->
  nth_error (interpolate (pre ++ Some a :: repeat None g ++ Some b :: tail))
    (List.length pre + 1 + m)
  = Some (Some (a + (b - a) * (inject_Z (Z.of_nat (S m)) / inject_Z (Z.of_nat (S g)))))
  /\ nth_error (interpolate (pre ++ Some a :: repeat None g))
       (List.length pre + 1 + m)
     = Some (Some a).
Proof.
  intros Hm. unfold fnum in *. split.
  - destruct (interpolate_reset pre a (repeat None g ++ Some b :: tail)) as (X & -> & HX).
    rewrite nth_error_app2 by lia. rewrite HX.
    replace (List.length pre + 1 + m - List.length pre)%nat with (S m) by lia.
    simpl. rewrite interpolate_after_gap. simpl.
    rewrite nth_error_app1 by (rewrite fill_gap_length; lia).
    unfold fill_gap. rewrite nth_error_map.
    rewrite (nth_error_nth' _ 0%nat) by (rewrite length_seq; lia).
    rewrite seq_nth by lia. reflexivity.
  - destruct (interpolate_reset pre a (repeat None g)) as (X & -> & HX).
    rewrite nth_error_app2 by lia. rewrite HX.
    replace (List.length pre + 1 + m - List.length pre)%nat with (S m) by lia.
    simpl. rewrite interpolate_after_trailing. simpl.
    apply nth_error_repeat. lia.
Qed.

Lemma interpolate_is_linear_in_position_witness :
  nth_error (interpolate ([] ++ Some 0 :: repeat None 2 ++ Some 3 :: [])) (0 + 1 + 0)
  = Some (Some (0 + (3 - 0) * (inject_Z (Z.of_nat 1) / inject_Z (Z.of_nat 3))))
  /\ nth_error (interpolate ([] ++ Some 0 :: repeat None 2)) (0 + 1 + 0)
     = Some (Some 0).
Proof.
  apply (interpolate_is_linear_in_position [] [] 0 3 2 0). lia.
Defined.

Lemma drop_duplicates_from_distinct_id seen rows :
  (forall r, In r rows -> time_in (fst r) seen = false) ->
  ForallOrdPairs (fun r r' => Qeq_bool (fst r') (fst r) = false) rows ->
  drop_duplicates_from seen rows = rows.
Proof.
  revert seen. induction rows as [|r rows IH]; intros seen Hs Hd; simpl; auto.
  rewrite (Hs r) by (simpl; auto). f_equal.
  inversion Hd as [|? ? Hhead Htail]; subst.
  apply IH; auto. intros r' Hr'. simpl.
  rewrite Forall_forall in Hhead. rewrite (Hhead r' Hr'). simpl.
  apply Hs. simpl; auto.
Qed.

(** X15.  Dropping the repeated times twice is dropping them once, and rows
    whose times are pairwise distinct are left as they are. *)
Theorem drop_duplicates_idempotent (rows : list (Q * Q)) :
  drop_duplicates (drop_duplicates rows) = drop_duplicates rows
  /\ (ForallOrdPairs (fun r r' => Qeq_bool (fst r') (fst r) = false) rows ->
      drop_duplicates rows = rows).
Proof.
  split.
  - unfold drop_duplicates. apply drop_duplicates_from_distinct_id.
    + intros r _. reflexivity.
    + apply drop_duplicates_from_distinct.
  - intros H. unfold drop_duplicates. apply drop_duplicates_from_distinct_id; auto.
Qed.

Lemma filter_insert_row_length (p : Q * fnum -> bool) r l :
  List.length (filter p (insert_row r l)) = List.length (filter p (r :: l)).
Proof.
  induction l as [|r' l IH]; simpl; auto.
  destruct (Qle_bool (fst r') (fst r)); simpl; auto.
  simpl in IH. destruct (p r'), (p r); simpl in *; lia.
Qed.

Lemma filter_sort_rows_length (p : Q * fnum -> bool) l :
  List.length (filter p (sort_rows l)) = List.length (filter p l).
Proof.
  unfold sort_rows.
  assert (G : forall acc, List.length (filter p (fold_left (fun a r => insert_row r a) l acc))
                          = (List.length (filter p l) + List.length (filter p acc))%nat).
  { induction l as [|r l IH]; intros acc; simpl; auto.
    rewrite IH, filter_insert_row_length. simpl. destruct (p r); simpl; lia. }
  rewrite G. simpl. lia.
Qed.

Lemma insert_row_length r l : List.length (insert_row r l) = S (List.length l).
Proof.
  induction l as [|r' l IH]; simpl; auto.
  destruct (Qle_bool (fst r') (fst r)); simpl; auto.
Qed.

Lemma time_in_self t l : In t l -> time_in t l = true.
Proof.
  intros H. unfold time_in. apply existsb_exists. exists t. split; auto.
  apply Qeq_bool_iff. reflexivity.
Qed.

Lemma filter_combine_fst (q : Q -> bool) (ts : list Q) (vs : list fnum) :
  List.length vs = List.length ts ->
  List.length (filter (fun r => q (fst r)) (combine ts vs))
  = List.length (filter q ts).
Proof.
  revert vs. induction ts as [|t ts IH]; intros [|v vs] H; simpl in *; try lia; auto.
  destruct (q t); simpl; rewrite IH; auto.
Qed.

Lemma filter_map_fst_length (q : Q -> bool) (l : list (Q * fnum)) :
  List.length (filter q (map fst l)) = List.length (filter (fun r => q (fst r)) l).
Proof. induction l as [|r l IH]; simpl; auto. destruct (q (fst r)); simpl; lia. Qed.

(** X16.  When the flux table has no dust column of its own, the resampled
    dust series has one value for each row of the flux table, whatever
    the rows of [dust.txt] are. *)
Theorem resample_one_value_per_row (left : list Q) (dfdust_nodup : list (Q * Q)) :
  List.length (resample left None dfdust_nodup) = List.length left.
Proof.
  unfold resample. rewrite length_map.
  set (m := merge_outer left None dfdust_nodup).
  rewrite (filter_combine_fst (fun t => time_in t left))
    by (now rewrite interpolate_length, !length_map).
  rewrite filter_map_fst_length. unfold m, merge_outer.
  rewrite filter_sort_rows_length, filter_app, length_app.
  replace (filter _ (map (fun r => (fst r, Some (snd r))) _)) with (@nil (Q * fnum)).
  - simpl. rewrite Nat.add_0_r.
    assert (G : forall l', incl l' left ->
              filter (fun r : Q * fnum => time_in (fst r) left)
                (map (fun t => (t, value_at t dfdust_nodup)) l')
              = map (fun t => (t, value_at t dfdust_nodup)) l').
    { induction l' as [|t l' IH]; intros Hi; simpl; auto.
      rewrite time_in_self by (apply Hi; simpl; auto).
      f_equal. apply IH. intros x Hx. apply Hi. simpl; auto. }
    rewrite G by apply incl_refl. now rewrite length_map.
  - symmetry. induction dfdust_nodup as [|r rows IH]; simpl; auto.
    destruct (time_in (fst r) left) eqn:E; simpl; auto.
    now rewrite E.
Qed.

(* ------------------------------------------------------------------ *)
(** ** Feedstock dissolution *)

(** X17.  A feedstock that is no key of the molar masses makes [sld_flx] raise,
    with or without the dust file. *)
Theorem sld_flx_unknown_species fs outdir runname feedstock var_fn dust_from_file
    (mm : list (string * Q)) e :
  dict_get mm feedstock = Raise e ->
  exists e', sld_flx fs outdir runname feedstock var_fn dust_from_file mm = Raise e'.
Proof.
  intros Hm. unfold sld_flx.
  destruct (get_data fs outdir runname var_fn feedstock) as [[df dfint]|e0];
    [|simpl; eauto]. cbn [bind].
  destruct (times_time ["time"] dfint) as [dfint'|e0]; [|simpl; eauto]. cbn [bind].
  destruct dust_from_file.
  - destruct (dust_from_file_series fs outdir runname feedstock df) as [s|e0];
      [|simpl; eauto]. cbn [bind].
    destruct (Nat.eqb _ _); [|simpl; eauto]. cbn [bind]. cbv zeta.
    destruct (getcol _ "adv") as [adv|e0]; [|simpl; eauto]. cbn [bind].
    rewrite Hm. simpl. eauto.
  - destruct (getcol dfint' "rain") as [rain|e0]; [|simpl; eauto]. cbn [bind].
    rewrite Hm. simpl. eauto.
Qed.

Lemma sld_flx_unknown_species_witness :
  exists e', sld_flx sld_run "out" "run" "unobtainium" "flx_sld" true molar_mass_dict
             = Raise e'.
Proof.
  apply (sld_flx_unknown_species sld_run "out" "run" "unobtainium" "flx_sld" true
           molar_mass_dict (KeyError "unobtainium")).
  reflexivity.
Defined.

(** X18.  With [dust_from_file=False], [sld_flx] depends on the two flux files
    only; with [dust_from_file=True] and readable flux files, a missing
    [dust.txt] is a [FileNotFoundError]. *)
Theorem sld_flx_reads_dust_only_on_request fs fs' outdir runname feedstock var_fn mm :
  fs [outdir; runname; "flx"; var_fn ++ "-" ++ feedstock ++ ".txt"]
  = fs' [outdir; runname; "flx"; var_fn ++ "-" ++ feedstock ++ ".txt"] ->
  fs [outdir; runname; "flx"; "int_" ++ var_fn ++ "-" ++ feedstock ++ ".txt"]
  = fs' [outdir; runname; "flx"; "int_" ++ var_fn ++ "-" ++ feedstock ++ ".txt"] ->
  sld_flx fs outdir runname feedstock var_fn false mm
  = sld_flx fs' outdir runname feedstock var_fn false mm
  /\ (forall df dfint time,
        get_data fs outdir runname var_fn feedstock = Ok (df, dfint) ->
        lookup "time" dfint = Some time ->
        fs [outdir; runname; "flx"; "dust.txt"] = None ->
        sld_flx fs outdir runname feedstock var_fn true mm
        = Raise (FileNotFoundError [outdir; runname; "flx"; "dust.txt"])).
Proof.
  intros H1 H2. split.
  - unfold sld_flx, get_data, preprocess_txt. now rewrite H1, H2.
  - intros df dfint time Hget Ht Hdust. unfold sld_flx. rewrite Hget. cbn [bind].
    unfold times_time at 1.
    destruct (find _ (columns dfint)).
    + rewrite (lookup_getcol _ _ Ht). cbn [bind].
      unfold dust_from_file_series, load_dust.
      now rewrite (preprocess_txt_missing _ _ _ _ _ _ Hdust).
    + cbn [bind]. unfold dust_from_file_series, load_dust.
      now rewrite (preprocess_txt_missing _ _ _ _ _ _ Hdust).
Qed.

Lemma sld_flx_reads_dust_only_on_request_witness :
  sld_flx sld_nodust_run "out" "run" "cc" "flx_sld" false molar_mass_dict
  = sld_flx sld_run "out" "run" "cc" "flx_sld" false molar_mass_dict
  /\ (forall df dfint time,
        get_data sld_nodust_run "out" "run" "flx_sld" "cc" = Ok (df, dfint) ->
        lookup "time" dfint = Some time ->
        sld_nodust_run ["out"; "run"; "flx"; "dust.txt"] = None ->
        sld_flx sld_nodust_run "out" "run" "cc" "flx_sld" true molar_mass_dict
        = Raise (FileNotFoundError ["out"; "run"; "flx"; "dust.txt"])).
Proof.
  apply (sld_flx_reads_dust_only_on_request sld_nodust_run sld_run "out" "run" "cc"
           "flx_sld" molar_mass_dict);
    reflexivity.
Defined.

Ltac frames :=
  repeat first
    [ rewrite lookup_cons_eq
    | rewrite lookup_cons_ne by side
    | rewrite setcol_cons_eq
    | rewrite setcol_cons_ne by side
    | rewrite setcol_nil
    | rewrite lookup_setcol_same
    | rewrite lookup_setcol_other by side ].

Lemma sld_flx_shape fs outdir runname feedstock var_fn dust_from_file out :
  sld_flx fs outdir runname feedstock var_fn dust_from_file molar_mass_dict = Ok out ->
  exists df dfint0 dfint intdust advq fq m,
    get_data fs outdir runname var_fn feedstock = Ok (df, dfint0)
    /\ times_time ["time"] dfint0 = Ok dfint
    /\ dict_get molar_mass_dict feedstock = Ok m
    /\ lookup "adv" dfint = Some advq /\ lookup feedstock dfint = Some fq
    /\ (dust_from_file = false ->
        exists rain, lookup "rain" dfint = Some rain
          /\ intdust = map (fun v => Some (-1 * v * m * conv_factor)) rain)
    /\ lookup "int_dust_ton_ha_yr" out = Some intdust
    /\ lookup "adv" out = Some (to_ton_ha m advq)
    /\ lookup "total_dissolution" out = Some (to_ton_ha m fq)
    /\ lookup "dust_minus_adv" out = Some (map2 fsub intdust (to_ton_ha m advq))
    /\ lookup "fraction_sld_advected" out = Some (map2 fdiv (to_ton_ha m advq) intdust)
    /\ lookup "fraction_sld_remaining" out
       = Some (map2 fdiv (map2 fsub (map2 fsub intdust (to_ton_ha m advq))
                            (to_ton_ha m fq)) intdust)
    /\ lookup "fraction_remaining_dissolved" out
       = Some (map2 fdiv (to_ton_ha m fq) (map2 fsub intdust (to_ton_ha m advq)))
    /\ lookup "fraction_total_dissolved" out = Some (map2 fdiv (to_ton_ha m fq) intdust).
Proof.
  intros H. unfold sld_flx in H.
  apply bind_ok in H as ([df dfint0] & Hget & H).
  apply bind_ok in H as (dfint & Htt & H).
  apply bind_ok in H as (intdust & Hint & H).
  cbv zeta in H.
  apply bind_ok in H as (adv0 & Hadv0 & H).
  apply bind_ok in H as (m & Hm & H).
  apply bind_ok in H as (f0 & Hf0 & H).
  apply bind_ok in H as (m' & Hm' & H).
  apply bind_ok in H as (tdfint & Hloc & H).
  assert (m' = m) by congruence. subst m'.
  pose proof (molar_mass_key_not_reserved _ Hm) as Hres.
  reserved_fact Hres "time". reserved_fact Hres "int_dust_ton_ha_yr".
  reserved_fact Hres "adv". reserved_fact Hres "dust_minus_adv".
  reserved_fact Hres "total_dissolution". reserved_fact Hres "fraction_sld_advected".
  reserved_fact Hres "fraction_sld_remaining".
  reserved_fact Hres "fraction_remaining_dissolved".
  reserved_fact Hres "fraction_total_dissolved".
  apply getcol_ok in Hadv0, Hf0.
  frames_in Hadv0. frames_in Hf0.
  rewrite lookup_lift_frame in Hadv0, Hf0.
  apply option_map_some in Hadv0 as (advq & Hadvq & ->).
  apply option_map_some in Hf0 as (fq & Hfq & ->).
  apply loc4 in Hloc as (c1 & c2 & c3 & c4 & L1 & L2 & L3 & L4 & ->).
  frames_in L2. frames_in L3. frames_in L4.
  injection L2 as <-. injection L3 as <-. injection L4 as <-.
  unfold column_op, getcol in H.
  repeat (progress (frames_in H; cbn [bind] in H)).
  injection H as <-.
  exists df, dfint0, dfint, intdust, advq, fq, m.
  repeat match goal with |- _ /\ _ => split end; auto;
    try (frames; reflexivity).
  intros ->. apply bind_ok in Hint as (rain & Hrain & Hint).
  apply bind_ok in Hint as (m' & Hm'' & Hint).
  assert (m' = m) by congruence. subst m'.
  apply getcol_ok in Hrain. injection Hint as <-. eauto.
Qed.




Lemma times_time_scaled t t' n x :
  times_time ["time"] t = Ok t' -> String.eqb n "time" = false ->
  lookup n t = Some x ->
  exists time, lookup "time" t = Some time /\ lookup n t' = Some (smul x time).
Proof.
  unfold times_time. intros H Hn Hx.
  destruct (find _ (columns t)) eqn:F.
  - apply bind_ok in H as (tc & Htc & H). injection H as <-.
    apply getcol_ok in Htc. exists tc. split; auto.
    rewrite lookup_apply, Hx. simpl. now rewrite Hn.
  - exfalso. apply lookup_mem in Hx.
    pose proof (find_none _ _ F n) as G.
    assert (In n (columns t)) as I.
    { clear -Hx. induction (columns t) as [|k l IH]; simpl in *; [discriminate|].
      destruct (String.eqb n k) eqn:E.
      - apply String.eqb_eq in E. now left.
      - right. now apply IH. }
    specialize (G I). simpl in G. rewrite Hn in G. discriminate.
Qed.

(** X20.  With [dust_from_file=False], the applied dust of [sld_flx] is
    [-1 * rain * time * molar mass * conv_factor], from the [rain] and
    [time] columns of the [int_] file. *)
Theorem sld_flx_dust_from_rain fs outdir runname feedstock var_fn out df dfint rain m :
  get_data fs outdir runname var_fn feedstock = Ok (df, dfint) ->
  lookup "rain" dfint = Some rain ->
  dict_get molar_mass_dict feedstock = Ok m ->
  sld_flx fs outdir runname feedstock var_fn false molar_mass_dict = Ok out ->
  exists time, lookup "time" dfint = Some time
    /\ lookup "int_dust_ton_ha_yr" out
       = Some (map (fun v => Some (-1 * v * m * conv_factor)) (smul rain time)).
Proof.
  intros Hget Hrain Hm H.
  apply sld_flx_shape in H
    as (df' & dfint0 & dfint' & intdust & advq & fq & m' & Hget' & Htt & Hm' & _ & _
        & Hr & Hdust & _).
  rewrite Hget in Hget'. injection Hget' as <- <-.
  assert (m' = m) by congruence. subst m'.
  destruct (Hr eq_refl) as (rain' & Hrain' & ->).
  destruct (times_time_scaled _ _ "rain" rain Htt eq_refl Hrain) as (time & Htime & Hl).
  exists time. split; auto. rewrite Hdust. congruence.
Qed.

Lemma sld_flx_dust_from_rain_witness :
  exists time, lookup "time" sld_df = Some time
    /\ lookup "int_dust_ton_ha_yr"
         (value_of [] (sld_flx sld_run "out" "run" "cc" "flx_sld" false molar_mass_dict))
       = Some (map (fun v => Some (-1 * v * 100.089 * conv_factor))
                 (smul [-1; -1; -1] time)).
Proof.
  apply (sld_flx_dust_from_rain sld_run "out" "run" "cc" "flx_sld"
           (value_of [] (sld_flx sld_run "out" "run" "cc" "flx_sld" false
                           molar_mass_dict))
           sld_df sld_df [-1; -1; -1] 100.089);
    vm_compute; reflexivity.
Defined.

Lemma setcol_absent {A} (df : Frame A) n c :
  mem n (columns df) = false -> setcol df n c = (df ++ [(n, c)])%list.
Proof.
  induction df as [|[k c0] df IH]; simpl; auto.
  rewrite String.eqb_sym.
  destruct (String.eqb k n) eqn:E; simpl; [discriminate|].
  intros H. now rewrite IH.
Qed.

Lemma mem_app n (a b : list string) : mem n (a ++ b)%list = mem n a || mem n b.
Proof. unfold mem. apply existsb_app. Qed.

Lemma columns_with_fs_app (a b : Frame token) feedstock :
  columns_with_fs (a ++ b)%list feedstock
  = (columns_with_fs a feedstock ++ columns_with_fs b feedstock)%list.
Proof. unfold columns_with_fs. now rewrite filter_app, map_app. Qed.

Lemma map_to_numeric_columns (file : File) df :
  map_to_numeric file = Ok df -> columns df = columns file.
Proof.
  unfold map_to_numeric. revert df.
  induction file as [|[n c] file IH]; intros df H.
  - simpl in H. now injection H as <-.
  - apply mapM_cons in H as (b & bs & Hb & Hbs & ->).
    apply bind_ok in Hb as (c' & _ & Hb). injection Hb as <-.
    simpl. f_equal. now apply IH.
Qed.

Lemma drop_not_mem {A} (df t : Frame A) names n :
  drop df names = Ok t -> mem n names = true -> mem n (columns t) = false.
Proof.
  unfold drop. destruct (find _ names); [discriminate|]. intros [= <-] Hn.
  induction df as [|[k c] df IH]; simpl; auto.
  destruct (mem k names) eqn:E; simpl; auto.
  destruct (String.eqb n k) eqn:E'; auto.
  apply String.eqb_eq in E'. congruence.
Qed.

(** X21.  The dust index is 2 exactly when the feedstock occurs in [dustsp2] and
    not in [dustsp1]; when it occurs in both, in [dustsp1] only or in
    neither, it is 1. *)
Theorem dust_index_prefers_dustsp1
    (fs : FileSystem) (outdir runname feedstock : string) (file : File)
    (sp1 sp2 : list token) (dfnum : Frame Q) (dfdust : Frame token) :
  fs [outdir; runname; "flx"; "dust.txt"] = Some file ->
  lookup "dustsp1" file = Some sp1 ->
  lookup "dustsp2" file = Some sp2 ->
  load_dust fs outdir runname = Ok (dfnum, dfdust) ->
  dust_index dfdust feedstock
  = if negb (existsb (token_is feedstock) sp1) && existsb (token_is feedstock) sp2
    then "2" else "1".
Proof.
  intros Hfile H1 H2. unfold load_dust, preprocess_txt. rewrite Hfile. simpl.
  intros H.
  apply bind_ok in H as (dropped & Hdrop & H).
  apply bind_ok in H as (dfnum' & Hnum & H).
  apply bind_ok in H as (s1 & Hs1 & H).
  apply bind_ok in H as (s2 & Hs2 & H).
  injection H as <- <-.
  apply getcol_ok in Hs1, Hs2.
  assert (s1 = sp1) by congruence. assert (s2 = sp2) by congruence. subst s1 s2.
  pose proof (map_to_numeric_columns _ _ Hnum) as Hcols.
  set (lifted := map (fun nc => (fst nc, map Num (snd nc))) dfnum').
  assert (Hl : columns lifted = columns dropped).
  { unfold lifted, columns in *. rewrite map_map. simpl. exact Hcols. }
  assert (D1 : mem "dustsp1" (columns lifted) = false).
  { rewrite Hl. now apply (drop_not_mem _ _ _ "dustsp1" Hdrop). }
  assert (D2 : mem "dustsp2" (columns (lifted ++ [("dustsp1", sp1)])%list) = false).
  { unfold columns. rewrite map_app. fold (columns lifted).
    rewrite mem_app, Hl, (drop_not_mem _ _ _ "dustsp2" Hdrop eq_refl).
    reflexivity. }
  rewrite (setcol_absent _ _ _ D1), (setcol_absent _ _ _ D2).
  unfold dust_index. rewrite !columns_with_fs_app.
  unfold lifted. rewrite columns_with_fs_numeric. simpl.
  unfold columns_with_fs. simpl.
  destruct (existsb (token_is feedstock) sp1), (existsb (token_is feedstock) sp2);
    reflexivity.
Qed.

Lemma dust_index_prefers_dustsp1_witness :
  dust_index (snd (value_of ([], []) (load_dust sld_run "out" "run"))) "amnt" = "2"
  /\ dust_index (snd (value_of ([], []) (load_dust sld_run "out" "run"))) "gbas" = "1".
Proof.
  split.
  - apply (dust_index_prefers_dustsp1 sld_run "out" "run" "amnt" dust_example
             (words ["gbas"; "gbas"; "gbas"; "gbas"; "gbas"])
             (words ["amnt"; "amnt"; "amnt"; "amnt"; "amnt"])
             (fst (value_of ([], []) (load_dust sld_run "out" "run")))
             (snd (value_of ([], []) (load_dust sld_run "out" "run"))));
      vm_compute; reflexivity.
  - vm_compute; reflexivity.
Defined.

(* ------------------------------------------------------------------ *)
(** ** The driver *)

Lemma path_eqb_eq p q : path_eqb p q = true <-> p = q.
Proof. unfold path_eqb. destruct (list_eq_dec string_dec p q); split; congruence. Qed.

Lemma stored_to_pickle_same st path p : stored (to_pickle st path p) path = Some p.
Proof.
  induction st as [|[q p0] st IH]; simpl.
  - assert (path_eqb path path = true) as -> by now apply path_eqb_eq. reflexivity.
  - destruct (path_eqb q path) eqn:E; simpl; rewrite E; auto.
Qed.

Lemma stored_to_pickle_other st path p other :
  other <> path -> stored (to_pickle st path p) other = stored st other.
Proof.
  intros Hne. induction st as [|[q p0] st IH]; simpl.
  - destruct (path_eqb path other) eqn:E; auto.
    apply path_eqb_eq in E. congruence.
  - destruct (path_eqb q path) eqn:E; simpl.
    + apply path_eqb_eq in E. subst q.
      destruct (path_eqb path other) eqn:E'; auto.
      apply path_eqb_eq in E'. congruence.
    + destruct (path_eqb q other); auto.
Qed.

Lemma preserves_done other : preserves other done.
Proof. now intros st. Qed.

Lemma preserves_compute {A} other (r : result A) : preserves other (compute r).
Proof. now intros st. Qed.

Lemma preserves_save other path p : other <> path -> preserves other (save path p).
Proof. intros H st. simpl. now apply stored_to_pickle_other. Qed.

Lemma preserves_bindJ {A B} other (c : Job A) (k : A -> Job B) :
  preserves other c -> (forall a, preserves other (k a)) ->
  preserves other (bindJ c k).
Proof.
  intros Hc Hk st. unfold bindJ.
  specialize (Hc st).
  destruct (c st) as [st' [a|e]]; simpl in *.
  - rewrite (Hk a st'). exact Hc.
  - exact Hc.
Qed.

Lemma preserves_for_each {X} other (l : list X) (body : X -> Job unit) :
  (forall x, preserves other (body x)) -> preserves other (for_each l body).
Proof.
  intros Hb. induction l as [|x l IH]; simpl.
  - apply preserves_done.
  - apply preserves_bindJ; auto.
Qed.

Lemma preserves_when other b (j : Job unit) :
  preserves other j -> preserves other (when b j).
Proof. destruct b; simpl; auto using preserves_done. Qed.

Ltac preserved tac :=
  repeat first
    [ apply preserves_bindJ; [|intros ?]
    | apply preserves_when
    | apply preserves_for_each; intros ?
    | apply preserves_compute
    | apply preserves_done
    | apply preserves_save; tac ].

(** X22.  [cflx_calc] leaves every file outside [outdir/runname/save_dir] as it
    was, whether it finishes or raises. *)
Theorem cflx_calc_writes_only_in_save_dir
    fs outdir runname save_dir feedstock dust_from_file convert_units calc_list
    (st : Store) (other : list string) :
  (forall name, other <> [outdir; runname; save_dir; name]) ->
  stored (fst (cflx_calc fs outdir runname save_dir feedstock dust_from_file
                 convert_units calc_list st)) other
  = stored st other.
Proof.
  intros H. revert st.
  change (preserves other (cflx_calc fs outdir runname save_dir feedstock
                             dust_from_file convert_units calc_list)).
  unfold cflx_calc, stage_co2, stage_carbAlk, stage_sumCat, stage_sld, savehere.
  preserved ltac:(apply H).
Qed.

Lemma cflx_calc_writes_only_in_save_dir_witness :
  stored (fst (cflx_calc gas_run "out" "run" "postproc_flxs" (One "cc") true true
                 ["co2_flx"] [(["out"; "run"; "notes.pkl"], PickleQ [])]))
    ["out"; "run"; "notes.pkl"]
  = Some (PickleQ []).
Proof.
  apply (cflx_calc_writes_only_in_save_dir gas_run "out" "run" "postproc_flxs"
           (One "cc") true true ["co2_flx"]
           [(["out"; "run"; "notes.pkl"], PickleQ [])] ["out"; "run"; "notes.pkl"]).
  intros name. discriminate.
Defined.

(** X23.  [cflx_calc] depends on [calc_list] only through which of the four
    stage names it holds: their order, repetitions and any other name
    change nothing. *)
Theorem cflx_calc_depends_on_membership_only
    fs outdir runname save_dir feedstock dust_from_file convert_units
    (calc_list calc_list' : list string) (st : Store) :
  (forall n, In n stage_names -> mem n calc_list = mem n calc_list') ->
  cflx_calc fs outdir runname save_dir feedstock dust_from_file convert_units calc_list st
  = cflx_calc fs outdir runname save_dir feedstock dust_from_file convert_units
      calc_list' st.
Proof.
  intros H. unfold cflx_calc.
  rewrite (H "co2_flx"), (H "carbAlk_adv"), (H "sumCat_adv"), (H "sld_flx");
    auto; simpl; tauto.
Qed.

Lemma cflx_calc_depends_on_membership_only_witness :
  cflx_calc gas_run "out" "run" "postproc_flxs" (One "cc") true true
    ["carbAlk_adv"; "co2_flx"] []
  = cflx_calc gas_run "out" "run" "postproc_flxs" (One "cc") true true
      ["co2_flx"; "plots"; "carbAlk_adv"; "co2_flx"] [].
Proof.
  apply (cflx_calc_depends_on_membership_only gas_run "out" "run" "postproc_flxs"
           (One "cc") true true ["carbAlk_adv"; "co2_flx"]
           ["co2_flx"; "plots"; "carbAlk_adv"; "co2_flx"] []).
  intros n Hn. unfold stage_names in Hn. simpl in Hn.
  destruct Hn as [<- | [<- | [<- | [<- | []]]]]; reflexivity.
Defined.

(** X24.  When [cflx_calc] finishes with [co2_flx] in [calc_list], the file
    [co2_flxs.pkl] holds what [co2_flx] returned: no later stage writes
    under that name, whatever the cations and feedstocks are called. *)
Theorem cflx_calc_co2_file_survives_later_stages
    fs outdir runname save_dir feedstock dust_from_file convert_units calc_list
    (st st' : Store) :
  mem "co2_flx" calc_list = true ->
  cflx_calc fs outdir runname save_dir feedstock dust_from_file convert_units calc_list st
  = (st', Ok tt) ->
  exists co2df,
    co2_flx fs outdir runname "flx_gas" "pco2" ["g1"; "g2"; "g3"] ["arg"; "cc"; "dlm"]
      convert_units 44.01 = Ok co2df
    /\ stored st' [outdir; runname; save_dir; "co2_flxs.pkl"] = Some (PickleQ co2df).
Proof.
  intros Hm. unfold cflx_calc. rewrite Hm. cbn [when].
  unfold bindJ at 1. unfold stage_co2 at 1. unfold bindJ at 1, compute, save.
  destruct (co2_flx _ _ _ _ _ _ _ _ _) as [co2df|e]; [|discriminate].
  intros H. exists co2df. split; auto.
  match type of H with ?rest ?s = _ =>
    assert (P : preserves [outdir; runname; save_dir; "co2_flxs.pkl"] rest) end.
  { unfold stage_carbAlk, stage_sumCat, stage_sld, savehere.
    preserved ltac:(simpl; congruence). }
  specialize (P (to_pickle st (savehere outdir runname save_dir "co2_flxs.pkl")
                   (PickleQ co2df))).
  rewrite H in P. simpl in P. rewrite P. apply stored_to_pickle_same.
Qed.

Lemma cflx_calc_co2_file_survives_later_stages_witness :
  exists co2df,
    co2_flx gas_alk_run "out" "run" "flx_gas" "pco2" ["g1"; "g2"; "g3"]
      ["arg"; "cc"; "dlm"] true 44.01 = Ok co2df
    /\ stored (fst (cflx_calc gas_alk_run "out" "run" "postproc_flxs" (One "cc") true
                      true ["co2_flx"; "carbAlk_adv"] []))
         ["out"; "run"; "postproc_flxs"; "co2_flxs.pkl"]
       = Some (PickleQ co2df).
Proof.
  apply (cflx_calc_co2_file_survives_later_stages gas_alk_run "out" "run"
           "postproc_flxs" (One "cc") true true ["co2_flx"; "carbAlk_adv"] []);
    vm_compute; reflexivity.
Defined.

(* ------------------------------------------------------------------ *)
(** ** Profile helpers *)

Lemma search_brackets_no_open s : occurs "[" s = false -> search_brackets s = None.
Proof.
  induction s as [|c s IH]; simpl; auto.
  destruct (Ascii.eqb c "["); simpl; [discriminate | auto].
Qed.

Lemma until_bracket_no_close s : occurs "]" s = false -> until_bracket s = None.
Proof.
  induction s as [|c s IH]; simpl; auto.
  destruct (Ascii.eqb c "]"); simpl; [discriminate|].
  intros H. destruct (Ascii.eqb c newline); auto. now rewrite IH.
Qed.

Lemma search_brackets_no_close s : occurs "]" s = false -> search_brackets s = None.
Proof.
  induction s as [|c s IH]; simpl; auto.
  intros H. apply orb_false_iff in H as [_ H].
  rewrite (until_bracket_no_close _ H), (IH H). now destruct (Ascii.eqb c "[").
Qed.

(** X25.  A variable name without an opening bracket, or without a closing
    one, has the units [NA]. *)
Theorem get_bsd_prof_units_without_brackets (var_name : string) :
  occurs "[" var_name = false \/ occurs "]" var_name = false ->
  get_bsd_prof_units var_name = "NA".
Proof.
  unfold get_bsd_prof_units. intros [H | H].
  - now rewrite search_brackets_no_open.
  - now rewrite search_brackets_no_close.
Qed.

Lemma get_bsd_prof_units_without_brackets_witness :
  get_bsd_prof_units "poro" = "NA".
Proof.
  apply (get_bsd_prof_units_without_brackets "poro"). left. reflexivity.
Defined.

Lemma until_bracket_units units rest :
  occurs "]" units = false -> occurs newline units = false ->
  until_bracket (units ++ String "]" rest) = Some units.
Proof.
  induction units as [|c u IH]; simpl; auto.
  intros H1 H2.
  apply orb_false_iff in H1 as [-> H1]. apply orb_false_iff in H2 as [-> H2].
  now rewrite IH.
Qed.

(** X26.  For a name of the form [name[units]rest], where [name] has no opening
    bracket and [units] neither a closing bracket nor a newline, the
    units are [units]. *)
Theorem get_bsd_prof_units_reads_first_brackets (name units rest : string) :
  occurs "[" name = false ->
  occurs "]" units = false -> occurs newline units = false ->
  get_bsd_prof_units (name ++ "[" ++ units ++ "]" ++ rest) = units.
Proof.
  intros Hn H1 H2. unfold get_bsd_prof_units.
  induction name as [|c n IH]; simpl in *.
  - now rewrite until_bracket_units.
  - apply orb_false_iff in Hn as [-> Hn]. now apply IH.
Qed.

Lemma get_bsd_prof_units_reads_first_brackets_witness :
  get_bsd_prof_units ("bulk density" ++ "[" ++ "g/cm3" ++ "]" ++ "") = "g/cm3".
Proof.
  apply (get_bsd_prof_units_reads_first_brackets "bulk density" "g/cm3" "");
    reflexivity.
Defined.

Lemma lookup_rename_other {A} (df : Frame A) (a b n : string) :
  n <> a -> n <> b -> lookup n (rename [(a, b)] df) = lookup n df.
Proof.
  intros Ha Hb. induction df as [|[k c] df IH]; simpl; auto.
  destruct (String.eqb a k) eqn:E.
  - apply String.eqb_eq in E. subst k.
    rewrite (eqb_neq_false b n), (eqb_neq_false a n) by congruence. exact IH.
  - now rewrite IH.
Qed.

Lemma lookup_rename_old {A} (df : Frame A) (a b : string) :
  a <> b -> lookup a (rename [(a, b)] df) = None.
Proof.
  intros Hab. induction df as [|[k c] df IH]; simpl; auto.
  destruct (String.eqb a k) eqn:E.
  - now rewrite (eqb_neq_false b a) by congruence.
  - rewrite String.eqb_sym, E. exact IH.
Qed.

Lemma lookup_rename_new {A} (df : Frame A) (a b : string) :
  lookup b df = None -> lookup b (rename [(a, b)] df) = lookup a df.
Proof.
  induction df as [|[k c] df IH]; simpl; auto.
  destruct (String.eqb k b) eqn:Eb; [discriminate|]. intros H.
  rewrite (String.eqb_sym k a).
  destruct (String.eqb a k) eqn:E.
  - now rewrite String.eqb_refl.
  - rewrite Eb. auto.
Qed.

(** X27.  For a numeric profile file without a [depth] column, [get_data_prof]
    returns a table without a [z] column, whose [depth] column is the [z]
    of the file and whose other columns are those of the file. *)
Theorem get_data_prof_renames_z fs outdir runname var_prefix time_index run_subdir
    (t : Frame Q) :
  fs [outdir; runname; run_subdir; prof_fn var_prefix time_index] = Some (as_file t) ->
  lookup "depth" t = None ->
  exists df,
    get_data_prof fs outdir runname var_prefix time_index run_subdir = Ok df
    /\ lookup "z" df = None
    /\ lookup "depth" df = lookup "z" t
    /\ forall n, n <> "z" -> n <> "depth" -> lookup n df = lookup n t.
Proof.
  intros Hfile Hd. unfold get_data_prof, preprocess_txt. rewrite Hfile.
  rewrite map_to_numeric_as_file. cbn [bind]. eexists. split; [reflexivity|].
  split; [|split].
  - apply lookup_rename_old. discriminate.
  - now apply lookup_rename_new.
  - intros n H1 H2. now apply lookup_rename_other.
Qed.

Lemma get_data_prof_renames_z_witness :
  exists df,
    get_data_prof prof_run "out" "run" "prof_aq" 1 "prof" = Ok df
    /\ lookup "z" df = None
    /\ lookup "depth" df = lookup "z" prof_table
    /\ forall n, n <> "z" -> n <> "depth" -> lookup n df = lookup n prof_table.
Proof.
  apply (get_data_prof_renames_z prof_run "out" "run" "prof_aq" 1 "prof" prof_table);
    reflexivity.
Defined.

Lemma uint_of_string_zeros k s :
  DecimalString.NilEmpty.uint_of_string (zeros k ++ s)
  = option_map (Nat.iter k Decimal.D0) (DecimalString.NilEmpty.uint_of_string s).
Proof.
  induction k as [|k IH]; simpl.
  - now destruct (DecimalString.NilEmpty.uint_of_string s).
  - rewrite IH. now destruct (DecimalString.NilEmpty.uint_of_string s).
Qed.

Lemma of_uint_zeros k d : N.of_uint (Nat.iter k Decimal.D0 d) = N.of_uint d.
Proof. induction k as [|k IH]; simpl; auto. Qed.

Lemma uint_of_zfill w n :
  option_map N.of_uint (DecimalString.NilEmpty.uint_of_string (zfill w n)) = Some n.
Proof.
  unfold zfill. rewrite uint_of_string_zeros, DecimalString.NilEmpty.usu. simpl.
  now rewrite of_uint_zeros, DecimalN.Unsigned.of_to.
Qed.

Lemma to_uint_nonnil n : N.to_uint n <> Decimal.Nil.
Proof.
  destruct n as [|p]; simpl; [discriminate|].
  apply DecimalPos.Unsigned.to_uint_nonnil.
Qed.

Lemma zfill_head w n :
  exists c s, zfill w n = String c s /\ c <> "-"%char.
Proof.
  unfold zfill.
  destruct (w - String.length _)%nat as [|k]; simpl.
  - pose proof (to_uint_nonnil n) as Hn.
    destruct (N.to_uint n); simpl; try congruence;
      eexists; eexists; (split; [reflexivity | discriminate]).
  - eexists; eexists; (split; [reflexivity | discriminate]).
Qed.

Lemma parse_index_format_03d (i : Z) : parse_index (format_03d i) = Some i.
Proof.
  unfold format_03d. destruct (Z.ltb_spec i 0) as [Hneg | Hpos].
  - change (parse_index ("-" ++ zfill 2 (Z.abs_N i)))
      with (option_map (fun d => (- Z.of_N (N.of_uint d))%Z)
              (DecimalString.NilEmpty.uint_of_string (zfill 2 (Z.abs_N i)))).
    pose proof (uint_of_zfill 2 (Z.abs_N i)) as H.
    destruct (DecimalString.NilEmpty.uint_of_string _) as [d|]; simpl in *;
      [|discriminate].
    injection H as ->. f_equal. rewrite N2Z.inj_abs_N. lia.
  - destruct (zfill_head 3 (Z.abs_N i)) as (c & s & E & Hc).
    pose proof (uint_of_zfill 3 (Z.abs_N i)) as H.
    rewrite E in *.
    assert (P : parse_index (String c s)
                = option_map (fun d => Z.of_N (N.of_uint d))
                    (DecimalString.NilEmpty.uint_of_string (String c s))).
    { unfold parse_index.
      destruct c as [[] [] [] [] [] [] [] []]; try reflexivity. congruence. }
    rewrite P.
    destruct (DecimalString.NilEmpty.uint_of_string _) as [d|]; simpl in *;
      [|discriminate].
    injection H as ->. f_equal. rewrite N2Z.inj_abs_N. lia.
Qed.

Lemma length_append (a b : string) :
  String.length (a ++ b) = (String.length a + String.length b)%nat.
Proof. induction a as [|c a IH]; simpl; auto. Qed.

Lemma append_inv_tail (a b t : string) : a ++ t = b ++ t -> a = b.
Proof.
  revert b. induction a as [|c a IH]; intros [|c' b] H; simpl in H; auto.
  - apply (f_equal String.length) in H. simpl in H. rewrite length_append in H. lia.
  - apply (f_equal String.length) in H. simpl in H. rewrite length_append in H. lia.
  - injection H as -> H. f_equal. auto.
Qed.

(** X28.  Two time indices have the same profile file name exactly when they
    are equal. *)
Theorem prof_fn_one_file_per_index (var_prefix : string) (i j : Z) :
  prof_fn var_prefix i = prof_fn var_prefix j <-> i = j.
Proof.
  split; [|now intros ->].
  unfold prof_fn. intros H.
  assert (E : format_03d i ++ ".txt" = format_03d j ++ ".txt").
  { clear -H. induction var_prefix as [|c p IH]; simpl in H.
    - now injection H.
    - injection H as H. auto. }
  assert (F : format_03d i = format_03d j).
  { clear -E. revert E. generalize (format_03d j). generalize (format_03d i).
    intros a b E. now apply append_inv_tail in E. }
  pose proof (parse_index_format_03d i) as Pi.
  pose proof (parse_index_format_03d j) as Pj.
  rewrite F in Pi. congruence.
Qed.

(* ------------------------------------------------------------------ *)
(** ** More on the cation tables *)

Lemma lookup_filter_none {A} (p : string * list A -> bool) (df : Frame A) n :
  (forall c, In (n, c) df -> p (n, c) = false) -> lookup n (filter p df) = None.
Proof.
  intros H. destruct (lookup n (filter p df)) as [c|] eqn:E; auto.
  apply lookup_filter_some in E as [Hin Hp]. rewrite (H c Hin) in Hp. discriminate.
Qed.

Lemma build_cation_df_lookup runname cation ccharge tmpdf tmpdfint
    inorganic_sp_list negligible_val m convert_units out nonint int n :
  build_cation_df runname cation ccharge tmpdf tmpdfint inorganic_sp_list
    negligible_val m convert_units = Ok (out, nonint, int) ->
  mem n ["noncarbsld_source"; "carbsld_source"; adv_name convert_units false;
         tot_name convert_units false; "charge";
         "units"; "flx_type"; "runname"; "cation"] = false ->
  lookup n (data nonint) = lookup n (trim_negligible tmpdf).
Proof.
  intros H Hn. unfold build_cation_df in H. cbv zeta in H.
  apply bind_ok in H as (s1 & _ & H). apply bind_ok in H as (s2 & _ & H).
  apply bind_ok in H as (s3 & _ & H). apply bind_ok in H as (s4 & _ & H).
  apply bind_ok in H as (a & Ha & H). apply bind_ok in H as (ai & Hai & H).
  apply bind_ok in H as (t & Ht & H). apply bind_ok in H as (ti & Hti & H).
  injection H as _ <- _. cbn [data].
  unfold mem in Hn. cbn [existsb] in Hn.
  repeat (apply orb_false_elim in Hn as [? Hn]).
  assert (Htext : mem n text_columns = false).
  { unfold mem, text_columns. cbn [existsb].
    repeat match goal with E : String.eqb _ _ = false |- _ => rewrite E; clear E end.
    reflexivity. }
  rewrite lookup_setcol_other by (rewrite String.eqb_sym; assumption).
  rewrite (lookup_as_text _ _ _ Htext).
  destruct convert_units; cbn [adv_name tot_name] in *;
    now rewrite !lookup_setcol_other by (rewrite String.eqb_sym; assumption).
Qed.

(** X29.  Whatever [negligible_val] is passed, a column outside [time], [adv],
    [tflx], [res] whose entries are all at most 1e-7 in absolute value is
    not in the instantaneous table of [build_cation_df]: the threshold
    is the literal 1e-7.  The columns that the function sets itself (the
    two source sums, the two potentials, [charge], and the text columns
    [units], [flx_type], [runname], [cation]) are always there and are not
    meant. *)
Theorem build_cation_df_drops_negligible_column runname cation ccharge tmpdf tmpdfint
    inorganic_sp_list negligible_val m convert_units out nonint int n :
  build_cation_df runname cation ccharge tmpdf tmpdfint inorganic_sp_list
    negligible_val m convert_units = Ok (out, nonint, int) ->
  mem n ["noncarbsld_source"; "carbsld_source"; adv_name convert_units false;
         tot_name convert_units false; "charge";
         "units"; "flx_type"; "runname"; "cation"] = false ->
  mem n columns_to_keep = false ->
  (forall c v, In (n, c) tmpdf -> In v c -> Qabs v <= 1e-7) ->
  lookup n (data nonint) = None.
Proof.
  intros H Hn Hk Hsmall.
  rewrite (build_cation_df_lookup _ _ _ _ _ _ _ _ _ _ _ _ n H Hn).
  unfold trim_negligible. apply lookup_filter_none.
  intros c Hin. cbn [fst snd]. rewrite Hk, orb_false_r.
  destruct (existsb _ c) eqn:E; auto.
  apply existsb_exists in E as (v & Hv & Hlt).
  pose proof (Hsmall c v Hin Hv) as Hle.
  unfold Qltb in Hlt. destruct (1e-7 ?= Qabs v) eqn:C; try discriminate.
  apply Qlt_alt in C. exfalso. apply (Qlt_irrefl 1e-7).
  eapply Qlt_le_trans; eauto.
Qed.

Lemma build_cation_df_drops_negligible_column_witness :
  lookup "cc"
    (data (snd (fst (value_of ([], mkDF [] [], mkDF [] [])
                       (build_cation_df "run" "ca" 2 cat_inst cat_int
                          ["cc"; "dlm"; "arg"] 1 44.01 true)))))
  = None.
Proof.
  apply (build_cation_df_drops_negligible_column "run" "ca" 2 cat_inst cat_int
           ["cc"; "dlm"; "arg"] 1 44.01 true
           (fst (fst (value_of ([], mkDF [] [], mkDF [] [])
                       (build_cation_df "run" "ca" 2 cat_inst cat_int
                          ["cc"; "dlm"; "arg"] 1 44.01 true))))
           (snd (fst (value_of ([], mkDF [] [], mkDF [] [])
                       (build_cation_df "run" "ca" 2 cat_inst cat_int
                          ["cc"; "dlm"; "arg"] 1 44.01 true))))
           (snd (value_of ([], mkDF [] [], mkDF [] [])
                       (build_cation_df "run" "ca" 2 cat_inst cat_int
                          ["cc"; "dlm"; "arg"] 1 44.01 true)))
           "cc").
  - vm_compute. reflexivity.
  - reflexivity.
  - reflexivity.
  - intros c v Hc Hv. simpl in Hc.
    destruct Hc as [Hc|[Hc|[Hc|[Hc|[Hc|[Hc|[]]]]]]]; try discriminate.
    injection Hc as <-. simpl in Hv. destruct Hv as [<- | []].
    vm_compute. discriminate.
Defined.

Lemma dict_get_key {V} (d : list (string * V)) k :
  In k (map fst d) -> exists v, dict_get d k = Ok v.
Proof.
  induction d as [|[k0 v0] d IH]; simpl; [tauto|].
  intros [-> | H].
  - rewrite String.eqb_refl. eauto.
  - destruct (String.eqb k0 k); eauto.
Qed.

Lemma find_cations_keys fs outdir runname var_fn (catvars_charge : list (string * Q)) cat :
  In cat (find_cations fs outdir runname var_fn catvars_charge) ->
  In cat (map fst catvars_charge).
Proof.
  rewrite find_cations_filter. intros H.
  apply in_map_iff in H as (kv & <- & H). apply filter_In in H as [H _].
  now apply in_map.
Qed.

(** X30.  [find_cations] looks at the instantaneous file only: when the first
    cation it finds has a numeric flux file and no [int_] file,
    [sumCat_adv] raises [FileNotFoundError] for the [int_] path. *)
Theorem sumCat_adv_needs_integrated_file fs outdir runname var_fn catvars_charge
    convert_units cat others (df : Frame Q) :
  find_cations fs outdir runname var_fn catvars_charge = cat :: others ->
  fs [outdir; runname; "flx"; var_fn ++ "-" ++ cat ++ ".txt"] = Some (as_file df) ->
  fs [outdir; runname; "flx"; "int_" ++ var_fn ++ "-" ++ cat ++ ".txt"] = None ->
  sumCat_adv fs outdir runname var_fn catvars_charge convert_units
  = Raise (FileNotFoundError
             [outdir; runname; "flx"; "int_" ++ var_fn ++ "-" ++ cat ++ ".txt"]).
Proof.
  intros E H1 H2. unfold sumCat_adv. rewrite E. cbn [foldM].
  unfold sumCat_step at 1.
  destruct (dict_get_key catvars_charge cat) as (ch & ->).
  { apply (find_cations_keys fs outdir runname var_fn). rewrite E. simpl. auto. }
  cbn [bind]. unfold get_data, preprocess_txt.
  rewrite H1, map_to_numeric_as_file. cbn [bind]. now rewrite H2.
Qed.

Lemma sumCat_adv_needs_integrated_file_witness :
  sumCat_adv ca_only_run "out" "run" "flx_aq" default_catvars_charge true
  = Raise (FileNotFoundError ["out"; "run"; "flx"; "int_flx_aq-ca.txt"]).
Proof.
  apply (sumCat_adv_needs_integrated_file ca_only_run "out" "run" "flx_aq"
           default_catvars_charge true "ca" [] ca_table);
    reflexivity.
Defined.

(* ------------------------------------------------------------------ *)
(** ** The run of the selected metrics *)

Lemma run_metrics_app l1 l2 st :
  run_metrics (l1 ++ l2)%list st = bindJ (run_metrics l1) (fun _ => run_metrics l2) st.
Proof.
  revert st. induction l1 as [|[a|e] l1 IH]; intros st; simpl; auto.
Qed.

Lemma run_metrics_stops completed e rest st :
  run_metrics (map (@Ok artifacts) completed ++ Raise e :: rest)%list st
  = (write_all st (List.concat completed), Raise e).
Proof.
  revert st. induction completed as [|a completed IH]; intros st; simpl; auto.
  rewrite IH. unfold write_all. now rewrite fold_left_app.
Qed.

Lemma run_metrics_completes completed st :
  run_metrics (map (@Ok artifacts) completed) st
  = (write_all st (List.concat completed), Ok tt).
Proof.
  revert st. induction completed as [|a completed IH]; intros st; simpl; auto.
  rewrite IH. unfold write_all. now rewrite fold_left_app.
Qed.

Lemma for_each_save {X} (path : X -> list string) (content : X -> pickle) l st :
  for_each l (fun x => save (path x) (content x)) st
  = (write_all st (map (fun x => (path x, content x)) l), Ok tt).
Proof.
  revert st. induction l as [|x l IH]; intros st; simpl; auto.
  unfold bindJ, save. now rewrite IH.
Qed.

Lemma when_run_metrics (b : bool) (j : Job unit) (r : result artifacts) st :
  (forall st0, j st0 = run_metrics [r] st0) ->
  when b j st = run_metrics (if b then [r] else []) st.
Proof. intros H. destruct b; simpl; auto. Qed.

Lemma stage_co2_runs fs outdir runname save_dir convert_units st :
  stage_co2 fs outdir runname save_dir convert_units st
  = run_metrics
      [ map_result (co2_artifacts outdir runname save_dir)
          (co2_flx fs outdir runname "flx_gas" "pco2" ["g1"; "g2"; "g3"]
             ["arg"; "cc"; "dlm"] convert_units 44.01) ] st.
Proof.
  unfold stage_co2, bindJ, compute.
  destruct (co2_flx _ _ _ _ _ _ _ _ _); reflexivity.
Qed.

Lemma stage_carbAlk_runs fs outdir runname save_dir convert_units st :
  stage_carbAlk fs outdir runname save_dir convert_units st
  = run_metrics
      [ map_result (carbAlk_artifacts outdir runname save_dir)
          (carbAlk_adv fs outdir runname "flx_co2sp" "ALK" convert_units
             88.02 44.01) ] st.
Proof.
  unfold stage_carbAlk, bindJ, compute.
  destruct (carbAlk_adv _ _ _ _ _ _ _ _); reflexivity.
Qed.

Lemma stage_sumCat_runs fs outdir runname save_dir st :
  stage_sumCat fs outdir runname save_dir st
  = run_metrics
      [ map_result (sumCat_artifacts outdir runname save_dir)
          (sumCat_adv fs outdir runname "flx_aq"
             [("ca", 2); ("mg", 2); ("k", 1); ("na", 1)] true) ] st.
Proof.
  unfold stage_sumCat, compute. unfold bindJ at 1.
  destruct (sumCat_adv _ _ _ _ _ _) as [r|e]; [|reflexivity].
  unfold bindJ, save.
  rewrite (for_each_save
             (fun item => savehere outdir runname save_dir
                            ("cationflx_" ++ fst item ++ ".pkl"))
             (fun item => PickleQ (snd item))).
  reflexivity.
Qed.

Lemma stage_sld_runs fs outdir runname save_dir feedstock st :
  stage_sld fs outdir runname save_dir feedstock st
  = run_metrics
      (map (fun f => map_result (sld_artifacts outdir runname save_dir f)
                       (sld_flx fs outdir runname f "flx_sld" true molar_mass_dict))
         (match feedstock with One s => [s] | Many l => l end)) st.
Proof.
  unfold stage_sld.
  generalize (match feedstock with One s => [s] | Many l => l end). intros l.
  revert st. induction l as [|f l IH]; intros st; simpl; auto.
  unfold bindJ at 1. unfold bindJ at 1. unfold compute, save.
  destruct (sld_flx _ _ _ _ _ _ _) as [d|e]; simpl; auto.
Qed.

Lemma bindJ_ext {A B} (c c' : Job A) (k k' : A -> Job B) st :
  (forall st0, c st0 = c' st0) -> (forall a st0, k a st0 = k' a st0) ->
  bindJ c k st = bindJ c' k' st.
Proof.
  intros Hc Hk. unfold bindJ. rewrite Hc.
  destruct (c' st) as [st' [a|e]]; auto.
Qed.

Lemma cflx_calc_runs_selected_metrics
    fs outdir runname save_dir feedstock dust_from_file convert_units calc_list st :
  cflx_calc fs outdir runname save_dir feedstock dust_from_file convert_units
    calc_list st
  = run_metrics (selected_metrics fs outdir runname save_dir feedstock convert_units
                   calc_list) st.
Proof.
  unfold cflx_calc, selected_metrics.
  rewrite run_metrics_app. apply bindJ_ext.
  { intros st0. apply when_run_metrics. intros st1. apply stage_co2_runs. }
  intros _ st1. rewrite run_metrics_app. apply bindJ_ext.
  { intros st0. apply when_run_metrics. intros st2. apply stage_carbAlk_runs. }
  intros _ st2. rewrite run_metrics_app. apply bindJ_ext.
  { intros st0. apply when_run_metrics. intros st3. apply stage_sumCat_runs. }
  intros _ st3.
  destruct (mem "sld_flx" calc_list); simpl; auto.
  apply stage_sld_runs.
Qed.

Lemma stored_write_all l st path :
  stored (write_all st l) path
  = match last_written l path with
    | Some p => Some p
    | None => stored st path
    end.
Proof.
  induction l as [|[q p] l IH] using rev_ind.
  - reflexivity.
  - unfold write_all, last_written in *.
    rewrite fold_left_app, rev_app_distr. cbn [fold_left rev app find fst snd].
    destruct (path_eqb q path) eqn:E.
    + apply path_eqb_eq in E. subst q. apply stored_to_pickle_same.
    + rewrite stored_to_pickle_other; [exact IH|].
      intros ->. assert (path_eqb q q = true) by now apply path_eqb_eq. congruence.
Qed.

Lemma get_data_no_int fs outdir runname var_fn cdvar (df : Frame Q) :
  fs [outdir; runname; "flx"; var_fn ++ "-" ++ cdvar ++ ".txt"] = Some (as_file df) ->
  fs [outdir; runname; "flx"; "int_" ++ var_fn ++ "-" ++ cdvar ++ ".txt"] = None ->
  get_data fs outdir runname var_fn cdvar
  = Raise (FileNotFoundError
             [outdir; runname; "flx"; "int_" ++ var_fn ++ "-" ++ cdvar ++ ".txt"]).
Proof.
  intros H1 H2. unfold get_data, preprocess_txt.
  rewrite H1, map_to_numeric_as_file. cbn [bind]. now rewrite H2.
Qed.

Lemma foldM_app {S X} (f : S -> X -> result S) (l1 l2 : list X) (s : S) :
  foldM f (l1 ++ l2)%list s = bind (foldM f l1 s) (foldM f l2).
Proof.
  revert s. induction l1 as [|x l1 IH]; intros s; simpl; auto.
  destruct (f s x) as [s'|e]; simpl; auto.
Qed.

Lemma sumCat_adv_no_int fs outdir runname var_fn catvars_charge convert_units
    earlier cat later st (df : Frame Q) :
  find_cations fs outdir runname var_fn catvars_charge = (earlier ++ cat :: later)%list ->
  foldM (sumCat_step fs outdir runname var_fn catvars_charge convert_units
           (earlier ++ cat :: later)%list) earlier (mkSumCat [] None None) = Ok st ->
  fs [outdir; runname; "flx"; var_fn ++ "-" ++ cat ++ ".txt"] = Some (as_file df) ->
  fs [outdir; runname; "flx"; "int_" ++ var_fn ++ "-" ++ cat ++ ".txt"] = None ->
  sumCat_adv fs outdir runname var_fn catvars_charge convert_units
  = Raise (FileNotFoundError
             [outdir; runname; "flx"; "int_" ++ var_fn ++ "-" ++ cat ++ ".txt"]).
Proof.
  intros E Hpre H1 H2. unfold sumCat_adv. rewrite E.
  rewrite foldM_app, Hpre. cbn [bind foldM].
  unfold sumCat_step at 1.
  destruct (dict_get_key catvars_charge cat) as (ch & ->).
  { apply (find_cations_keys fs outdir runname var_fn). rewrite E.
    apply in_or_app. right. simpl. auto. }
  cbn [bind]. now rewrite (get_data_no_int _ _ _ _ _ _ H1 H2).
Qed.

Lemma find_cations_skips fs outdir runname var_fn (catvars_charge : list (string * Q)) cat :
  fs [outdir; runname; "flx"; var_fn ++ "-" ++ cat ++ ".txt"] = None ->
  ~ In cat (find_cations fs outdir runname var_fn catvars_charge).
Proof.
  intros H Hin. rewrite find_cations_filter in Hin.
  apply in_map_iff in Hin as (kv & <- & Hin). apply filter_In in Hin as [_ Hin].
  unfold exists_path in Hin. now rewrite H in Hin.
Qed.

Lemma sld_flx_no_dust fs outdir runname feedstock var_fn mm df dfint time :
  get_data fs outdir runname var_fn feedstock = Ok (df, dfint) ->
  lookup "time" dfint = Some time ->
  fs [outdir; runname; "flx"; "dust.txt"] = None ->
  sld_flx fs outdir runname feedstock var_fn true mm
  = Raise (FileNotFoundError [outdir; runname; "flx"; "dust.txt"]).
Proof.
  intros Hget Ht Hdust. unfold sld_flx. rewrite Hget. cbn [bind].
  unfold times_time at 1.
  destruct (find _ (columns dfint)).
  - rewrite (lookup_getcol _ _ Ht). cbn [bind].
    unfold dust_from_file_series, load_dust.
    now rewrite (preprocess_txt_missing _ _ _ _ _ _ Hdust).
  - cbn [bind]. unfold dust_from_file_series, load_dust.
    now rewrite (preprocess_txt_missing _ _ _ _ _ _ Hdust).
Qed.

Lemma co2_file_is_kept fs outdir runname save_dir feedstock dust_from_file
    convert_units calc_list st d :
  mem "co2_flx" calc_list = true ->
  co2_flx fs outdir runname "flx_gas" "pco2" ["g1"; "g2"; "g3"] ["arg"; "cc"; "dlm"]
    convert_units 44.01 = Ok d ->
  stored (fst (cflx_calc fs outdir runname save_dir feedstock dust_from_file
                 convert_units calc_list st))
    [outdir; runname; save_dir; "co2_flxs.pkl"]
  = Some (PickleQ d).
Proof.
  intros Hm Hd. unfold cflx_calc. rewrite Hm. cbn [when].
  unfold bindJ at 1. unfold stage_co2 at 1. unfold bindJ at 1, compute, save.
  rewrite Hd.
  match goal with |- stored (fst (?rest ?s)) _ = _ =>
    assert (P : preserves [outdir; runname; save_dir; "co2_flxs.pkl"] rest) end.
  { unfold stage_carbAlk, stage_sumCat, stage_sld, savehere.
    preserved ltac:(simpl; congruence). }
  rewrite P. apply stored_to_pickle_same.
Qed.

Lemma carbAlk_file_is_kept fs outdir runname save_dir feedstock dust_from_file
    convert_units calc_list st d :
  (mem "co2_flx" calc_list = true ->
   is_ok (co2_flx fs outdir runname "flx_gas" "pco2" ["g1"; "g2"; "g3"]
            ["arg"; "cc"; "dlm"] convert_units 44.01) = true) ->
  mem "carbAlk_adv" calc_list = true ->
  carbAlk_adv fs outdir runname "flx_co2sp" "ALK" convert_units 88.02 44.01 = Ok d ->
  stored (fst (cflx_calc fs outdir runname save_dir feedstock dust_from_file
                 convert_units calc_list st))
    [outdir; runname; save_dir; "carbAlk_flxs.pkl"]
  = Some (PickleQ d).
Proof.
  intros H1 Hm Hd. unfold cflx_calc. rewrite Hm. cbn [when].
  assert (exists st1, when (mem "co2_flx" calc_list)
                        (stage_co2 fs outdir runname save_dir convert_units) st
                      = (st1, Ok tt)) as (st1 & E1).
  { destruct (mem "co2_flx" calc_list); cbn [when].
    - unfold stage_co2, bindJ, compute, save.
      destruct (co2_flx _ _ _ _ _ _ _ _ _); [eauto|].
      specialize (H1 eq_refl). discriminate.
    - unfold done. eauto. }
  rewrite (bindJ_ok _ _ _ E1).
  unfold bindJ at 1. unfold stage_carbAlk at 1. unfold bindJ at 1, compute, save.
  rewrite Hd.
  match goal with |- stored (fst (?rest ?s)) _ = _ =>
    assert (P : preserves [outdir; runname; save_dir; "carbAlk_flxs.pkl"] rest) end.
  { unfold stage_sumCat, stage_sld, savehere.
    preserved ltac:(simpl; congruence). }
  rewrite P. apply stored_to_pickle_same.
Qed.

(** C1 (amended).  There is no [MissingInputError] and nothing in
    [cflx_calc] catches an exception.  A missing file that a metric opens
    is a [FileNotFoundError] with the path of the file: the flux file and
    its [int_] counterpart for [co2_flx], [carbAlk_adv] and [sld_flx],
    [dust.txt] for [sld_flx], the [int_] file of a cation that was found
    for [sumCat_adv] (a cation without flux file is skipped) -- each when
    the files read before it load.  The selected metrics run in the order
    [co2_flx], [carbAlk_adv], [sumCat_adv], [sld_flx] (once for each
    feedstock); the first that raises ends the call with its exception,
    and the final store is the initial one with what the metrics before
    it persisted, and nothing of the failing or of a later metric; when
    none raises the call completes with all of them persisted.  At each
    path the final store holds what was written there last, or what it
    held before; [co2_flxs.pkl] and [carbAlk_flxs.pkl] hold what the
    metric returned. *)
Theorem cflx_calc_stops_at_first_failure :
  (* a missing file that a metric opens *)
  (forall fs outdir runname var_fn cdvar organic_sp_list inorganic_sp_list
          convert_units co2_g_mol,
      fs [outdir; runname; "flx"; var_fn ++ "-" ++ cdvar ++ ".txt"] = None ->
      co2_flx fs outdir runname var_fn cdvar organic_sp_list inorganic_sp_list
        convert_units co2_g_mol
      = Raise (FileNotFoundError
                 [outdir; runname; "flx"; var_fn ++ "-" ++ cdvar ++ ".txt"]))
  /\ (forall fs outdir runname var_fn cdvar organic_sp_list inorganic_sp_list
             convert_units co2_g_mol (df : Frame Q),
        fs [outdir; runname; "flx"; var_fn ++ "-" ++ cdvar ++ ".txt"]
        = Some (as_file df) ->
        fs [outdir; runname; "flx"; "int_" ++ var_fn ++ "-" ++ cdvar ++ ".txt"] = None ->
        co2_flx fs outdir runname var_fn cdvar organic_sp_list inorganic_sp_list
          convert_units co2_g_mol
        = Raise (FileNotFoundError
                   [outdir; runname; "flx"; "int_" ++ var_fn ++ "-" ++ cdvar ++ ".txt"]))
  /\ (forall fs outdir runname var_fn cdvar convert_units sil ccm,
        fs [outdir; runname; "flx"; var_fn ++ "-" ++ cdvar ++ ".txt"] = None ->
        carbAlk_adv fs outdir runname var_fn cdvar convert_units sil ccm
        = Raise (FileNotFoundError
                   [outdir; runname; "flx"; var_fn ++ "-" ++ cdvar ++ ".txt"]))
  /\ (forall fs outdir runname var_fn cdvar convert_units sil ccm (df : Frame Q),
        fs [outdir; runname; "flx"; var_fn ++ "-" ++ cdvar ++ ".txt"]
        = Some (as_file df) ->
        fs [outdir; runname; "flx"; "int_" ++ var_fn ++ "-" ++ cdvar ++ ".txt"] = None ->
        carbAlk_adv fs outdir runname var_fn cdvar convert_units sil ccm
        = Raise (FileNotFoundError
                   [outdir; runname; "flx"; "int_" ++ var_fn ++ "-" ++ cdvar ++ ".txt"]))
  /\ (forall fs outdir runname var_fn catvars_charge cat,
        fs [outdir; runname; "flx"; var_fn ++ "-" ++ cat ++ ".txt"] = None ->
        ~ In cat (find_cations fs outdir runname var_fn catvars_charge))
  /\ (forall fs outdir runname var_fn catvars_charge convert_units earlier cat later st
             (df : Frame Q),
        find_cations fs outdir runname var_fn catvars_charge
        = (earlier ++ cat :: later)%list ->
        foldM (sumCat_step fs outdir runname var_fn catvars_charge convert_units
                 (earlier ++ cat :: later)%list) earlier (mkSumCat [] None None)
        = Ok st ->
        fs [outdir; runname; "flx"; var_fn ++ "-" ++ cat ++ ".txt"]
        = Some (as_file df) ->
        fs [outdir; runname; "flx"; "int_" ++ var_fn ++ "-" ++ cat ++ ".txt"] = None ->
        sumCat_adv fs outdir runname var_fn catvars_charge convert_units
        = Raise (FileNotFoundError
                   [outdir; runname; "flx"; "int_" ++ var_fn ++ "-" ++ cat ++ ".txt"]))
  /\ (forall fs outdir runname feedstock var_fn dust_from_file mm,
        fs [outdir; runname; "flx"; var_fn ++ "-" ++ feedstock ++ ".txt"] = None ->
        sld_flx fs outdir runname feedstock var_fn dust_from_file mm
        = Raise (FileNotFoundError
                   [outdir; runname; "flx"; var_fn ++ "-" ++ feedstock ++ ".txt"]))
  /\ (forall fs outdir runname feedstock var_fn dust_from_file mm (df : Frame Q),
        fs [outdir; runname; "flx"; var_fn ++ "-" ++ feedstock ++ ".txt"]
        = Some (as_file df) ->
        fs [outdir; runname; "flx"; "int_" ++ var_fn ++ "-" ++ feedstock ++ ".txt"]
        = None ->
        sld_flx fs outdir runname feedstock var_fn dust_from_file mm
        = Raise (FileNotFoundError
                   [outdir; runname; "flx";
                    "int_" ++ var_fn ++ "-" ++ feedstock ++ ".txt"]))
  /\ (forall fs outdir runname feedstock var_fn mm df dfint time,
        get_data fs outdir runname var_fn feedstock = Ok (df, dfint) ->
        lookup "time" dfint = Some time ->
        fs [outdir; runname; "flx"; "dust.txt"] = None ->
        sld_flx fs outdir runname feedstock var_fn true mm
        = Raise (FileNotFoundError [outdir; runname; "flx"; "dust.txt"]))
  (* the run of the selected metrics *)
  /\ (forall fs outdir runname save_dir feedstock dust_from_file convert_units
             calc_list st completed e rest,
        selected_metrics fs outdir runname save_dir feedstock convert_units calc_list
        = (map (@Ok artifacts) completed ++ Raise e :: rest)%list ->
        cflx_calc fs outdir runname save_dir feedstock dust_from_file convert_units
          calc_list st
        = (write_all st (List.concat completed), Raise e))
  /\ (forall fs outdir runname save_dir feedstock dust_from_file convert_units
             calc_list st completed,
        selected_metrics fs outdir runname save_dir feedstock convert_units calc_list
        = map (@Ok artifacts) completed ->
        cflx_calc fs outdir runname save_dir feedstock dust_from_file convert_units
          calc_list st
        = (write_all st (List.concat completed), Ok tt))
  (* what the final store holds *)
  /\ (forall l st path,
        stored (write_all st l) path
        = match last_written l path with
          | Some p => Some p
          | None => stored st path
          end)
  /\ (forall fs outdir runname save_dir feedstock dust_from_file convert_units
             calc_list st d,
        mem "co2_flx" calc_list = true ->
        co2_flx fs outdir runname "flx_gas" "pco2" ["g1"; "g2"; "g3"]
          ["arg"; "cc"; "dlm"] convert_units 44.01 = Ok d ->
        stored (fst (cflx_calc fs outdir runname save_dir feedstock dust_from_file
                       convert_units calc_list st))
          [outdir; runname; save_dir; "co2_flxs.pkl"]
        = Some (PickleQ d))
  /\ (forall fs outdir runname save_dir feedstock dust_from_file convert_units
             calc_list st d,
        (mem "co2_flx" calc_list = true ->
         is_ok (co2_flx fs outdir runname "flx_gas" "pco2" ["g1"; "g2"; "g3"]
                  ["arg"; "cc"; "dlm"] convert_units 44.01) = true) ->
        mem "carbAlk_adv" calc_list = true ->
        carbAlk_adv fs outdir runname "flx_co2sp" "ALK" convert_units 88.02 44.01
        = Ok d ->
        stored (fst (cflx_calc fs outdir runname save_dir feedstock dust_from_file
                       convert_units calc_list st))
          [outdir; runname; save_dir; "carbAlk_flxs.pkl"]
        = Some (PickleQ d)).
Proof.
  repeat match goal with |- _ /\ _ => split end.
  - intros. unfold co2_flx. now rewrite (@get_data_missing fs outdir runname var_fn cdvar).
  - intros fs outdir runname var_fn cdvar o i cu k df H1 H2. unfold co2_flx.
    now rewrite (get_data_no_int _ _ _ _ _ _ H1 H2).
  - intros. unfold carbAlk_adv.
    now rewrite (@get_data_missing fs outdir runname var_fn cdvar).
  - intros fs outdir runname var_fn cdvar cu sil ccm df H1 H2. unfold carbAlk_adv.
    now rewrite (get_data_no_int _ _ _ _ _ _ H1 H2).
  - exact find_cations_skips.
  - exact sumCat_adv_no_int.
  - intros. unfold sld_flx.
    now rewrite (@get_data_missing fs outdir runname var_fn feedstock).
  - intros fs outdir runname feedstock var_fn dff mm df H1 H2. unfold sld_flx.
    now rewrite (get_data_no_int _ _ _ _ _ _ H1 H2).
  - exact sld_flx_no_dust.
  - intros fs outdir runname save_dir feedstock dff cu calc_list st completed e rest H.
    now rewrite cflx_calc_runs_selected_metrics, H, run_metrics_stops.
  - intros fs outdir runname save_dir feedstock dff cu calc_list st completed H.
    now rewrite cflx_calc_runs_selected_metrics, H, run_metrics_completes.
  - exact stored_write_all.
  - exact co2_file_is_kept.
  - exact carbAlk_file_is_kept.
Qed.

(** The theorem on a run whose integrated alkalinity file is missing:
    the CO2 fluxes are persisted, and nothing after them. *)
Lemma cflx_calc_stops_at_first_failure_witness :
  let d := value_of [] (co2_flx alk_no_int_run "out" "run" "flx_gas" "pco2"
                          ["g1"; "g2"; "g3"] ["arg"; "cc"; "dlm"] true 44.01) in
  let final := fst (cflx_calc alk_no_int_run "out" "run" "postproc_flxs" (One "cc")
                      true true ["co2_flx"; "carbAlk_adv"; "sumCat_adv"; "sld_flx"] []) in
  cflx_calc alk_no_int_run "out" "run" "postproc_flxs" (One "cc") true true
    ["co2_flx"; "carbAlk_adv"; "sumCat_adv"; "sld_flx"] []
  = (write_all [] (List.concat [co2_artifacts "out" "run" "postproc_flxs" d]),
     Raise (FileNotFoundError (flx "int_flx_co2sp-ALK.txt")))
  /\ stored final ["out"; "run"; "postproc_flxs"; "co2_flxs.pkl"] = Some (PickleQ d)
  /\ stored final ["out"; "run"; "postproc_flxs"; "carbAlk_flxs.pkl"] = None
  /\ stored final ["out"; "run"; "postproc_flxs"; "rockflx_cc.pkl"] = None.
Proof.
  destruct cflx_calc_stops_at_first_failure
    as (_ & _ & _ & _ & _ & _ & _ & _ & _ & Hstop & _ & _ & Hco2 & _).
  split; [|split; [|split; vm_compute; reflexivity]].
  - apply (Hstop alk_no_int_run "out" "run" "postproc_flxs" (One "cc") true true
             ["co2_flx"; "carbAlk_adv"; "sumCat_adv"; "sld_flx"] []
             [co2_artifacts "out" "run" "postproc_flxs"
                (value_of [] (co2_flx alk_no_int_run "out" "run" "flx_gas" "pco2"
                                ["g1"; "g2"; "g3"] ["arg"; "cc"; "dlm"] true 44.01))]
             (FileNotFoundError (flx "int_flx_co2sp-ALK.txt"))
             (skipn 2 (selected_metrics alk_no_int_run "out" "run" "postproc_flxs"
                         (One "cc") true
                         ["co2_flx"; "carbAlk_adv"; "sumCat_adv"; "sld_flx"]))).
    vm_compute. reflexivity.
  - apply Hco2; vm_compute; reflexivity.
Defined.

(* ------------------------------------------------------------------ *)
(** ** The conversion to ton/ha in the assemblers *)









(* ------------------------------------------------------------------ *)
(** ** A feedstock that dust.txt does not list *)



